(** * Sensor-data ingestion pipeline: a shallow embedding of [6_1.py] and [6_3.py]

    [6_1.py] is the stand-alone object-storage client with its demo,
    [6_3.py] is the directory watcher with the per-file pipeline
    (read, filter, stage, upload, archive, clean up).

    The embedding keeps the control flow of the Python code: exceptions
    are values of [exn] threaded through a state-and-error monad, the
    local file system and the remote bucket are finite maps, and every
    [logging] / [print] call appends a record to the world. *)

From stdpp Require Import gmap strings list fin_maps.
From Stdlib Require Import Ascii String Sorted.

Local Open Scope string_scope.

(** ** Strings as Python uses them here *)

Module PyStr.

(** [str.rfind(c)]: index of the last occurrence, [None] for -1. *)
Fixpoint rfind (c : ascii) (s : string) : option nat :=
  match s with
  | EmptyString => None
  | String a s' =>
      match rfind c s' with
      | Some i => Some (S i)
      | None => if Ascii.eqb a c then Some 0 else None
      end
  end.

(** [s[i:]] *)
Fixpoint drop_chars (i : nat) (s : string) : string :=
  match i, s with
  | 0, _ => s
  | S i', EmptyString => EmptyString
  | S i', String _ s' => drop_chars i' s'
  end.

Definition lower_ascii (c : ascii) : ascii :=
  let n := nat_of_ascii c in
  if (65 <=? n)%nat && (n <=? 90)%nat then ascii_of_nat (n + 32) else c.

(** [str.lower()].  Strings are byte strings here; a byte of a multi-byte
    UTF-8 character is at least 128 and is left alone.  The only
    non-ASCII characters whose lower case is ASCII are U+212A (to k) and
    U+0130 (to i followed by a combining dot), neither of which occurs in
    the literal the result is compared with. *)
Fixpoint lower (s : string) : string :=
  match s with
  | EmptyString => EmptyString
  | String a s' => String (lower_ascii a) (lower s')
  end.

(** A string here holds the UTF-8 encoding of a Python [str].  Its
    characters are the runs made of one byte and the continuation bytes
    (10xxxxxx) that follow it. *)
Definition is_continuation (a : ascii) : bool :=
  let n := nat_of_ascii a in (128 <=? n)%nat && (n <? 192)%nat.

Definition starts_with_continuation (c : string) : bool :=
  match c with
  | String a _ => is_continuation a
  | EmptyString => false
  end.

Fixpoint chars (s : string) : list string :=
  match s with
  | EmptyString => []
  | String a s' =>
      match chars s' with
      | c :: cs =>
          if starts_with_continuation c then String a c :: cs
          else String a EmptyString :: c :: cs
      | [] => [String a EmptyString]
      end
  end.

Definition unchars (l : list string) : string := List.fold_right String.append "" l.

Definition byte_values (c : string) : list nat :=
  List.map nat_of_ascii (list_ascii_of_string c).

(** [str.isspace] of one character: U+0009 to U+000D, U+001C to U+0020,
    U+0085, U+00A0, U+1680, U+2000 to U+200A, U+2028, U+2029, U+202F,
    U+205F and U+3000, each in its UTF-8 encoding. *)
Definition is_space (c : string) : bool :=
  match byte_values c with
  | [n] => ((9 <=? n)%nat && (n <=? 13)%nat) || ((28 <=? n)%nat && (n <=? 32)%nat)
  | [a; n] => (a =? 194)%nat && ((n =? 133)%nat || (n =? 160)%nat)
  | [a; b; n] =>
      ((a =? 225)%nat && (b =? 154)%nat && (n =? 128)%nat)
      || ((a =? 226)%nat && (b =? 128)%nat
          && (((128 <=? n)%nat && (n <=? 138)%nat)
              || (n =? 168)%nat || (n =? 169)%nat || (n =? 175)%nat))
      || ((a =? 226)%nat && (b =? 129)%nat && (n =? 159)%nat)
      || ((a =? 227)%nat && (b =? 128)%nat && (n =? 128)%nat)
  | _ => false
  end.

(** [str.lstrip()] and [str.rstrip()] on the characters of a string. *)
Fixpoint lstrip_chars (l : list string) : list string :=
  match l with
  | [] => []
  | c :: cs => if is_space c then lstrip_chars cs else l
  end.

Definition rstrip_chars (l : list string) : list string :=
  reverse (lstrip_chars (reverse l)).

Definition strip_chars (l : list string) : list string :=
  rstrip_chars (lstrip_chars l).

(** [str.strip()] *)
Definition strip (s : string) : string := unchars (strip_chars (chars s)).

(** [s.split(sep)] for a one-character separator: never empty. *)
Fixpoint split (sep : ascii) (s : string) : list string :=
  match s with
  | EmptyString => [EmptyString]
  | String a s' =>
      if Ascii.eqb a sep then EmptyString :: split sep s'
      else match split sep s' with
           | [] => [String a EmptyString]
           | w :: ws => String a w :: ws
           end
  end.

(** [c in s] *)
Fixpoint contains (c : ascii) (s : string) : bool :=
  match s with
  | EmptyString => false
  | String a s' => Ascii.eqb a c || contains c s'
  end.

(** [sep.join(l)] *)
Fixpoint join (sep : string) (l : list string) : string :=
  match l with
  | [] => EmptyString
  | [x] => x
  | x :: rest => x ++ sep ++ join sep rest
  end.

End PyStr.

(** ** [pathlib.Path] on POSIX

    A path is its root (empty, one slash or two slashes) and its
    components, as [PurePosixPath] parses them: empty components and
    single-dot components are dropped, double-dot components are kept. *)

Module PurePath.

Record Path := mkPath { root : string; parts : list string }.

#[global] Instance Path_eq_dec : EqDecision Path.
Proof. solve_decision. Defined.

#[global] Instance Path_countable : Countable Path.
Proof.
  apply (inj_countable' (fun p => (root p, parts p))
                        (fun t => mkPath (fst t) (snd t))).
  intros [r ps]; reflexivity.
Defined.

(** [_PosixFlavour.splitroot] *)
Definition splitroot (part : string) : string * string :=
  match part with
  | String "/" (String "/" (String "/" _)) => ("/", part)
  | String "/" (String "/" rest) => ("//", rest)
  | String "/" rest => ("/", rest)
  | _ => ("", part)
  end.

Definition keep_part (x : string) : bool :=
  negb (String.eqb x "") && negb (String.eqb x ".").

(** [Path(s)] *)
Definition of_string (s : string) : Path :=
  let '(r, rel) := splitroot s in
  mkPath r (filter (fun x => Is_true (keep_part x)) (PyStr.split "/" rel)).

(** [Path.name]: the final component, empty when there is none. *)
Definition name (p : Path) : string := List.last (parts p) "".

(** [Path.suffix] *)
Definition suffix (p : Path) : string :=
  let n := name p in
  match PyStr.rfind "." n with
  | Some i =>
      if (0 <? i)%nat && (i <? String.length n - 1)%nat
      then PyStr.drop_chars i n else ""
  | None => ""
  end.

(** [p / s] for a relative one-component-or-more string [s]; an absolute
    right operand replaces the left one, as in pathlib. *)
Definition joinpath (p : Path) (s : string) : Path :=
  let q := of_string s in
  if String.eqb (root q) "" then mkPath (root p) (parts p ++ parts q) else q.

(** [Path.parent] *)
Definition parent (p : Path) : Path := mkPath (root p) (removelast (parts p)).

(** [str(p)] *)
Definition str (p : Path) : string :=
  match parts p with
  | [] => if String.eqb (root p) "" then "." else root p
  | _ => root p ++ PyStr.join "/" (parts p)
  end.

End PurePath.

Export PurePath.

(** ** Exceptions, data frames, the world *)

(** The exception classes the two programs raise, catch or let through.
    The last two derive from [BaseException] and not from [Exception]:
    an [except Exception] clause lets them pass. *)
Inductive exn :=
| FileNotFoundError (what : string)
| IsADirectoryError (what : string)
| NotADirectoryError (what : string)
| FileExistsError (what : string)
| OSError (what : string)
| ShutilError (what : string)      (* shutil.Error *)
| ValueError (what : string)
| ParserError (what : string)      (* pandas.errors.ParserError, EmptyDataError *)
| ClientError (code : string)      (* botocore: e.response['Error']['Code'] *)
| OtherException (cls : string)    (* PermissionError, EndpointConnectionError, ... *)
| CancelledError                   (* asyncio.CancelledError, raised at an await *)
| KeyboardInterrupt.

#[global] Instance exn_eq_dec : EqDecision exn.
Proof. solve_decision. Defined.

(** [isinstance(e, ClientError)] and [isinstance(e, FileNotFoundError)]. *)
Definition is_ClientError (e : exn) : bool :=
  match e with ClientError _ => true | _ => false end.

Definition is_FileNotFoundError (e : exn) : bool :=
  match e with FileNotFoundError _ => true | _ => false end.

(** [isinstance(e, Exception)] *)
Definition is_Exception (e : exn) : bool :=
  match e with CancelledError | KeyboardInterrupt => false | _ => true end.

(** A pandas data frame as far as [dropna] looks at it: named columns and
    rows of cells, a cell being absent ([None], NaN) or present. *)
Record DataFrame := mkDF { columns : list string; rows : list (list (option string)) }.

Definition notna (c : option string) : bool :=
  match c with Some _ => true | None => false end.

(** [DataFrame.dropna()] with its defaults [axis=0, how='any']: a row is
    kept when none of its cells is missing. *)
Definition dropna (df : DataFrame) : DataFrame :=
  mkDF (columns df) (List.filter (forallb notna) (rows df)).

Inductive node := File (body : string) | Dir.

#[global] Instance node_eq_dec : EqDecision node.
Proof. solve_decision. Defined.

(** A request sent to the object store. *)
Inductive request :=
| ReqPut (bucket key body : string)
| ReqHead (bucket key : string).

Inductive level := INFO | ERROR.

(** The messages of the [logging] and [print] calls, one constructor per
    call site; the arguments are the values formatted into the text. *)
Inductive message :=
| MsgPutOk (remote_name : string)              (* 6_3:50, 6_1:43 *)
| MsgPutClientError (e : exn)                  (* 6_3:52, 6_1:45 *)
| MsgPutMissing (e : exn)                      (* 6_3:54, 6_1:47 *)
| MsgHeadError (e : exn)                       (* 6_1:94 *)
| MsgNewFile (p : Path)                        (* 6_3:101 *)
| MsgFileRead (p : Path)                       (* 6_3:105 *)
| MsgFiltered (p : Path)                       (* 6_3:109 *)
| MsgStaged (p tmp : Path)                     (* 6_3:114 *)
| MsgUploaded (tmp : Path) (remote_name : string)  (* 6_3:119 *)
| MsgArchived (p archive_path : Path)          (* 6_3:124 *)
| MsgTempRemoved (tmp : Path)                  (* 6_3:128 *)
| MsgRunError (p : Path) (e : exn).            (* 6_3:131 *)

Record World := mkWorld {
  fs : gmap Path node;                     (* local file system *)
  remote : gmap (string * string) string;  (* objects by (bucket, key) *)
  net : list request;                      (* requests sent, oldest first *)
  log : list (level * message);            (* pipeline.log, oldest first *)
  stdout : list message;                   (* printed lines, oldest first *)
  loop_tasks : list Path                   (* process_csv coroutines handed to the loop *)
}.

(** The operations whose outcome the environment decides. *)
Inductive op :=
| OpRead | OpWrite | OpOpen | OpMove | OpUnlink | OpMkdir
| OpConnect | OpPut | OpHead.

(** What the programs do not control: the pandas reader and writer, and
    the failures (permissions, disk, transport, service) that make an
    operation raise although the modelled state would let it succeed. *)
Record Env := mkEnv {
  parse_csv : string -> exn + DataFrame;
  render_csv : DataFrame -> string;
  fault : op -> option exn
}.

(** ** The state-and-exception monad *)

Definition M (A : Type) : Type := World -> (exn + A) * World.

#[global] Instance M_ret : MRet M := fun A a w => (inr a, w).

#[global] Instance M_bind : MBind M := fun A B f m w =>
  match m w with
  | (inl e, w') => (inl e, w')
  | (inr a, w') => f a w'
  end.

Definition raise {A} (e : exn) : M A := fun w => (inl e, w).

Definition get : M World := fun w => (inr w, w).

Definition modify (f : World -> World) : M unit := fun w => (inr tt, f w).

(** [try: body / except C1 as e: h1 e / except C2 as e: h2 e / ...]: the
    first clause whose class test accepts the exception handles it, and
    an exception no clause accepts propagates. *)
Fixpoint dispatch {A} (clauses : list ((exn -> bool) * (exn -> M A))) (e : exn) : M A :=
  match clauses with
  | [] => raise e
  | (accepts, handler) :: rest => if accepts e then handler e else dispatch rest e
  end.

Definition try_except {A} (body : M A) (clauses : list ((exn -> bool) * (exn -> M A))) : M A :=
  fun w =>
    match body w with
    | (inl e, w') => dispatch clauses e w'
    | r => r
    end.

Definition set_fs (f : gmap Path node -> gmap Path node) (w : World) : World :=
  mkWorld (f (fs w)) (remote w) (net w) (log w) (stdout w) (loop_tasks w).

Definition set_remote (f : gmap (string * string) string -> gmap (string * string) string)
    (w : World) : World :=
  mkWorld (fs w) (f (remote w)) (net w) (log w) (stdout w) (loop_tasks w).

Definition add_request (r : request) (w : World) : World :=
  mkWorld (fs w) (remote w) (net w ++ [r]) (log w) (stdout w) (loop_tasks w).

Definition add_log (l : level) (m : message) (w : World) : World :=
  mkWorld (fs w) (remote w) (net w) (log w ++ [(l, m)]) (stdout w) (loop_tasks w).

Definition add_stdout (m : message) (w : World) : World :=
  mkWorld (fs w) (remote w) (net w) (log w) (stdout w ++ [m]) (loop_tasks w).

Definition add_task (p : Path) (w : World) : World :=
  mkWorld (fs w) (remote w) (net w) (log w) (stdout w) (loop_tasks w ++ [p]).

Definition logging_info (m : message) : M unit := modify (add_log INFO m).
Definition logging_error (m : message) : M unit := modify (add_log ERROR m).
Definition print (m : message) : M unit := modify (add_stdout m).

(** ** The local file system *)

Definition is_file (w : World) (p : Path) : bool :=
  match fs w !! p with Some (File _) => true | _ => false end.

(** The root and the current directory always exist. *)
Definition is_dir (w : World) (p : Path) : bool :=
  match parts p with
  | [] => true
  | _ => match fs w !! p with Some Dir => true | _ => false end
  end.

Definition exists_ (w : World) (p : Path) : bool :=
  is_dir w p || is_file w p.

(** The text of a path as the operating system reads it when [pathlib]
    is not in between: a path whose last component is empty or a single
    dot (it ends in a slash, or in a slash and a dot) names a directory
    or nothing. *)
Definition demands_directory (s : string) : bool :=
  let x := List.last (PyStr.split "/" s) "" in
  String.eqb x "" || String.eqb x ".".

(** [os.path.isfile(s)]: [os.stat] failing for any reason gives
    [False]. *)
Definition os_path_isfile (w : World) (s : string) : bool :=
  negb (demands_directory s) && is_file w (of_string s).

(** The file system with the directories [ds] in it. *)
Definition with_dirs (ds : list Path) (m : gmap Path node) : gmap Path node :=
  List.fold_left (fun m d => <[d := Dir]> m) ds m.

Section Primitives.
Variable env : Env.

(** An operation first asks the environment whether it fails. *)
Definition check (o : op) : M unit :=
  match fault env o with
  | Some e => raise e
  | None => mret tt
  end.

(** [pd.read_csv(path)] *)
Definition read_csv (p : Path) : M DataFrame :=
  check OpRead;;
  w ← get;
  match fs w !! p with
  | None => raise (FileNotFoundError (str p))
  | Some Dir => raise (IsADirectoryError (str p))
  | Some (File body) =>
      match parse_csv env body with
      | inl e => raise e
      | inr df => mret df
      end
  end.

(** [df.to_csv(path, index=False)]: pandas refuses a missing parent
    directory with an [OSError] before it opens the file. *)
Definition to_csv (df : DataFrame) (p : Path) : M unit :=
  check OpWrite;;
  w ← get;
  if negb (is_dir w (parent p)) then raise (OSError (str (parent p)))
  else if is_dir w p then raise (IsADirectoryError (str p))
  else modify (set_fs (insert p (File (render_csv env df)))).

(** [path.open("rb")] followed by reading the whole file. *)
Definition open_rb (p : Path) : M string :=
  check OpOpen;;
  w ← get;
  match fs w !! p with
  | None => raise (FileNotFoundError (str p))
  | Some Dir => raise (IsADirectoryError (str p))
  | Some (File body) => mret body
  end.

(** [path.unlink()] *)
Definition unlink (p : Path) : M unit :=
  check OpUnlink;;
  w ← get;
  match fs w !! p with
  | None => raise (FileNotFoundError (str p))
  | Some Dir => raise (IsADirectoryError (str p))
  | Some (File _) => modify (set_fs (delete p))
  end.

(** The ancestors of a path, outermost first, the path itself last. *)
Definition ancestors_and_self (p : Path) : list Path :=
  List.map (fun n => mkPath (root p) (take n (parts p))) (seq 1 (List.length (parts p))).

(** [path.mkdir(parents=True, exist_ok=True)]: [os.mkdir] meets a
    regular file where a parent should be and raises
    [NotADirectoryError]; it meets one at the path itself and raises
    [FileExistsError]; either is raised again, as the path is no
    directory.  Otherwise the missing directories are made, outermost
    first, and the existing ones are left as they are. *)
Definition mkdir_p (p : Path) : M unit :=
  check OpMkdir;;
  w ← get;
  if existsb (is_file w) (ancestors_and_self (parent p))
  then raise (NotADirectoryError (str p))
  else if negb (is_dir w p) && is_file w p then raise (FileExistsError (str p))
  else modify (set_fs (with_dirs (ancestors_and_self p))).

(** [src] is [dir] or lies below it. *)
Definition below (dir p : Path) : bool :=
  bool_decide (root dir = root p) &&
  bool_decide (take (List.length (parts dir)) (parts p) = parts dir).

(** Moving a directory moves what lies below it. *)
Definition rebase (src dst k : Path) : Path :=
  if below src k
  then mkPath (root dst) (parts dst ++ drop (List.length (parts src)) (parts k))
  else k.

(** What opening or creating an entry raises when the parent of the
    path is no directory. *)
Definition no_parent (w : World) (p : Path) : exn :=
  if is_file w (parent p) then NotADirectoryError (str p)
  else FileNotFoundError (str p).

(** [os.rename(src, dst)] on POSIX, falling back as [shutil.move] does
    when it raises: a regular file replaces an existing regular file;
    a directory whose destination has no parent yet is copied with
    [copytree], which makes the missing parents, and then removed. *)
Definition rename_or_copy (src real_dst : Path) : M unit :=
  w ← get;
  match fs w !! src with
  | None => raise (FileNotFoundError (str src))
  | Some (File body) =>
      if negb (is_dir w (parent real_dst)) then raise (no_parent w real_dst)
      else if is_dir w real_dst then raise (IsADirectoryError (str real_dst))
      else modify (set_fs (fun m => <[real_dst := File body]> (delete src m)))
  | Some Dir =>
      let moved (m : gmap Path node) : gmap Path node :=
        list_to_map (List.map (fun kv => (rebase src real_dst (fst kv), snd kv))
                              (map_to_list m)) in
      if below src real_dst then raise (ShutilError (str src))
      else if exists_ w real_dst then raise (FileExistsError (str real_dst))
      else if is_dir w (parent real_dst) then modify (set_fs moved)
      else if existsb (is_file w) (ancestors_and_self (parent real_dst))
      then raise (NotADirectoryError (str real_dst))
      else modify (set_fs (fun m =>
             moved (with_dirs (ancestors_and_self (parent real_dst)) m)))
  end.

(** [shutil.move(src, dst)]; the result is the real destination. *)
Definition shutil_move (src dst : Path) : M Path :=
  check OpMove;;
  w ← get;
  if is_dir w dst then
    if bool_decide (src = dst) then mret dst
    else
      let real_dst := joinpath dst (name src) in
      if exists_ w real_dst then raise (ShutilError (str real_dst))
      else rename_or_copy src real_dst;; mret real_dst
  else rename_or_copy src dst;; mret dst.

(** ** The object store *)

(** [self._session.create_client(...)] entered as a context manager. *)
Definition connect : M unit := check OpConnect.

(** [remote.put_object(Bucket=, Key=, Body=)]: creates or replaces. *)
Definition put_object (bucket key body : string) : M unit :=
  modify (add_request (ReqPut bucket key body));;
  check OpPut;;
  modify (set_remote (insert (bucket, key) body)).

(** [remote.head_object(Bucket=, Key=)]: a missing key is a
    [ClientError] with code 404. *)
Definition head_object (bucket key : string) : M unit :=
  modify (add_request (ReqHead bucket key));;
  check OpHead;;
  w ← get;
  match remote w !! (bucket, key) with
  | Some _ => mret tt
  | None => raise (ClientError "404")
  end.

End Primitives.

(** ** [class AsyncObjectStorage]: what [6_1.py] and [6_3.py] share *)

Record Auth := mkAuth {
  aws_access_key_id : string;
  aws_secret_access_key : string;
  endpoint_url : string;
  region_name : string
}.

Record AsyncObjectStorage := mkStorage {
  _auth : Auth;
  _bucket : string;
  _ca_bundle : option string
}.

(** Truth value of an optional string: [None] and the empty string are
    false. *)
Definition truthy (s : option string) : bool :=
  match s with
  | None => false
  | Some s' => negb (String.eqb s' "")
  end.

(** [AsyncObjectStorage.__init__], the same text in both files.
    [os.path.isfile] is given the text of the bundle path as it was
    passed, and is never evaluated for an absent or empty one. *)
Definition __init__ (key_id secret endpoint container : string)
    (ca_bundle : option string) : M AsyncObjectStorage :=
  let self :=
    mkStorage (mkAuth key_id secret (PyStr.strip endpoint) "ru-7") container ca_bundle in
  w ← get;
  if truthy (_ca_bundle self)
     && negb (os_path_isfile w (default "" (_ca_bundle self)))
  then raise (FileNotFoundError (default "" (_ca_bundle self)))
  else mret self.

(** [e.response['Error']['Code']] *)
Definition error_code (e : exn) : string :=
  match e with ClientError c => c | _ => "" end.

(** ** [6_1.py]: the client on its own *)

Module Storage.
Section WithEnv.
Variable env : Env.

(** [AsyncObjectStorage.send_file(local_source)], 6_1.py lines 29-47 *)
Definition send_file (self : AsyncObjectStorage) (local_source : string) : M unit :=
  let file_ref := of_string local_source in
  w ← get;
  if negb (is_file w file_ref) then raise (ValueError (str file_ref))
  else
    let target_name := name file_ref in
    try_except
      (connect env;;
       binary_data ← open_rb env file_ref;
       put_object env (_bucket self) target_name binary_data;;
       print (MsgPutOk target_name))
      [ (is_ClientError, fun e => print (MsgPutClientError e));
        (is_FileNotFoundError, fun e => print (MsgPutMissing e)) ].

(** [AsyncObjectStorage.file_exists(remote_name)], 6_1.py lines 85-95 *)
Definition file_exists (self : AsyncObjectStorage) (remote_name : string) : M bool :=
  try_except
    (connect env;;
     head_object env (_bucket self) remote_name;;
     mret true)
    [ (is_ClientError, fun e =>
         if String.eqb (error_code e) "404" then mret false
         else print (MsgHeadError e);; mret false) ].

End WithEnv.
End Storage.

(** ** [6_3.py]: the watcher and the per-file pipeline *)

Module Pipeline.

Record CSVHandler := mkHandler {
  storage : AsyncObjectStorage;
  source_dir : Path;
  archive_dir : Path;
  temp_dir : Path
}.

(** A watchdog event as far as [on_created] reads it. *)
Record FileSystemEvent := mkEvent { is_directory : bool; src_path : string }.

(** [asyncio.run_coroutine_threadsafe(self.process_csv(file_path), self.loop)]:
    the coroutine, identified by its argument, is handed to the loop. *)
Definition run_coroutine_threadsafe (file_path : Path) : M unit :=
  modify (add_task file_path).

Section WithEnv.
Variable env : Env.

(** [AsyncObjectStorage.send_file(local_source, remote_name)], 6_3.py
    lines 37-54; the caller passes a [Path], which [Path(...)] returns
    unchanged. *)
Definition send_file (self : AsyncObjectStorage) (local_source : Path)
    (remote_name : string) : M unit :=
  let file_ref := local_source in
  w ← get;
  if negb (is_file w file_ref) then raise (ValueError (str file_ref))
  else
    try_except
      (connect env;;
       binary_ ← open_rb env file_ref;
       put_object env (_bucket self) remote_name binary_;;
       logging_info (MsgPutOk remote_name))
      [ (is_ClientError, fun e => logging_error (MsgPutClientError e));
        (is_FileNotFoundError, fun e => logging_error (MsgPutMissing e)) ].

(** [CSVHandler.__init__], 6_3.py lines 83-90 *)
Definition CSVHandler__init__ (storage : AsyncObjectStorage)
    (source_dir archive_dir temp_dir : string) : M CSVHandler :=
  let self :=
    mkHandler storage (of_string source_dir) (of_string archive_dir) (of_string temp_dir) in
  mkdir_p env (Pipeline.temp_dir self);;
  mkdir_p env (Pipeline.archive_dir self);;
  mret self.

(** [CSVHandler.on_created], 6_3.py lines 92-98 *)
Definition on_created (self : CSVHandler) (event : FileSystemEvent) : M unit :=
  if is_directory event then mret tt
  else
    let file_path := of_string (src_path event) in
    if String.eqb (PyStr.lower (suffix file_path)) ".csv"
    then run_coroutine_threadsafe file_path
    else mret tt.

(** [CSVHandler.process_csv], 6_3.py lines 100-131 *)
Definition process_csv (self : CSVHandler) (file_path : Path) : M unit :=
  logging_info (MsgNewFile file_path);;
  try_except
    (df ← read_csv env file_path;
     logging_info (MsgFileRead file_path);;
     let df_filtered := dropna df in
     logging_info (MsgFiltered file_path);;
     let temp_file_path := joinpath (temp_dir self) (name file_path) in
     to_csv env df_filtered temp_file_path;;
     logging_info (MsgStaged file_path temp_file_path);;
     let remote_name := "processed/" ++ name file_path in
     send_file (storage self) temp_file_path remote_name;;
     logging_info (MsgUploaded temp_file_path remote_name);;
     let archive_path := joinpath (archive_dir self) (name file_path) in
     shutil_move env file_path archive_path;;
     logging_info (MsgArchived file_path archive_path);;
     unlink env temp_file_path;;
     logging_info (MsgTempRemoved temp_file_path))
    [ (is_Exception, fun e => logging_error (MsgRunError file_path e)) ].

End WithEnv.
End Pipeline.

(** ** The state of a run, read off its log

    [process_csv] keeps no state variable; the stage a run has reached is
    what its records in [pipeline.log] say.  Each stage writes one INFO
    record when it is done, and the [except Exception] clause writes one
    ERROR record. *)

Inductive stage := Read | Filtered | Staged | Uploaded | Archived | Cleaned.

Inductive run_state :=
| Detected
| At (s : stage)
| Failed (s : stage) (cause : exn).

#[global] Instance stage_eq_dec : EqDecision stage.
Proof. solve_decision. Defined.

#[global] Instance run_state_eq_dec : EqDecision run_state.
Proof. solve_decision. Defined.

(** The stage that was running when the state was [st]. *)
Definition stage_after (st : run_state) : stage :=
  match st with
  | Detected => Read
  | At Read => Filtered
  | At Filtered => Staged
  | At Staged => Uploaded
  | At Uploaded => Archived
  | At Archived => Cleaned
  | At Cleaned => Cleaned
  | Failed s _ => s
  end.

(** The state a pipeline record announces, given the state before it;
    the records of [send_file] announce none. *)
Definition state_of_record (cur : run_state) (m : message) : option run_state :=
  match m with
  | MsgNewFile _ => Some Detected
  | MsgFileRead _ => Some (At Read)
  | MsgFiltered _ => Some (At Filtered)
  | MsgStaged _ _ => Some (At Staged)
  | MsgUploaded _ _ => Some (At Uploaded)
  | MsgArchived _ _ => Some (At Archived)
  | MsgTempRemoved _ => Some (At Cleaned)
  | MsgRunError _ e => Some (Failed (stage_after cur) e)
  | _ => None
  end.

(** The states a run goes through, oldest first. *)
Fixpoint states_from (cur : run_state) (l : list (level * message)) : list run_state :=
  match l with
  | [] => []
  | (_, m) :: rest =>
      match state_of_record cur m with
      | Some st => st :: states_from st rest
      | None => states_from cur rest
      end
  end.

Definition states_of_log (l : list (level * message)) : list run_state :=
  states_from Detected l.

(** The order of the stages. *)
Definition rank (st : run_state) : nat :=
  match st with
  | Detected => 0
  | At Read => 1
  | At Filtered => 2
  | At Staged => 3
  | At Uploaded => 4
  | At Archived => 5
  | At Cleaned => 6
  | Failed _ _ => 7
  end.

(** The watcher thread delivers the events one after the other. *)
Definition dispatch_events (self : Pipeline.CSVHandler)
    (events : list Pipeline.FileSystemEvent) : M unit :=
  List.fold_left (fun (acc : M unit) ev => acc;; Pipeline.on_created self ev)
                 events (mret tt).

(** [event] is a file whose suffix is [.csv] up to case. *)
Definition is_csv_file (event : Pipeline.FileSystemEvent) : bool :=
  negb (Pipeline.is_directory event)
  && String.eqb (PyStr.lower (suffix (of_string (Pipeline.src_path event)))) ".csv".

(** Every component of a path is one that [Path(...)] can produce. *)
Definition well_formed (p : Path) : bool :=
  forallb (fun x => keep_part x && negb (PyStr.contains "/" x)) (parts p).

(** ** A concrete environment for running the programs *)

Module Demo.

Definition newline : string := String (ascii_of_nat 10) "".

Definition cell_of (s : string) : option string :=
  if String.eqb s "" then None else Some s.

(** A reader for comma-separated text without quoting: the first line
    names the columns, an empty field is a missing value. *)
Definition parse (s : string) : exn + DataFrame :=
  match List.filter (fun l => negb (String.eqb l "")) (PyStr.split (ascii_of_nat 10) s) with
  | [] => inl (ParserError "No columns to parse from file")
  | header :: lines =>
      inr (mkDF (PyStr.split "," header)
                (List.map (fun l => List.map cell_of (PyStr.split "," l)) lines))
  end.

Definition render_cell (c : option string) : string := default "" c.

Definition render (df : DataFrame) : string :=
  PyStr.join newline
    (PyStr.join "," (columns df)
     :: List.map (fun r => PyStr.join "," (List.map render_cell r)) (rows df))
  ++ newline.

(** Nothing fails. *)
Definition env_ok : Env := mkEnv parse render (fun _ => None).

(** The store rejects the upload with a classified error. *)
Definition env_put_rejected : Env :=
  mkEnv parse render
        (fun o => match o with OpPut => Some (ClientError "InternalError") | _ => None end).

(** The store rejects the head request for lack of permission. *)
Definition env_head_forbidden : Env :=
  mkEnv parse render
        (fun o => match o with OpHead => Some (ClientError "403") | _ => None end).

Definition client : AsyncObjectStorage :=
  mkStorage (mkAuth "key" "secret" "https://s3.ru-7.storage.selcloud.ru" "ru-7")
            "dataengineer-practice" None.

Definition handler : Pipeline.CSVHandler :=
  Pipeline.mkHandler client (of_string "/w/source") (of_string "/w/archive")
                     (of_string "/w/temp").

Definition a_csv : string :=
  "id,val" ++ newline ++ "1,5" ++ newline ++ "2," ++ newline ++ "3,9" ++ newline.

Definition dirs : gmap Path node :=
  <[of_string "/w" := Dir]>
  (<[of_string "/w/source" := Dir]>
  (<[of_string "/w/archive" := Dir]>
  (<[of_string "/w/temp" := Dir]> ∅))).

(** The three directories and one new file in the watched one. *)
Definition world0 : World :=
  mkWorld (<[of_string "/w/source/a.csv" := File a_csv]> dirs) ∅ [] [] [] [].

(** The same, with an older file of the same name already archived. *)
Definition world_archived : World :=
  mkWorld (<[of_string "/w/archive/a.csv" := File "old"]> (fs world0)) ∅ [] [] [] [].

(** The same as [world0], with a certificate bundle on disk. *)
Definition world_cert : World :=
  mkWorld (<[of_string "/etc/root.crt" := File "cert"]> (fs world0)) ∅ [] [] [] [].

Definition created (s : string) : Pipeline.FileSystemEvent := Pipeline.mkEvent false s.

End Demo.

(** ** Vocabulary of the properties *)

(** The runs a sequence of events hands to the loop, in order. *)
Definition scheduled (events : list Pipeline.FileSystemEvent) : list Path :=
  List.map (fun ev => of_string (Pipeline.src_path ev)) (List.filter is_csv_file events).

(** What the store answers to the head request of [file_exists]. *)
Definition head_attempt (env : Env) (self : AsyncObjectStorage) (remote_name : string)
    : M unit :=
  connect env;; head_object env (_bucket self) remote_name.

(** The same environment with every operation succeeding. *)
Definition without_faults (env : Env) : Env :=
  mkEnv (parse_csv env) (render_csv env) (fun _ => None).

(** Equality of rows is decidable. *)
Definition row_eq_dec (r1 r2 : list (option string)) : {r1 = r2} + {r1 <> r2} :=
  decide (r1 = r2).

(** What the two [except] clauses of [send_file] make of an exception. *)
Definition swallowed (e : exn) (w : World) : (exn + unit) * World :=
  if is_ClientError e then (inr tt, add_log ERROR (MsgPutClientError e) w)
  else if is_FileNotFoundError e then (inr tt, add_log ERROR (MsgPutMissing e) w)
  else (inl e, w).

(** The states of a run never go back. *)
Definition ascending (l : list run_state) : Prop :=
  StronglySorted (fun a b => (rank a < rank b)%nat) l.

(** What a run may do to the log and to the requests sent. *)
Definition run_post (self : Pipeline.CSVHandler) (file_path : Path) (w : World)
    (r : exn + unit) (w' : World) : Prop :=
  (r = inr tt \/ exists e, r = inl e /\ is_Exception e = false)
  /\ (net w' = net w
      \/ exists body, net w' = (net w ++ [ReqPut (_bucket (Pipeline.storage self))
                                           ("processed/" ++ name file_path)%string body])%list)
  /\ stdout w' = stdout w /\ loop_tasks w' = loop_tasks w
  /\ exists l, log w' = (log w ++ l)%list
               /\ ascending (states_of_log l)
               /\ head (states_of_log l) = Some Detected.

(** [wp m Q w]: running [m] from [w] ends in a result and a world that
    satisfy [Q]. *)
Definition wp {A} (m : M A) (Q : exn + A -> World -> Prop) (w : World) : Prop :=
  Q (fst (m w)) (snd (m w)).

(** The setting of a run whose upload alone fails: the source is a
    regular file the reader accepts, the temp and archive directories
    exist, the staged and archive paths are free or hold regular files
    and differ from the source and from each other, no local operation
    fails, and the store answers the put request with a [ClientError]. *)
Definition upload_rejected (env : Env) (self : Pipeline.CSVHandler) (file_path : Path)
    (w : World) (body code : string) (df : DataFrame) : Prop :=
  let tmp := joinpath (Pipeline.temp_dir self) (name file_path) in
  let arch := joinpath (Pipeline.archive_dir self) (name file_path) in
  (forall o, o <> OpPut -> fault env o = None)
  /\ fault env OpPut = Some (ClientError code)
  /\ well_formed file_path = true /\ name file_path <> ""%string
  /\ fs w !! file_path = Some (File body) /\ parse_csv env body = inr df
  /\ is_dir w (Pipeline.temp_dir self) = true
  /\ is_dir w (Pipeline.archive_dir self) = true
  /\ is_dir w tmp = false /\ is_dir w arch = false
  /\ tmp <> file_path /\ arch <> file_path /\ arch <> tmp.

(** ** Settings of a run *)

(** Reading, filtering and staging will succeed: the source is a regular
    file the reader accepts, the temp directory exists, the staged path
    is not a directory, and neither the read nor the write is made to
    fail. *)
Definition staging_ready (env : Env) (self : Pipeline.CSVHandler) (file_path : Path)
    (w : World) (body : string) (df : DataFrame) : Prop :=
  fault env OpRead = None /\ fault env OpWrite = None
  /\ well_formed file_path = true /\ name file_path <> ""%string
  /\ fs w !! file_path = Some (File body) /\ parse_csv env body = inr df
  /\ is_dir w (Pipeline.temp_dir self) = true
  /\ is_dir w (joinpath (Pipeline.temp_dir self) (name file_path)) = false.

(** The upload will reach the store: neither the connection nor the
    opening of the staged file is made to fail. *)
Definition upload_ready (env : Env) : Prop :=
  fault env OpConnect = None /\ fault env OpOpen = None.

(** The archive step will succeed once it is reached: the archive
    directory exists, the archive path is not a directory, and the
    source, staged and archive paths are three different paths. *)
Definition archive_ready (self : Pipeline.CSVHandler) (file_path : Path) (w : World)
    : Prop :=
  let tmp := joinpath (Pipeline.temp_dir self) (name file_path) in
  let arch := joinpath (Pipeline.archive_dir self) (name file_path) in
  is_dir w (Pipeline.archive_dir self) = true /\ is_dir w arch = false
  /\ tmp <> file_path /\ arch <> file_path /\ arch <> tmp.

(** The records of a run, in the order [process_csv] writes them when
    every stage is reached; [upload] is the record of [send_file]. *)
Definition records_until (n : nat) (self : Pipeline.CSVHandler) (file_path : Path)
    (upload : level * message) : list (level * message) :=
  let tmp := joinpath (Pipeline.temp_dir self) (name file_path) in
  let arch := joinpath (Pipeline.archive_dir self) (name file_path) in
  let key := ("processed/" ++ name file_path)%string in
  take n [ (INFO, MsgNewFile file_path);
           (INFO, MsgFileRead file_path);
           (INFO, MsgFiltered file_path);
           (INFO, MsgStaged file_path tmp);
           upload;
           (INFO, MsgUploaded tmp key);
           (INFO, MsgArchived file_path arch);
           (INFO, MsgTempRemoved tmp) ].

(** What the [except Exception] clause of [process_csv] makes of an
    exception that a stage raises: it logs an [Exception] and the
    coroutine returns; anything else goes on to the caller unlogged. *)
Definition handled (file_path : Path) (e : exn) (w : World) : (exn + unit) * World :=
  if is_Exception e then (inr tt, add_log ERROR (MsgRunError file_path e) w)
  else (inl e, w).

Definition outcome (e : exn) : exn + unit :=
  if is_Exception e then inr tt else inl e.

Definition error_record (file_path : Path) (e : exn) : list (level * message) :=
  if is_Exception e then [(ERROR, MsgRunError file_path e)] else [].

(** ** More concrete environments *)

Module Demo2.

(** The demo reader and writer with the given failures. *)
Definition env_with (f : op -> option exn) : Env := mkEnv Demo.parse Demo.render f.

(** The store cannot be reached when the request is sent. *)
Definition put_unreachable (o : op) : option exn :=
  match o with OpPut => Some (OtherException "EndpointConnectionError") | _ => None end.


(** U+00A0, the no-break space, in UTF-8. *)
Definition nbsp : string := String (ascii_of_nat 194) (String (ascii_of_nat 160) "").


(** The removal of the staged file is refused. *)
Definition unlink_denied (o : op) : option exn :=
  match o with OpUnlink => Some (OtherException "PermissionError") | _ => None end.

(** The frame the demo reader makes of [Demo.a_csv]. *)
Definition a_df : DataFrame :=
  mkDF ["id"; "val"]%string
       [[Some "1"; Some "5"]; [Some "2"; None]; [Some "3"; Some "9"]]%string.

Definition a_path : Path := of_string "/w/source/a.csv".

(** Only the watched directory exists. *)
Definition world_no_dirs : World :=
  mkWorld (<[of_string "/w" := Dir]>
           (<[of_string "/w/source" := Dir]>
            (<[of_string "/w/source/a.csv" := File Demo.a_csv]> ∅))) ∅ [] [] [] [].

End Demo2.

(** What the two [except] clauses of [send_file] in [6_1.py] make of an
    exception. *)
Definition swallowed_print (e : exn) (w : World) : (exn + unit) * World :=
  if is_ClientError e then (inr tt, add_stdout (MsgPutClientError e) w)
  else if is_FileNotFoundError e then (inr tt, add_stdout (MsgPutMissing e) w)
  else (inl e, w).

(** What an upload may do to the world: the file system and the loop's
    tasks are untouched, at most one request is sent, a put for the given
    key, and no other object of the store changes. *)
Definition upload_frame (bucket key : string) (w w' : World) : Prop :=
  fs w' = fs w /\ loop_tasks w' = loop_tasks w
  /\ (net w' = net w \/ exists body, net w' = (net w ++ [ReqPut bucket key body])%list)
  /\ (forall k, k <> (bucket, key) -> remote w' !! k = remote w !! k).

(** The store answers: no request of the client is made to fail. *)
Definition store_answers (env : Env) : Prop :=
  fault env OpConnect = None /\ fault env OpOpen = None
  /\ fault env OpPut = None /\ fault env OpHead = None.

(** The directories that constructing a handler makes or finds. *)
Definition handler_dirs (self : Pipeline.CSVHandler) : list Path :=
  (ancestors_and_self (Pipeline.temp_dir self)
   ++ ancestors_and_self (Pipeline.archive_dir self))%list.

(** ** Whitespace at the ends of a string *)

(** The first and the last character are no whitespace. *)
Definition trimmed (l : list string) : Prop :=
  (forall c, head l = Some c -> PyStr.is_space c = false)
  /\ (forall c, last l = Some c -> PyStr.is_space c = false).

Fixpoint all_continuation (s : string) : bool :=
  match s with
  | EmptyString => true
  | String a s' => PyStr.is_continuation a && all_continuation s'
  end.

(** One character: a byte and the continuation bytes after it. *)
Definition is_char (c : string) : bool :=
  match c with
  | String _ t => all_continuation t
  | EmptyString => false
  end.

(** A list of characters as [PyStr.chars] cuts them: every element is
    one character, and every one but the first starts with a byte that
    is no continuation byte. *)
Definition well_chunked (l : list string) : bool :=
  match l with
  | [] => true
  | c :: cs =>
      is_char c
      && forallb (fun c => is_char c && negb (PyStr.starts_with_continuation c)) cs
  end.

(** ** The rest of the client: download, delete, list

    [fetch_file], [remove_file] and [list_files] send requests and write
    records of kinds the world above has no place for.  They run over the
    world together with a journal of their own requests and records; an
    entry of the journal remembers how many requests, log records and
    printed lines the world held when it was made, so that the order of
    everything written is kept. *)

From stdpp Require sorting.

Module Client.

(** The operations of this part whose outcome the environment decides. *)
Inductive call := GetObject | ReadBody | DeleteObject | ListObjects | WriteFile.

(** The requests of this part. *)
Inductive ask :=
| AskGet (bucket key : string)
| AskDelete (bucket key : string)
| AskList (bucket : string).

(** The messages of this part, one constructor per call site. *)
Inductive note :=
| MsgGetOk (remote_name local_target : string)   (* 6_3:66, 6_1:59 *)
| MsgGetClientError (e : exn)                    (* 6_3:68, 6_1:61 *)
| MsgGetMissing (e : exn)                        (* 6_3:70, 6_1:63 *)
| MsgDeleteOk (remote_name : string)             (* 6_3:76, 6_1:69 *)
| MsgDeleteClientError (e : exn)                 (* 6_3:78, 6_1:71 *)
| MsgDeleteMissing (e : exn)                     (* 6_3:80, 6_1:73 *)
| MsgListError (e : exn).                        (* 6_1:82 *)

Inductive event :=
| Sent (a : ask)
| Logged (l : level) (m : note)
| Printed (m : note).

Record entry := mkEntry {
  at_net : nat;      (* requests in the world before this entry *)
  at_log : nat;      (* log records in the world before this entry *)
  at_stdout : nat;   (* printed lines in the world before this entry *)
  what : event
}.

Definition State : Type := World * list entry.

Definition C (A : Type) : Type := State -> (exn + A) * State.

#[global] Instance C_ret : MRet C := fun A a s => (inr a, s).

#[global] Instance C_bind : MBind C := fun A B f m s =>
  match m s with
  | (inl e, s') => (inl e, s')
  | (inr a, s') => f a s'
  end.

Definition raiseC {A} (e : exn) : C A := fun s => (inl e, s).

Definition getC : C World := fun s => (inr (fst s), s).

(** A function of the first part runs on the world and leaves the
    journal alone. *)
Definition lift {A} (m : M A) : C A := fun s =>
  let r := m (fst s) in (fst r, (snd r, snd s)).

Definition record (ev : event) : C unit := fun s =>
  (inr tt, (fst s, (snd s ++ [mkEntry (List.length (net (fst s)))
                                      (List.length (log (fst s)))
                                      (List.length (stdout (fst s))) ev])%list)).

Definition logging_info (m : note) : C unit := record (Logged INFO m).
Definition logging_error (m : note) : C unit := record (Logged ERROR m).
Definition print (m : note) : C unit := record (Printed m).

Fixpoint dispatchC {A} (clauses : list ((exn -> bool) * (exn -> C A))) (e : exn) : C A :=
  match clauses with
  | [] => raiseC e
  | (accepts, handler) :: rest => if accepts e then handler e else dispatchC rest e
  end.

Definition try_exceptC {A} (body : C A) (clauses : list ((exn -> bool) * (exn -> C A)))
    : C A :=
  fun s =>
    match body s with
    | (inl e, s') => dispatchC clauses e s'
    | r => r
    end.

(** The environment of this part: the one of the first part, and the
    failures of the new operations. *)
Record Env2 := mkEnv2 { env1 : Env; fault2 : call -> option exn }.

(** One entry of the ['Contents'] of a listing, and the listing, as far
    as [list_files] could read them. *)
Record content := mkContent { Key : string; Size : nat }.

Record listing := mkListing {
  Contents : option (list content);   (* the key is absent when nothing is listed *)
  IsTruncated : bool
}.

(** The service, as its interface is documented: the keys of a bucket
    are listed in the order of their bytes, and one [list_objects_v2]
    request is answered with a single page of at most 1000 of them. *)
Definition key_le (a b : string) : Prop := String.leb a b = true.

#[global] Instance key_le_dec (a b : string) : Decision (key_le a b).
Proof. unfold key_le. apply _. Defined.

Definition keys_of (bucket : string) (objects : gmap (string * string) string)
    : list string :=
  (fun kv => snd (fst kv))
    <$> filter (fun kv : string * string * string => fst (fst kv) = bucket)
               (map_to_list objects).

Definition max_keys : nat := 1000.

Definition first_page (bucket : string) (objects : gmap (string * string) string)
    : list string :=
  take max_keys (sorting.merge_sort key_le (keys_of bucket objects)).

Definition size_of (bucket : string) (objects : gmap (string * string) string)
    (key : string) : nat :=
  String.length (default ""%string (objects !! (bucket, key))).

Definition reply (bucket : string) (objects : gmap (string * string) string) : listing :=
  let page := first_page bucket objects in
  mkListing
    (match page with
     | [] => None
     | _ => Some (List.map (fun k => mkContent k (size_of bucket objects k)) page)
     end)
    (max_keys <? List.length (keys_of bucket objects))%nat.

Section WithEnv.
Variable env : Env2.

Definition check2 (c : call) : C unit :=
  match fault2 env c with
  | Some e => raiseC e
  | None => mret tt
  end.

(** [remote.get_object(Bucket=, Key=)]: a missing key is a
    [ClientError] with code NoSuchKey. *)
Definition get_object (bucket key : string) : C string :=
  record (Sent (AskGet bucket key));;
  check2 GetObject;;
  w ← getC;
  match remote w !! (bucket, key) with
  | Some body => mret body
  | None => raiseC (ClientError "NoSuchKey")
  end.

(** [response["Body"].read()] *)
Definition read_body (body : string) : C string :=
  check2 ReadBody;; mret body.

(** [remote.delete_object(Bucket=, Key=)]: deleting a key that is not
    there succeeds. *)
Definition delete_object (bucket key : string) : C unit :=
  record (Sent (AskDelete bucket key));;
  check2 DeleteObject;;
  lift (modify (set_remote (delete (bucket, key)))).

(** [remote.list_objects_v2(Bucket=)] *)
Definition list_objects_v2 (bucket : string) : C listing :=
  record (Sent (AskList bucket));;
  check2 ListObjects;;
  w ← getC;
  mret (reply bucket (remote w)).

(** What [open(s, "wb")] raises for a text [s] that asks for a directory
    where none is: [s] ends in a slash (a regular file is no directory,
    and a missing entry is not created), or in a slash and a dot. *)
Definition not_a_file (w : World) (s : string) : exn :=
  if is_file w (of_string s) then NotADirectoryError s
  else if String.eqb (List.last (PyStr.split "/" s) "") "" then IsADirectoryError s
  else FileNotFoundError s.

(** [open(s, "wb")] followed by [out.write(body)]: the built-in is given
    the text of the path, not a [Path]. *)
Definition open_wb (s : string) (body : string) : C unit :=
  check2 WriteFile;;
  w ← getC;
  let p := of_string s in
  if String.eqb s "" then raiseC (FileNotFoundError s)
  else if is_dir w p then raiseC (IsADirectoryError s)
  else if negb (is_dir w (parent p)) then
    raiseC (if is_file w (parent p) then NotADirectoryError s else FileNotFoundError s)
  else if demands_directory s then raiseC (not_a_file w s)
  else lift (modify (set_fs (insert p (File body)))).

(** [local_target_path.parent.exists()] and the [mkdir] it guards. *)
Definition ensure_parent (p : Path) : C unit :=
  w ← getC;
  if negb (exists_ w (parent p)) then lift (mkdir_p (env1 env) (parent p))
  else mret tt.

(** [AsyncObjectStorage.fetch_file], 6_1.py lines 49-63 *)
Definition fetch_file_6_1 (self : AsyncObjectStorage) (remote_name local_target : string)
    : C unit :=
  try_exceptC
    (lift (connect (env1 env));;
     response ← get_object (_bucket self) remote_name;
     body ← read_body response;
     let local_target_path := of_string local_target in
     ensure_parent local_target_path;;
     open_wb local_target body;;
     print (MsgGetOk remote_name local_target))
    [ (is_ClientError, fun e => print (MsgGetClientError e));
      (is_FileNotFoundError, fun e => print (MsgGetMissing e)) ].

(** [AsyncObjectStorage.fetch_file], 6_3.py lines 56-70 *)
Definition fetch_file_6_3 (self : AsyncObjectStorage) (remote_name local_target : string)
    : C unit :=
  try_exceptC
    (lift (connect (env1 env));;
     response ← get_object (_bucket self) remote_name;
     body ← read_body response;
     let local_target_path := of_string local_target in
     ensure_parent local_target_path;;
     open_wb local_target body;;
     logging_info (MsgGetOk remote_name local_target))
    [ (is_ClientError, fun e => logging_error (MsgGetClientError e));
      (is_FileNotFoundError, fun e => logging_error (MsgGetMissing e)) ].

(** [AsyncObjectStorage.remove_file], 6_1.py lines 65-73 *)
Definition remove_file_6_1 (self : AsyncObjectStorage) (remote_name : string) : C unit :=
  try_exceptC
    (lift (connect (env1 env));;
     delete_object (_bucket self) remote_name;;
     print (MsgDeleteOk remote_name))
    [ (is_ClientError, fun e => print (MsgDeleteClientError e));
      (is_FileNotFoundError, fun e => print (MsgDeleteMissing e)) ].

(** [AsyncObjectStorage.remove_file], 6_3.py lines 72-80 *)
Definition remove_file_6_3 (self : AsyncObjectStorage) (remote_name : string) : C unit :=
  try_exceptC
    (lift (connect (env1 env));;
     delete_object (_bucket self) remote_name;;
     logging_info (MsgDeleteOk remote_name))
    [ (is_ClientError, fun e => logging_error (MsgDeleteClientError e));
      (is_FileNotFoundError, fun e => logging_error (MsgDeleteMissing e)) ].

(** [AsyncObjectStorage.list_files], 6_1.py lines 75-83 *)
Definition list_files (self : AsyncObjectStorage) : C (list string) :=
  try_exceptC
    (lift (connect (env1 env));;
     response ← list_objects_v2 (_bucket self);
     let files := List.map Key (default [] (Contents response)) in
     mret files)
    [ (is_ClientError, fun e => print (MsgListError e);; mret []) ].

(** The functions of the first part, run here. *)
Definition send_file (self : AsyncObjectStorage) (local_source : string) : C unit :=
  lift (Storage.send_file (env1 env) self local_source).

Definition file_exists (self : AsyncObjectStorage) (remote_name : string) : C bool :=
  lift (Storage.file_exists (env1 env) self remote_name).

End WithEnv.


Definition quiet : Env2 := mkEnv2 Demo.env_ok (fun _ => None).

(** The requests among the entries of a journal, oldest first. *)
Definition asks (l : list entry) : list ask :=
  omap (fun en => match what en with Sent a => Some a | _ => None end) l.

(** The store refuses to list. *)
Definition list_refused : Env2 :=
  mkEnv2 Demo.env_ok
    (fun c => match c with
              | ListObjects => Some (ClientError "AccessDenied")
              | _ => None
              end).

End Client.




(** * Properties *)

Local Open Scope list_scope.

(** Unfolding the monad. *)
Ltac unfold_monad :=
  unfold connect, check, logging_info, logging_error, print, try_except,
    mbind, M_bind, mret, M_ret, raise, get, modify in *.

(** ** The monad *)

Lemma bind_run {A B} (m : M A) (f : A -> M B) (w : World) :
  (m ≫= f) w = match m w with
               | (inl e, w') => (inl e, w')
               | (inr a, w') => f a w'
               end.
Proof. reflexivity. Qed.

Lemma bind_assoc {A B C} (m : M A) (f : A -> M B) (g : B -> M C) (w : World) :
  ((m ≫= f) ≫= g) w = (m ≫= (fun x => f x ≫= g)) w.
Proof. rewrite !bind_run. destruct (m w) as [[e|a] w']; reflexivity. Qed.

Lemma try_except_run {A} (body : M A) clauses (w : World) :
  try_except body clauses w = match body w with
                              | (inl e, w') => dispatch clauses e w'
                              | r => r
                              end.
Proof. reflexivity. Qed.

(** ** Paths *)

Example of_string_abs :
  of_string "/home/f/source/a.csv" = mkPath "/" ["home"; "f"; "source"; "a.csv"].
Proof. reflexivity. Qed.

Example of_string_dots :
  of_string "src/./x//y.CSV" = mkPath "" ["src"; "x"; "y.CSV"].
Proof. reflexivity. Qed.

Example suffix_upper : PyStr.lower (suffix (of_string "/w/DATA.CSV")) = ".csv".
Proof. reflexivity. Qed.

Example suffix_hidden : suffix (of_string "/w/.csv") = "".
Proof. reflexivity. Qed.

Example suffix_trailing_dot : suffix (of_string "/w/a.") = "".
Proof. reflexivity. Qed.

Example suffix_last_only : suffix (of_string "/w/a.csv.bak") = ".bak".
Proof. reflexivity. Qed.

Example strip_endpoint :
  PyStr.strip "https://s3.ru-7.storage.selcloud.ru " = "https://s3.ru-7.storage.selcloud.ru".
Proof. reflexivity. Qed.

(** No piece of a split contains the separator. *)
Lemma split_no_sep (sep : ascii) (s x : string) :
  In x (PyStr.split sep s) -> PyStr.contains sep x = false.
Proof.
  revert x. induction s as [|a s IH]; intros x Hx; simpl in Hx.
  - destruct Hx as [<-|[]]. reflexivity.
  - destruct (Ascii.eqb a sep) eqn:Ha.
    + destruct Hx as [<-|Hx]; [reflexivity | auto].
    + destruct (PyStr.split sep s) as [|w ws] eqn:Hs.
      * destruct Hx as [<-|[]]. simpl. rewrite Ha. reflexivity.
      * destruct Hx as [<-|Hx].
        -- simpl. rewrite Ha. simpl. apply IH. left. reflexivity.
        -- apply IH. right. exact Hx.
Qed.

(** [Path(s)] has only components that are non-empty, not a single dot,
    and free of slashes. *)
Lemma of_string_well_formed (s : string) : well_formed (of_string s) = true.
Proof.
  unfold well_formed, of_string.
  destruct (splitroot s) as [r rel]. simpl.
  apply forallb_forall. intros x Hx.
  apply list_elem_of_In, list_elem_of_filter in Hx as [Hk Hin].
  apply Is_true_true in Hk. rewrite Hk. simpl.
  apply list_elem_of_In, split_no_sep in Hin. rewrite Hin. reflexivity.
Qed.

(** The name of a well-formed path is one of its components, or empty. *)
Lemma name_cases (p : Path) : name p = "" \/ In (name p) (parts p).
Proof.
  unfold name. destruct (parts p) as [|x l] eqn:E.
  - left. reflexivity.
  - right. clear E. revert x. induction l as [|y l IH]; intros x.
    + left. reflexivity.
    + right. apply IH.
Qed.

Lemma name_no_slash (p : Path) :
  well_formed p = true -> PyStr.contains "/" (name p) = false.
Proof.
  intros Hwf. destruct (name_cases p) as [->|Hin]; [reflexivity|].
  unfold well_formed in Hwf. rewrite forallb_forall in Hwf.
  specialize (Hwf _ Hin). apply andb_prop in Hwf as [_ H].
  apply negb_true_iff in H. exact H.
Qed.

Lemma name_component (p : Path) :
  well_formed p = true -> name p <> "" ->
  keep_part (name p) = true /\ PyStr.contains "/" (name p) = false.
Proof.
  intros Hwf Hne. destruct (name_cases p) as [E|Hin]; [contradiction|].
  unfold well_formed in Hwf. rewrite forallb_forall in Hwf.
  specialize (Hwf _ Hin). apply andb_prop in Hwf as [H1 H2].
  apply negb_true_iff in H2. auto.
Qed.

(** A string without a slash splits into itself. *)
Lemma split_no_sep_id (sep : ascii) (s : string) :
  PyStr.contains sep s = false -> PyStr.split sep s = [s].
Proof.
  induction s as [|a s IH]; simpl; intros H; [reflexivity|].
  apply orb_false_elim in H as [Ha Hs]. rewrite Ha, (IH Hs). reflexivity.
Qed.

(** Splitting at the first separator. *)
Lemma split_at_sep (sep : ascii) (x y : string) :
  PyStr.contains sep x = false ->
  PyStr.split sep (x ++ String sep y)%string = x :: PyStr.split sep y.
Proof.
  induction x as [|a x IH]; simpl; intros H.
  - rewrite Ascii.eqb_refl. reflexivity.
  - apply orb_false_elim in H as [Ha Hx]. rewrite Ha, (IH Hx). reflexivity.
Qed.

(** Joining a directory with a proper component appends it. *)
Lemma joinpath_component (d : Path) (n : string) :
  keep_part n = true -> PyStr.contains "/" n = false ->
  joinpath d n = mkPath (root d) (parts d ++ [n]).
Proof.
  intros Hk Hs. unfold joinpath, of_string.
  assert (Hroot : splitroot n = ("", n)).
  { destruct n as [|a n']; [reflexivity|]. simpl in Hs.
    apply orb_false_elim in Hs as [Ha _].
    unfold splitroot. destruct (ascii_dec a "/") as [->|Hne]; [discriminate|].
    destruct a as [[] [] [] [] [] [] [] []]; try reflexivity. congruence. }
  rewrite Hroot. simpl. rewrite (split_no_sep_id _ _ Hs).
  rewrite filter_cons, filter_nil.
  destruct (decide (Is_true (keep_part n))) as [_|Hn].
  - reflexivity.
  - rewrite Hk in Hn. exfalso. apply Hn. exact I.
Qed.

Lemma joinpath_name (d : Path) (n : string) :
  keep_part n = true -> PyStr.contains "/" n = false ->
  name (joinpath d n) = n /\ parent (joinpath d n) = d.
Proof.
  intros Hk Hs. rewrite (joinpath_component d n Hk Hs).
  unfold name, parent. simpl. split.
  - apply last_last.
  - rewrite removelast_last. destruct d; reflexivity.
Qed.

(** ** The transform: [dropna] *)

Lemma row_complete_iff (r : list (option string)) :
  forallb notna r = true <-> (forall c, In c r -> c <> None).
Proof.
  rewrite forallb_forall. split; intros H c Hc.
  - specialize (H c Hc). destruct c; [discriminate | discriminate H].
  - specialize (H c Hc). destruct c; [reflexivity | contradiction].
Qed.

Example dropna_a_csv :
  rows (dropna (mkDF ["id"; "val"]
                     [[Some "1"; Some "5"]; [Some "2"; None]; [Some "3"; Some "9"]]))
  = [[Some "1"; Some "5"]; [Some "3"; Some "9"]].
Proof. reflexivity. Qed.

(** C7. The transform of the pipeline, [df.dropna()], keeps exactly the
    rows of the frame that have no missing cell: a row is in the result
    if and only if it is in the input and none of its cells is missing,
    it occurs there as often as in the input, and the columns are
    untouched.  The transform is idempotent. *)
Theorem dropna_removes_incomplete_rows (df : DataFrame) :
  (forall r, In r (rows (dropna df)) <->
             In r (rows df) /\ (forall c, In c r -> c <> None))
  /\ (forall r, (forall c, In c r -> c <> None) ->
                count_occ row_eq_dec (rows (dropna df)) r
                = count_occ row_eq_dec (rows df) r)
  /\ columns (dropna df) = columns df
  /\ dropna (dropna df) = dropna df.
Proof.
  destruct df as [cols rs]. unfold dropna. simpl.
  split; [|split; [|split]].
  - intros r. rewrite List.filter_In, row_complete_iff. reflexivity.
  - intros r Hr. apply row_complete_iff in Hr.
    induction rs as [|x rs IH]; [reflexivity|]. simpl.
    destruct (forallb notna x) eqn:Hx; simpl;
      destruct (row_eq_dec x r) as [->|Hne];
      try congruence.
  - reflexivity.
  - f_equal. induction rs as [|x rs IH]; [reflexivity|]. simpl.
    destruct (forallb notna x) eqn:Hx; simpl; [rewrite Hx; f_equal|]; exact IH.
Qed.

Lemma dropna_removes_incomplete_rows_witness :
  let df := mkDF ["id"; "val"]%string
                 [[Some "1"; Some "5"]; [Some "2"; None]; [Some "3"; Some "9"]]%string in
  In [Some "3"; Some "9"]%string (rows (dropna df))
  /\ ~ In [Some "2"%string; None] (rows (dropna df))
  /\ dropna (dropna df) = dropna df.
Proof.
  intros df.
  destruct (dropna_removes_incomplete_rows df) as (Hin & _ & _ & Hidem).
  split; [|split].
  - apply Hin. split.
    + simpl. right. right. left. reflexivity.
    + intros c [<-|[<-|[]]]; discriminate.
  - intros H. apply Hin in H as [_ H].
    apply (H None); [simpl; right; left; reflexivity | reflexivity].
  - exact Hidem.
Defined.

(** ** The watcher: [on_created] *)

Example on_created_upper_case :
  loop_tasks (snd (Pipeline.on_created Demo.handler (Demo.created "/w/source/B.CSV") Demo.world0))
  = [of_string "/w/source/B.CSV"].
Proof. reflexivity. Qed.

Example on_created_other_suffix :
  loop_tasks (snd (Pipeline.on_created Demo.handler (Demo.created "/w/source/b.txt") Demo.world0))
  = [].
Proof. reflexivity. Qed.

(** [on_created] never raises and touches nothing but the loop's tasks. *)
Lemma on_created_effect (self : Pipeline.CSVHandler) (event : Pipeline.FileSystemEvent)
    (w : World) :
  Pipeline.on_created self event w =
    (inr tt, if is_csv_file event
             then add_task (of_string (Pipeline.src_path event)) w else w).
Proof.
  unfold Pipeline.on_created, is_csv_file, Pipeline.run_coroutine_threadsafe.
  destruct (Pipeline.is_directory event); simpl; [reflexivity|].
  destruct (String.eqb _ ".csv"); reflexivity.
Qed.

(** C8. For every creation event the watcher receives: a directory event
    schedules nothing; a file whose suffix, lower-cased, is not [.csv]
    schedules nothing; a file whose suffix is [.csv] up to case adds
    exactly one run, for that file, to the tasks of the loop.  The
    callback itself never raises. *)
Theorem on_created_schedules_once (self : Pipeline.CSVHandler)
    (event : Pipeline.FileSystemEvent) (w : World) :
  let file_path := of_string (Pipeline.src_path event) in
  let r := Pipeline.on_created self event w in
  fst r = inr tt
  /\ (Pipeline.is_directory event = true -> snd r = w)
  /\ (Pipeline.is_directory event = false ->
      PyStr.lower (suffix file_path) <> ".csv" -> snd r = w)
  /\ (Pipeline.is_directory event = false ->
      PyStr.lower (suffix file_path) = ".csv" ->
      loop_tasks (snd r) = loop_tasks w ++ [file_path]
      /\ List.length (loop_tasks (snd r)) = S (List.length (loop_tasks w))).
Proof.
  intros file_path r. subst r. rewrite on_created_effect. unfold is_csv_file. simpl.
  split; [reflexivity|]. split; [|split].
  - intros ->. reflexivity.
  - intros -> Hne. apply String.eqb_neq in Hne. fold file_path. rewrite Hne. reflexivity.
  - intros -> He. apply String.eqb_eq in He. fold file_path. rewrite He. simpl.
    split; [reflexivity|]. rewrite length_app. simpl. lia.
Qed.

Lemma on_created_schedules_once_witness :
  let ev := Demo.created "/w/source/B.CSV" in
  Pipeline.is_directory ev = false
  /\ PyStr.lower (suffix (of_string (Pipeline.src_path ev))) = ".csv"
  /\ loop_tasks (snd (Pipeline.on_created Demo.handler ev Demo.world0))
     = [of_string "/w/source/B.CSV"].
Proof.
  split; [reflexivity|]. split; [reflexivity|].
  apply (on_created_schedules_once Demo.handler (Demo.created "/w/source/B.CSV") Demo.world0);
    reflexivity.
Defined.

Lemma dispatch_events_from (self : Pipeline.CSVHandler)
    (events : list Pipeline.FileSystemEvent) (acc : M unit) (w w1 : World) :
  acc w = (inr tt, w1) ->
  List.fold_left (fun (a : M unit) ev => a;; Pipeline.on_created self ev) events acc w
  = (inr tt, List.fold_left (fun v p => add_task p v) (scheduled events) w1).
Proof.
  revert acc w1. induction events as [|ev events IH]; intros acc w1 Hacc; simpl.
  - exact Hacc.
  - rewrite (IH _ (if is_csv_file ev
                   then add_task (of_string (Pipeline.src_path ev)) w1 else w1)).
    + unfold scheduled. simpl. destruct (is_csv_file ev); reflexivity.
    + unfold mbind, M_bind. rewrite Hacc. apply on_created_effect.
Qed.

Lemma add_tasks_fields (ps : list Path) (w : World) :
  let w' := List.fold_left (fun v p => add_task p v) ps w in
  loop_tasks w' = loop_tasks w ++ ps
  /\ fs w' = fs w /\ remote w' = remote w /\ net w' = net w
  /\ log w' = log w /\ stdout w' = stdout w.
Proof.
  revert w. induction ps as [|p ps IH]; intros w; simpl.
  - rewrite app_nil_r. repeat split; reflexivity.
  - destruct (IH (add_task p w)) as (H1 & H2 & H3 & H4 & H5 & H6).
    simpl in *. rewrite H1, <- app_assoc. repeat split; assumption.
Qed.

(** C6, as the code has it.  There is no in-flight registry: the watcher
    hands one run to the loop for every event that is a [.csv] file, in
    the order of the events and whatever runs are already pending, and
    writes no log record.  A path that triggers twice is scheduled
    twice. *)
Theorem every_trigger_is_scheduled (self : Pipeline.CSVHandler)
    (events : list Pipeline.FileSystemEvent) (w : World) :
  let r := dispatch_events self events w in
  fst r = inr tt
  /\ loop_tasks (snd r) = loop_tasks w ++ scheduled events
  /\ log (snd r) = log w
  /\ (forall p, count_occ Path_eq_dec (loop_tasks (snd r)) p
                = count_occ Path_eq_dec (loop_tasks w) p
                  + count_occ Path_eq_dec (scheduled events) p).
Proof.
  intros r. subst r. unfold dispatch_events.
  rewrite (dispatch_events_from self events (mret tt) w w) by reflexivity.
  simpl. destruct (add_tasks_fields (scheduled events) w) as (H1 & _ & _ & _ & H5 & _).
  simpl in H1, H5. rewrite H1, H5.
  split; [reflexivity|]. split; [reflexivity|]. split; [reflexivity|].
  intros p. apply count_occ_app.
Qed.

(** C6, as the specification states it, fails: two creation events for
    the same path, the first run not yet started, leave two runs for
    that path pending, and nothing is logged. *)
Lemma second_trigger_not_rejected :
  let ev := Demo.created "/w/source/a.csv" in
  let w := snd (dispatch_events Demo.handler [ev; ev] Demo.world0) in
  ~ (count_occ Path_eq_dec (loop_tasks w) (of_string "/w/source/a.csv") <= 1)
  /\ loop_tasks w = [of_string "/w/source/a.csv"; of_string "/w/source/a.csv"]
  /\ log w = [].
Proof.
  vm_compute. split; [lia|]. split; reflexivity.
Qed.

(** ** The client: construction *)

Example init_demo :
  fst (__init__ "k" "s" "https://s3.ru-7.storage.selcloud.ru " "bucket"
                (Some "/etc/root.crt") Demo.world_cert)
  = inr (mkStorage (mkAuth "k" "s" "https://s3.ru-7.storage.selcloud.ru" "ru-7")
                   "bucket" (Some "/etc/root.crt")).
Proof. reflexivity. Qed.

(** The text of a path that ends in a slash names no regular file, even
    when the path without the slash does. *)
Example init_trailing_slash :
  os_path_isfile Demo.world_cert "/etc/root.crt" = true
  /\ os_path_isfile Demo.world_cert "/etc/root.crt/" = false
  /\ fst (__init__ "k" "s" "e" "bucket" (Some "/etc/root.crt/") Demo.world_cert)
     = inl (FileNotFoundError "/etc/root.crt/").
Proof. repeat split; reflexivity. Qed.



(** ** The client: [file_exists] *)

Example file_exists_missing_key :
  fst (Storage.file_exists Demo.env_ok Demo.client "test.txt" Demo.world0) = inr false.
Proof. reflexivity. Qed.

(** C3, as the code has it.  [file_exists] returns true when the head
    request succeeds.  It returns false for every classified
    [ClientError]: silently for code 404, and after printing the error
    for any other code.  Only an exception that is not a [ClientError]
    reaches the caller. *)
Theorem file_exists_result (env : Env) (self : AsyncObjectStorage)
    (remote_name : string) (w : World) :
  let r := Storage.file_exists env self remote_name w in
  match head_attempt env self remote_name w with
  | (inr _, w') => r = (inr true, w')
  | (inl (ClientError code), w') =>
      fst r = inr false
      /\ snd r = (if String.eqb code "404" then w'
                  else add_stdout (MsgHeadError (ClientError code)) w')
  | (inl e, w') => r = (inl e, w')
  end.
Proof.
  intros r. subst r.
  pose proof (bind_assoc (connect env)
                (fun _ => head_object env (_bucket self) remote_name)
                (fun _ => mret true) w) as Ha.
  cbv beta in Ha. fold (head_attempt env self remote_name) in Ha.
  unfold Storage.file_exists. rewrite try_except_run, <- Ha. clear Ha.
  rewrite (bind_run (head_attempt env self remote_name)).
  destruct (head_attempt env self remote_name w) as [[e|[]] w'].
  - destruct e as [x|x|x|x|x|x|x|x|code|x| |]; try reflexivity.
    simpl. destruct (String.eqb code "404"); split; reflexivity.
  - reflexivity.
Qed.

(** C3, as the specification states it, fails: the store answers the
    head request with a 403, which is not a NotFound condition, and
    [file_exists] returns false instead of raising. *)
Lemma file_exists_masks_other_errors :
  let r := Storage.file_exists Demo.env_head_forbidden Demo.client "test.txt" Demo.world0 in
  fst (head_attempt Demo.env_head_forbidden Demo.client "test.txt" Demo.world0)
    = inl (ClientError "403")
  /\ fst r = inr false
  /\ ~ (exists e, fst r = inl e).
Proof.
  vm_compute. split; [reflexivity|]. split; [reflexivity|].
  intros [e He]. discriminate He.
Qed.

(** ** The client: [send_file] *)

Lemma is_file_lookup (w : World) (p : Path) :
  is_file w p = true -> exists body, fs w !! p = Some (File body).
Proof.
  unfold is_file. destruct (fs w !! p) as [[body|]|]; try discriminate. eauto.
Qed.

(** [send_file] of [6_3.py] when the store rejects the upload. *)
Lemma send_file_rejected (env : Env) (self : AsyncObjectStorage) (local_source : Path)
    (remote_name : string) (w : World) (code body : string) :
  fs w !! local_source = Some (File body) ->
  fault env OpConnect = None -> fault env OpOpen = None ->
  fault env OpPut = Some (ClientError code) ->
  Pipeline.send_file env self local_source remote_name w
  = (inr tt, add_log ERROR (MsgPutClientError (ClientError code))
               (add_request (ReqPut (_bucket self) remote_name body) w)).
Proof.
  intros Hf Hc Ho Hp. unfold Pipeline.send_file, open_rb, put_object.
  unfold_monad. unfold is_file. rewrite Hf, Hc, Ho. simpl. rewrite Hf, Hp.
  reflexivity.
Qed.

(** [send_file] of [6_3.py] when nothing fails. *)
Lemma send_file_accepted (env : Env) (self : AsyncObjectStorage) (local_source : Path)
    (remote_name : string) (w : World) (body : string) :
  fs w !! local_source = Some (File body) ->
  fault env OpConnect = None -> fault env OpOpen = None -> fault env OpPut = None ->
  Pipeline.send_file env self local_source remote_name w
  = (inr tt, add_log INFO (MsgPutOk remote_name)
               (set_remote (insert (_bucket self, remote_name) body)
                  (add_request (ReqPut (_bucket self) remote_name body) w))).
Proof.
  intros Hf Hc Ho Hp. unfold Pipeline.send_file, open_rb, put_object.
  unfold_monad. unfold is_file. rewrite Hf, Hc, Ho. simpl. rewrite Hf, Hp.
  reflexivity.
Qed.

(** C10. When the file to upload is a regular file and the store answers
    the put request with a classified [ClientError], [send_file] returns
    normally: no exception, the same (empty) result as a successful
    upload, an error record in the log (6_3.py) or on standard output
    (6_1.py), and no object stored.  Its result does not tell the caller
    that the upload failed. *)
Theorem send_file_swallows_client_error (env : Env) (self : AsyncObjectStorage)
    (code : string) :
  fault env OpConnect = None -> fault env OpOpen = None ->
  fault env OpPut = Some (ClientError code) ->
  (forall (local_source : Path) (remote_name : string) (w : World),
      is_file w local_source = true ->
      let r := Pipeline.send_file env self local_source remote_name w in
      fst r = inr tt
      /\ fst r = fst (Pipeline.send_file (without_faults env) self local_source remote_name w)
      /\ log (snd r) = log w ++ [(ERROR, MsgPutClientError (ClientError code))]
      /\ remote (snd r) = remote w /\ fs (snd r) = fs w)
  /\ (forall (local_source : string) (w : World),
      is_file w (of_string local_source) = true ->
      let r := Storage.send_file env self local_source w in
      fst r = inr tt
      /\ fst r = fst (Storage.send_file (without_faults env) self local_source w)
      /\ stdout (snd r) = stdout w ++ [MsgPutClientError (ClientError code)]
      /\ remote (snd r) = remote w /\ fs (snd r) = fs w).
Proof.
  intros Hc Ho Hp. split.
  - intros local_source remote_name w Hfile r. subst r.
    destruct (is_file_lookup _ _ Hfile) as [body Hb].
    rewrite (send_file_rejected env self _ _ _ code body Hb Hc Ho Hp).
    rewrite (send_file_accepted (without_faults env) self _ _ _ body Hb)
      by reflexivity.
    repeat split; reflexivity.
  - intros local_source w Hfile r. subst r.
    destruct (is_file_lookup _ _ Hfile) as [body Hb].
    unfold Storage.send_file, open_rb, put_object. unfold_monad.
    rewrite Hfile. simpl. rewrite Hc, Ho. simpl. rewrite Hb, Hp. simpl.
    repeat split; reflexivity.
Qed.

Lemma send_file_swallows_client_error_witness :
  let r := Pipeline.send_file Demo.env_put_rejected Demo.client
             (of_string "/w/source/a.csv") "processed/a.csv" Demo.world0 in
  fst r = inr tt
  /\ log (snd r) = [(ERROR, MsgPutClientError (ClientError "InternalError"))]
  /\ remote (snd r) = ∅.
Proof.
  pose proof (send_file_swallows_client_error Demo.env_put_rejected Demo.client
                "InternalError" eq_refl eq_refl eq_refl) as [H _].
  specialize (H (of_string "/w/source/a.csv") "processed/a.csv"%string Demo.world0 eq_refl).
  destruct H as (H1 & _ & H3 & H4 & _).
  split; [exact H1|]. split; [exact H3 | exact H4].
Defined.

(** ** A weakest-precondition reading of the monad *)

Lemma wp_ret {A} (a : A) Q w : Q (inr a) w -> wp (mret a) Q w.
Proof. exact id. Qed.

Lemma wp_raise {A} (e : exn) (Q : exn + A -> World -> Prop) w :
  Q (inl e) w -> wp (raise e) Q w.
Proof. exact id. Qed.

Lemma wp_modify (f : World -> World) Q w : Q (inr tt) (f w) -> wp (modify f) Q w.
Proof. exact id. Qed.

Lemma wp_bind {A B} (m : M A) (f : A -> M B) (Q : exn + B -> World -> Prop) w :
  wp m (fun r w' => match r with
                    | inl e => Q (inl e) w'
                    | inr a => wp (f a) Q w'
                    end) w ->
  wp (m ≫= f) Q w.
Proof.
  unfold wp. rewrite bind_run. destruct (m w) as [[e|a] w']; simpl; auto.
Qed.

Lemma wp_try_except {A} (body : M A) clauses (Q : exn + A -> World -> Prop) w :
  wp body (fun r w' => match r with
                       | inl e => wp (dispatch clauses e) Q w'
                       | inr a => Q (inr a) w'
                       end) w ->
  wp (try_except body clauses) Q w.
Proof.
  unfold wp. rewrite try_except_run. destruct (body w) as [[e|a] w']; simpl; auto.
Qed.

Lemma wp_log (l : level) (msg : message) {B} (f : unit -> M B) Q w :
  wp (f tt) Q (add_log l msg w) ->
  wp (modify (add_log l msg) ≫= f) Q w.
Proof. exact id. Qed.

Section PrimitiveSpecs.
Variable env : Env.

Lemma wp_check (o : op) Q w :
  (forall e, fault env o = Some e -> Q (inl e) w) ->
  (fault env o = None -> Q (inr tt) w) ->
  wp (check env o) Q w.
Proof.
  intros He Hok. unfold wp, check. destruct (fault env o) as [e|]; simpl; auto.
Qed.

(** [read_csv] leaves the world alone; when it returns, the path holds
    a regular file that the reader accepts. *)
Lemma wp_read_csv (p : Path) Q w :
  (forall e, Q (inl e) w) ->
  (forall body df, fault env OpRead = None -> fs w !! p = Some (File body) ->
                   parse_csv env body = inr df -> Q (inr df) w) ->
  wp (read_csv env p) Q w.
Proof.
  intros He Hok. unfold read_csv. apply wp_bind, wp_check; [auto|]. intros Hf.
  apply wp_bind. unfold wp at 1. simpl.
  destruct (fs w !! p) as [[body|]|] eqn:Hp; try apply He.
  destruct (parse_csv env body) as [e|df] eqn:Hd; [apply He|].
  apply (Hok body df); auto.
Qed.

(** [to_csv] either raises and leaves the world alone, or writes the
    rendered frame. *)
Lemma wp_to_csv (df : DataFrame) (p : Path) Q w :
  (forall e, Q (inl e) w) ->
  (fault env OpWrite = None -> is_dir w (parent p) = true -> is_dir w p = false ->
   Q (inr tt) (set_fs (insert p (File (render_csv env df))) w)) ->
  wp (to_csv env df p) Q w.
Proof.
  intros He Hok. unfold to_csv. apply wp_bind, wp_check; [auto|]. intros Hf.
  apply wp_bind. unfold wp at 1. simpl.
  destruct (is_dir w (parent p)) eqn:Hpar; simpl; [|apply He].
  destruct (is_dir w p) eqn:Hd; [apply He|]. apply Hok; auto.
Qed.

(** [unlink] either raises and leaves the world alone, or deletes a
    regular file. *)
Lemma wp_unlink (p : Path) Q w :
  (forall e, Q (inl e) w) ->
  (forall body, fault env OpUnlink = None -> fs w !! p = Some (File body) ->
                Q (inr tt) (set_fs (delete p) w)) ->
  wp (unlink env p) Q w.
Proof.
  intros He Hok. unfold unlink. apply wp_bind, wp_check; [auto|]. intros Hf.
  apply wp_bind. unfold wp at 1. simpl.
  destruct (fs w !! p) as [[body|]|] eqn:Hp; try apply He.
  apply (Hok body); auto.
Qed.

(** [rename_or_copy] either raises and leaves the world alone, or
    changes the file system only. *)
Lemma wp_rename_or_copy (src dst : Path) Q w :
  (forall e, Q (inl e) w) ->
  (forall f, Q (inr tt) (set_fs f w)) ->
  wp (rename_or_copy src dst) Q w.
Proof.
  intros He Hok. unfold rename_or_copy. apply wp_bind. unfold wp at 1. simpl.
  destruct (fs w !! src) as [[body|]|]; try apply He.
  - destruct (is_dir w (parent dst)); simpl; [|apply He].
    destruct (is_dir w dst); [apply He | apply Hok].
  - destruct (below src dst); [apply He|].
    destruct (exists_ w dst); [apply He|].
    destruct (is_dir w (parent dst)); simpl; [apply Hok|].
    destruct (existsb _ _); [apply He | apply Hok].
Qed.

(** [shutil_move] either raises and leaves the world alone, or changes
    the file system only. *)
Lemma wp_shutil_move (src dst : Path) Q w :
  (forall e, Q (inl e) w) ->
  (forall real_dst f, Q (inr real_dst) (set_fs f w)) ->
  wp (shutil_move env src dst) Q w.
Proof.
  intros He Hok. unfold shutil_move. apply wp_bind, wp_check; [auto|]. intros Hf.
  apply wp_bind. unfold wp at 1. simpl.
  assert (Hid : set_fs id w = w) by (destruct w; reflexivity).
  destruct (is_dir w dst).
  - destruct (bool_decide (src = dst)).
    + apply wp_ret. rewrite <- Hid. apply Hok.
    + destruct (exists_ w (joinpath dst (name src))); [apply He|].
      apply wp_bind, wp_rename_or_copy; [apply He|]. intros f. apply Hok.
  - apply wp_bind, wp_rename_or_copy; [apply He|]. intros f. apply Hok.
Qed.

(** The four ways [send_file] of [6_3.py] ends: the path is no regular
    file; something raises before the request is sent; the request is
    sent and fails; the request is sent and succeeds. *)
Lemma wp_send_file (self : AsyncObjectStorage) (local_source : Path)
    (remote_name : string) Q w :
  (is_file w local_source = false -> Q (inl (ValueError (str local_source))) w) ->
  (forall e, Q (fst (swallowed e w)) (snd (swallowed e w))) ->
  (forall body e, fs w !! local_source = Some (File body) -> fault env OpPut = Some e ->
     let w1 := add_request (ReqPut (_bucket self) remote_name body) w in
     Q (fst (swallowed e w1)) (snd (swallowed e w1))) ->
  (forall body, fs w !! local_source = Some (File body) -> fault env OpPut = None ->
     Q (inr tt)
       (add_log INFO (MsgPutOk remote_name)
          (set_remote (insert (_bucket self, remote_name) body)
             (add_request (ReqPut (_bucket self) remote_name body) w)))) ->
  wp (Pipeline.send_file env self local_source remote_name) Q w.
Proof.
  intros Hnf Hearly Hrej Hok.
  assert (Hsw : forall e w1, Q (fst (swallowed e w1)) (snd (swallowed e w1)) ->
     wp (dispatch [ (is_ClientError, fun e => logging_error (MsgPutClientError e));
                    (is_FileNotFoundError, fun e => logging_error (MsgPutMissing e)) ] e)
        Q w1).
  { intros e w1. unfold swallowed, wp. simpl.
    destruct (is_ClientError e); [auto|]. destruct (is_FileNotFoundError e); auto. }
  unfold Pipeline.send_file. apply wp_bind. unfold wp at 1. simpl.
  destruct (is_file w local_source) eqn:Hfile; simpl; [|apply Hnf; reflexivity].
  apply wp_try_except, wp_bind. unfold connect.
  apply wp_check; [intros e _; apply Hsw, Hearly|]. intros _.
  apply wp_bind. unfold open_rb. apply wp_bind, wp_check; [intros e _; apply Hsw, Hearly|].
  intros _. apply wp_bind. unfold wp at 1. simpl.
  destruct (fs w !! local_source) as [[body|]|] eqn:Hp;
    try (apply Hsw, Hearly).
  apply wp_bind. unfold put_object. apply wp_bind. unfold wp at 1. simpl.
  apply wp_bind, wp_check.
  - intros e He. apply Hsw. apply (Hrej body e); auto.
  - intros Hput. unfold wp at 1. simpl. unfold wp. simpl. apply Hok; auto.
Qed.

End PrimitiveSpecs.

Ltac close_run :=
  unfold run_post; simpl;
  split; [first [left; reflexivity | right; eexists; split; [reflexivity | assumption]]|];
  split; [first [left; reflexivity | right; eexists; reflexivity]|];
  split; [reflexivity|]; split; [reflexivity|];
  rewrite <- ?app_assoc; simpl;
  eexists; split; [reflexivity|];
  unfold ascending, states_of_log; simpl;
  split; [repeat (constructor; simpl; try lia) | reflexivity].

Ltac fail_run :=
  intros; unfold wp; simpl;
  match goal with
  | |- context [is_Exception ?e] => destruct (is_Exception e) eqn:?; simpl
  | _ => idtac
  end;
  close_run.

Ltac run_tail :=
  apply wp_log;
  apply wp_bind, wp_shutil_move; [fail_run|]; intros ? ?;
  apply wp_log;
  apply wp_bind, wp_unlink; [fail_run|]; intros ? _ _;
  apply wp_modify; close_run.

Lemma process_csv_trace (env : Env) (self : Pipeline.CSVHandler) (file_path : Path)
    (w : World) :
  wp (Pipeline.process_csv env self file_path) (run_post self file_path w) w.
Proof.
  unfold Pipeline.process_csv, logging_info, logging_error.
  apply wp_log, wp_try_except.
  apply wp_bind, wp_read_csv; [fail_run|]. intros body df _ _ _.
  apply wp_log, wp_log.
  apply wp_bind, wp_to_csv; [fail_run|]. intros _ _ _.
  apply wp_log.
  apply wp_bind, wp_send_file.
  - fail_run.
  - intros e. unfold swallowed.
    destruct (is_ClientError e); [|destruct (is_FileNotFoundError e)]; simpl;
      [run_tail | run_tail | fail_run].
  - intros bytes e _ _ w1. subst w1. unfold swallowed.
    destruct (is_ClientError e); [|destruct (is_FileNotFoundError e)]; simpl;
      [run_tail | run_tail | fail_run].
  - intros bytes _ _. run_tail.
Qed.


(** The states of a run, as its log shows them, start at [Detected] and
    only move forward; a [Failed] state, ranked last, ends them. *)
Corollary process_csv_forward (env : Env) (self : Pipeline.CSVHandler)
    (file_path : Path) (w : World) :
  exists l, log (snd (Pipeline.process_csv env self file_path w)) = log w ++ l
            /\ ascending (states_of_log l)
            /\ head (states_of_log l) = Some Detected.
Proof. apply (process_csv_trace env self file_path w). Qed.

(** ** The archive step *)

(** Moving a regular file onto a path that is free or holds a regular
    file, inside an existing directory. *)
Lemma shutil_move_file (env : Env) (src dst : Path) (w : World) (body : string) :
  fault env OpMove = None ->
  fs w !! src = Some (File body) ->
  is_dir w dst = false ->
  is_dir w (parent dst) = true ->
  shutil_move env src dst w
  = (inr dst, set_fs (fun m => <[dst := File body]> (delete src m)) w).
Proof.
  intros Hf Hs Hd Hp. unfold shutil_move, rename_or_copy. unfold_monad.
  rewrite Hf. simpl. rewrite Hd, Hs, Hp. simpl. rewrite Hd. reflexivity.
Qed.

(** C4, as the code has it.  The archive step, [shutil.move] of the
    source file to the archive directory joined with the file's name,
    moves the file: afterwards the source path is free, the archive path
    holds the content of the source under the same name, and every other
    path is as before.  This is so whether the archive path was free or
    already held a regular file of that name, which is replaced. *)
Theorem archive_moves_and_replaces (env : Env) (self : Pipeline.CSVHandler)
    (file_path : Path) (w : World) (body : string) :
  let archive_path := joinpath (Pipeline.archive_dir self) (name file_path) in
  let r := shutil_move env file_path archive_path w in
  fault env OpMove = None ->
  well_formed file_path = true -> name file_path <> ""%string ->
  fs w !! file_path = Some (File body) ->
  is_dir w (Pipeline.archive_dir self) = true ->
  is_dir w archive_path = false ->
  archive_path <> file_path ->
  fst r = inr archive_path
  /\ name archive_path = name file_path
  /\ parent archive_path = Pipeline.archive_dir self
  /\ fs (snd r) !! file_path = None
  /\ fs (snd r) !! archive_path = Some (File body)
  /\ (forall q, q <> file_path -> q <> archive_path -> fs (snd r) !! q = fs w !! q).
Proof.
  intros archive_path r Hf Hwf Hname Hsrc Hdir Hfree Hne. subst r.
  destruct (name_component _ Hwf Hname) as [Hk Hs].
  destruct (joinpath_name (Pipeline.archive_dir self) _ Hk Hs) as [Hn Hp].
  fold archive_path in Hn, Hp.
  rewrite (shutil_move_file env file_path archive_path w body); auto;
    [|rewrite Hp; exact Hdir].
  simpl. split; [reflexivity|]. split; [exact Hn|]. split; [exact Hp|].
  split; [|split].
  - rewrite lookup_insert_ne by exact Hne. apply lookup_delete_eq.
  - apply lookup_insert_eq.
  - intros q Hq1 Hq2. rewrite lookup_insert_ne by congruence.
    apply lookup_delete_ne. congruence.
Qed.

Lemma archive_moves_and_replaces_witness :
  let src := of_string "/w/source/a.csv" in
  let dst := of_string "/w/archive/a.csv" in
  let r := shutil_move Demo.env_ok src dst Demo.world_archived in
  fs Demo.world_archived !! dst = Some (File "old")
  /\ fst r = inr dst
  /\ fs (snd r) !! src = None
  /\ fs (snd r) !! dst = Some (File Demo.a_csv).
Proof.
  split; [vm_compute; reflexivity|].
  pose proof (archive_moves_and_replaces Demo.env_ok Demo.handler
                (of_string "/w/source/a.csv") Demo.world_archived Demo.a_csv) as H.
  simpl in H.
  destruct H as (H1 & _ & _ & H4 & H5 & _);
    [ reflexivity | reflexivity | discriminate | vm_compute; reflexivity
    | vm_compute; reflexivity | vm_compute; reflexivity | discriminate | ].
  split; [exact H1|]. split; [exact H4 | exact H5].
Defined.

(** C4, as the specification states it, fails: with a file of the same
    name already in the archive the step does not fail; it returns the
    archive path and the older archived file is replaced. *)
Lemma archive_collision_overwrites :
  let src := of_string "/w/source/a.csv" in
  let dst := joinpath (Pipeline.archive_dir Demo.handler) (name src) in
  let r := shutil_move Demo.env_ok src dst Demo.world_archived in
  is_file Demo.world_archived dst = true
  /\ ~ (exists e, fst r = inl e)
  /\ fst r = inr dst
  /\ fs (snd r) !! dst = Some (File Demo.a_csv)
  /\ fs Demo.world_archived !! dst = Some (File "old").
Proof.
  vm_compute. split; [reflexivity|]. split; [intros [e He]; discriminate He|].
  repeat split; reflexivity.
Qed.

(** ** A run whose upload the store rejects *)

Lemma wp_eq {A} (m : M A) (Q : exn + A -> World -> Prop) w r w' :
  m w = (r, w') -> Q r w' -> wp m Q w.
Proof. unfold wp. intros ->. auto. Qed.

Lemma read_csv_ok (env : Env) (p : Path) (w : World) (body : string) (df : DataFrame) :
  fault env OpRead = None -> fs w !! p = Some (File body) ->
  parse_csv env body = inr df ->
  read_csv env p w = (inr df, w).
Proof.
  intros Hf Hp Hd. unfold read_csv. unfold_monad. rewrite Hf. simpl.
  rewrite Hp, Hd. reflexivity.
Qed.

Lemma to_csv_ok (env : Env) (df : DataFrame) (p : Path) (w : World) :
  fault env OpWrite = None -> is_dir w (parent p) = true -> is_dir w p = false ->
  to_csv env df p w = (inr tt, set_fs (insert p (File (render_csv env df))) w).
Proof.
  intros Hf Hpar Hd. unfold to_csv. unfold_monad. rewrite Hf. simpl.
  rewrite Hpar, Hd. reflexivity.
Qed.

Lemma unlink_ok (env : Env) (p : Path) (w : World) (body : string) :
  fault env OpUnlink = None -> fs w !! p = Some (File body) ->
  unlink env p w = (inr tt, set_fs (delete p) w).
Proof.
  intros Hf Hp. unfold unlink. unfold_monad. rewrite Hf. simpl. rewrite Hp.
  reflexivity.
Qed.

(** Writing a regular file does not change which other paths are
    directories. *)
Lemma is_dir_insert_file (w : World) (p q : Path) (body : string) :
  is_dir w p = false ->
  is_dir (set_fs (insert p (File body)) w) q = is_dir w q.
Proof.
  intros Hp. unfold is_dir in *. simpl. destruct (parts q) eqn:Hq; [reflexivity|].
  destruct (decide (p = q)) as [->|Hne].
  - rewrite lookup_insert_eq. rewrite Hq in Hp.
    destruct (fs w !! q) as [[|]|]; congruence.
  - rewrite lookup_insert_ne by exact Hne. reflexivity.
Qed.

(** The run of [process_csv] when reading, filtering and staging
    succeed, the store rejects the put request with a [ClientError], and
    no local operation fails: the whole world afterwards. *)
Lemma process_csv_rejected_upload (env : Env) (self : Pipeline.CSVHandler)
    (file_path : Path) (w : World) (body code : string) (df : DataFrame) :
  let tmp := joinpath (Pipeline.temp_dir self) (name file_path) in
  let arch := joinpath (Pipeline.archive_dir self) (name file_path) in
  let key := ("processed/" ++ name file_path)%string in
  let staged := render_csv env (dropna df) in
  (forall o, o <> OpPut -> fault env o = None) ->
  fault env OpPut = Some (ClientError code) ->
  well_formed file_path = true -> name file_path <> ""%string ->
  fs w !! file_path = Some (File body) -> parse_csv env body = inr df ->
  is_dir w (Pipeline.temp_dir self) = true ->
  is_dir w (Pipeline.archive_dir self) = true ->
  is_dir w tmp = false -> is_dir w arch = false ->
  tmp <> file_path -> arch <> file_path -> arch <> tmp ->
  let r := Pipeline.process_csv env self file_path w in
  fst r = inr tt
  /\ fs (snd r) = delete tmp (<[arch := File body]>
                                (delete file_path (<[tmp := File staged]> (fs w))))
  /\ remote (snd r) = remote w
  /\ net (snd r) = net w ++ [ReqPut (_bucket (Pipeline.storage self)) key staged]
  /\ log (snd r) = log w ++ [ (INFO, MsgNewFile file_path);
                              (INFO, MsgFileRead file_path);
                              (INFO, MsgFiltered file_path);
                              (INFO, MsgStaged file_path tmp);
                              (ERROR, MsgPutClientError (ClientError code));
                              (INFO, MsgUploaded tmp key);
                              (INFO, MsgArchived file_path arch);
                              (INFO, MsgTempRemoved tmp) ]
  /\ stdout (snd r) = stdout w
  /\ loop_tasks (snd r) = loop_tasks w.
Proof.
  intros tmp arch key staged Hok Hput Hwf Hname Hsrc Hparse Htd Had Htmp Harch
         Hne1 Hne2 Hne3 r.
  destruct (name_component _ Hwf Hname) as [Hk Hs].
  destruct (joinpath_name (Pipeline.temp_dir self) _ Hk Hs) as [_ Hpt].
  destruct (joinpath_name (Pipeline.archive_dir self) _ Hk Hs) as [_ Hpa].
  fold tmp in Hpt. fold arch in Hpa. subst r.
  change (wp (Pipeline.process_csv env self file_path)
            (fun r0 w0 =>
               r0 = inr tt
               /\ fs w0 = delete tmp (<[arch := File body]>
                                       (delete file_path (<[tmp := File staged]> (fs w))))
               /\ remote w0 = remote w
               /\ net w0 = net w ++ [ReqPut (_bucket (Pipeline.storage self)) key staged]
               /\ log w0 = log w ++ [ (INFO, MsgNewFile file_path);
                                      (INFO, MsgFileRead file_path);
                                      (INFO, MsgFiltered file_path);
                                      (INFO, MsgStaged file_path tmp);
                                      (ERROR, MsgPutClientError (ClientError code));
                                      (INFO, MsgUploaded tmp key);
                                      (INFO, MsgArchived file_path arch);
                                      (INFO, MsgTempRemoved tmp) ]
               /\ stdout w0 = stdout w
               /\ loop_tasks w0 = loop_tasks w) w).
  unfold Pipeline.process_csv, logging_info, logging_error.
  apply wp_log, wp_try_except.
  apply wp_bind. eapply wp_eq.
  { apply (read_csv_ok env file_path _ body df);
      [apply Hok; discriminate | exact Hsrc | exact Hparse]. }
  apply wp_log, wp_log.
  apply wp_bind. eapply wp_eq.
  { apply to_csv_ok; [apply Hok; discriminate | fold tmp; rewrite Hpt; exact Htd
                     | exact Htmp]. }
  apply wp_log.
  apply wp_bind. eapply wp_eq.
  { apply (send_file_rejected env _ _ _ _ code staged);
      [simpl; apply lookup_insert_eq | apply Hok; discriminate
      | apply Hok; discriminate | exact Hput]. }
  apply wp_log.
  apply wp_bind. eapply wp_eq.
  { apply (shutil_move_file env file_path arch _ body).
    - apply Hok; discriminate.
    - simpl. rewrite lookup_insert_ne by exact Hne1. exact Hsrc.
    - change (is_dir (set_fs (insert tmp (File staged)) w) arch = false).
      rewrite is_dir_insert_file by exact Htmp. exact Harch.
    - rewrite Hpa.
      change (is_dir (set_fs (insert tmp (File staged)) w) (Pipeline.archive_dir self)
              = true).
      rewrite is_dir_insert_file by exact Htmp. exact Had. }
  apply wp_log.
  apply wp_bind. eapply wp_eq.
  { apply (unlink_ok env tmp _ staged); [apply Hok; discriminate|].
    simpl. rewrite lookup_insert_ne by exact Hne3.
    rewrite lookup_delete_ne by congruence. apply lookup_insert_eq. }
  apply wp_modify.
  repeat split;
    cbn [fs remote net log stdout loop_tasks set_fs add_log add_request];
    rewrite <- ?app_assoc; reflexivity.
Qed.

Lemma demo_upload_rejected :
  upload_rejected Demo.env_put_rejected Demo.handler (of_string "/w/source/a.csv")
    Demo.world0 Demo.a_csv "InternalError"
    (mkDF ["id"; "val"]%string
          [[Some "1"; Some "5"]; [Some "2"; None]; [Some "3"; Some "9"]]%string).
Proof.
  unfold upload_rejected.
  split; [intros o Ho; destruct o; try reflexivity; contradiction|].
  repeat split; try discriminate; vm_compute; reflexivity.
Defined.

(** C1, against the code.  In a run whose upload stage fails because the
    store rejects the put request with a [ClientError], while every
    other stage succeeds, nothing is stored remotely, and yet the run
    goes on: it logs the file as uploaded, moves the source file out of
    the watched directory into the archive, and deletes the staged
    temporary file. *)
Theorem rejected_upload_loses_staged_file (env : Env) (self : Pipeline.CSVHandler)
    (file_path : Path) (w : World) (body code : string) (df : DataFrame) :
  let tmp := joinpath (Pipeline.temp_dir self) (name file_path) in
  let arch := joinpath (Pipeline.archive_dir self) (name file_path) in
  let key := ("processed/" ++ name file_path)%string in
  let w' := snd (Pipeline.process_csv env self file_path w) in
  upload_rejected env self file_path w body code df ->
  remote w' = remote w
  /\ fs w' !! tmp = None
  /\ fs w' !! file_path = None
  /\ fs w' !! arch = Some (File body)
  /\ In (ERROR, MsgPutClientError (ClientError code)) (log w')
  /\ In (INFO, MsgUploaded tmp key) (log w').
Proof.
  intros tmp arch key w' H. subst tmp arch key w'.
  destruct H as (Hok & Hput & Hwf & Hname & Hsrc & Hparse & Htd & Had & Htmp & Harch
                 & Hne1 & Hne2 & Hne3).
  destruct (process_csv_rejected_upload env self file_path w body code df)
    as (_ & Hfs & Hrem & _ & Hlog & _); auto.
  rewrite Hfs, Hrem, Hlog.
  split; [reflexivity|]. split; [apply lookup_delete_eq|].
  split; [|split; [|split]].
  - rewrite lookup_delete_ne by congruence.
    rewrite lookup_insert_ne by exact Hne2. apply lookup_delete_eq.
  - rewrite lookup_delete_ne by congruence. apply lookup_insert_eq.
  - apply in_or_app. right. cbn [In]. tauto.
  - apply in_or_app. right. cbn [In]. tauto.
Qed.

Lemma rejected_upload_loses_staged_file_witness :
  let w' := snd (Pipeline.process_csv Demo.env_put_rejected Demo.handler
                   (of_string "/w/source/a.csv") Demo.world0) in
  remote w' = ∅
  /\ fs w' !! of_string "/w/temp/a.csv" = None
  /\ fs w' !! of_string "/w/source/a.csv" = None
  /\ fs w' !! of_string "/w/archive/a.csv" = Some (File Demo.a_csv).
Proof.
  destruct (rejected_upload_loses_staged_file _ _ _ _ _ _ _ demo_upload_rejected)
    as (H1 & H2 & H3 & H4 & _).
  split; [exact H1|]. split; [exact H2|]. split; [exact H3 | exact H4].
Defined.

(** C2, against the code.  In the same run the upload stage fails, and
    the run neither moves to [Failed] nor stops: its log shows every
    state up to [Cleaned], the stages after the failed upload
    included. *)
Theorem rejected_upload_is_not_failed (env : Env) (self : Pipeline.CSVHandler)
    (file_path : Path) (w : World) (body code : string) (df : DataFrame) :
  let w' := snd (Pipeline.process_csv env self file_path w) in
  upload_rejected env self file_path w body code df ->
  exists l, log w' = log w ++ l
            /\ In (ERROR, MsgPutClientError (ClientError code)) l
            /\ states_of_log l
               = [Detected; At Read; At Filtered; At Staged; At Uploaded; At Archived;
                  At Cleaned]
            /\ (forall s cause, ~ In (Failed s cause) (states_of_log l)).
Proof.
  intros w' H. subst w'.
  destruct H as (Hok & Hput & Hwf & Hname & Hsrc & Hparse & Htd & Had & Htmp & Harch
                 & Hne1 & Hne2 & Hne3).
  destruct (process_csv_rejected_upload env self file_path w body code df)
    as (_ & _ & _ & _ & Hlog & _); auto.
  eexists. split; [exact Hlog|]. split; [cbn [In]; tauto|].
  split; [reflexivity|].
  intros s cause Hin. cbn in Hin.
  repeat (destruct Hin as [Hin|Hin]; [discriminate Hin|]). exact Hin.
Qed.

Lemma rejected_upload_is_not_failed_witness :
  states_of_log (log (snd (Pipeline.process_csv Demo.env_put_rejected Demo.handler
                             (of_string "/w/source/a.csv") Demo.world0)))
  = [Detected; At Read; At Filtered; At Staged; At Uploaded; At Archived; At Cleaned].
Proof.
  destruct (rejected_upload_is_not_failed _ _ _ _ _ _ _ demo_upload_rejected)
    as (l & Hl & _ & Hs & _).
  simpl in Hl. rewrite Hl. exact Hs.
Defined.

(** * Further properties of the pipeline *)

(** The first three stages of a run in a setting where they succeed. *)
Ltac run_until_staged :=
  unfold Pipeline.process_csv, logging_info, logging_error;
  apply wp_log, wp_try_except;
  apply wp_bind; eapply wp_eq; [eapply read_csv_ok; eassumption|];
  apply wp_log, wp_log;
  apply wp_bind; eapply wp_eq; [eapply to_csv_ok; eassumption|];
  apply wp_log.

Ltac read_fields :=
  repeat split;
    cbn [fs remote net log stdout loop_tasks set_fs add_log add_request set_remote
         dispatch fst snd];
    unfold logging_error, modify;
    cbn [fs remote net log stdout loop_tasks set_fs add_log add_request set_remote
         fst snd];
    rewrite <- ?app_assoc; try reflexivity.

Lemma staged_parent (self : Pipeline.CSVHandler) (file_path : Path) :
  well_formed file_path = true -> name file_path <> ""%string ->
  parent (joinpath (Pipeline.temp_dir self) (name file_path)) = Pipeline.temp_dir self
  /\ parent (joinpath (Pipeline.archive_dir self) (name file_path))
     = Pipeline.archive_dir self.
Proof.
  intros Hwf Hname. destruct (name_component _ Hwf Hname) as [Hk Hs]. split.
  - apply (joinpath_name (Pipeline.temp_dir self) _ Hk Hs).
  - apply (joinpath_name (Pipeline.archive_dir self) _ Hk Hs).
Qed.

(** The whole world after a run in which every stage succeeds. *)
Lemma process_csv_clean_run (env : Env) (self : Pipeline.CSVHandler)
    (file_path : Path) (w : World) (body : string) (df : DataFrame) :
  let tmp := joinpath (Pipeline.temp_dir self) (name file_path) in
  let arch := joinpath (Pipeline.archive_dir self) (name file_path) in
  let key := ("processed/" ++ name file_path)%string in
  let staged := render_csv env (dropna df) in
  let r := Pipeline.process_csv env self file_path w in
  (forall o, fault env o = None) ->
  staging_ready env self file_path w body df ->
  archive_ready self file_path w ->
  fst r = inr tt
  /\ fs (snd r) = delete tmp (<[arch := File body]>
                                (delete file_path (<[tmp := File staged]> (fs w))))
  /\ remote (snd r) = <[(_bucket (Pipeline.storage self), key) := staged]> (remote w)
  /\ net (snd r) = net w ++ [ReqPut (_bucket (Pipeline.storage self)) key staged]
  /\ log (snd r) = log w ++ records_until 8 self file_path (INFO, MsgPutOk key)
  /\ stdout (snd r) = stdout w
  /\ loop_tasks (snd r) = loop_tasks w.
Proof.
  intros tmp arch key staged r Hok
    (Hread & Hwrite & Hwf & Hname & Hsrc & Hparse & Htd & Htmp)
    (Had & Harch & Hne1 & Hne2 & Hne3).
  destruct (staged_parent self file_path Hwf Hname) as [Hpt Hpa].
  fold tmp in Hpt, Htmp. fold arch in Hpa.
  assert (Hptd : is_dir w (parent tmp) = true) by (rewrite Hpt; exact Htd).
  subst r. unfold records_until. fold tmp arch key. cbn [take].
  match goal with |- ?a = _ /\ ?G =>
    change (wp (Pipeline.process_csv env self file_path)
              (fun r0 w0 => r0 = inr tt
                 /\ fs w0 = delete tmp (<[arch := File body]>
                              (delete file_path (<[tmp := File staged]> (fs w))))
                 /\ remote w0
                    = <[(_bucket (Pipeline.storage self), key) := staged]> (remote w)
                 /\ net w0 = net w ++ [ReqPut (_bucket (Pipeline.storage self)) key staged]
                 /\ log w0 = log w ++ [ (INFO, MsgNewFile file_path);
                                        (INFO, MsgFileRead file_path);
                                        (INFO, MsgFiltered file_path);
                                        (INFO, MsgStaged file_path tmp);
                                        (INFO, MsgPutOk key);
                                        (INFO, MsgUploaded tmp key);
                                        (INFO, MsgArchived file_path arch);
                                        (INFO, MsgTempRemoved tmp) ]
                 /\ stdout w0 = stdout w /\ loop_tasks w0 = loop_tasks w) w)
  end.
  run_until_staged.
  apply wp_bind. eapply wp_eq.
  { apply (send_file_accepted env _ _ _ _ staged);
      [cbn [fs set_fs add_log]; apply lookup_insert_eq | apply Hok ..]. }
  apply wp_log.
  apply wp_bind. eapply wp_eq.
  { apply (shutil_move_file env file_path arch _ body).
    - apply Hok.
    - cbn [fs set_fs add_log add_request set_remote].
      rewrite lookup_insert_ne by exact Hne1. exact Hsrc.
    - change (is_dir (set_fs (insert tmp (File staged)) w) arch = false).
      rewrite is_dir_insert_file by exact Htmp. exact Harch.
    - rewrite Hpa.
      change (is_dir (set_fs (insert tmp (File staged)) w) (Pipeline.archive_dir self)
              = true).
      rewrite is_dir_insert_file by exact Htmp. exact Had. }
  apply wp_log.
  apply wp_bind. eapply wp_eq.
  { apply (unlink_ok env tmp _ staged); [apply Hok|].
    cbn [fs set_fs add_log add_request set_remote].
    rewrite lookup_insert_ne by exact Hne3.
    rewrite lookup_delete_ne by (intros E; apply Hne1; symmetry; exact E).
    apply lookup_insert_eq. }
  apply wp_modify. read_fields.
Qed.

(** The handler of [process_csv] takes over. *)
Ltac run_fails :=
  cbv beta iota; unfold wp; cbn [dispatch]; unfold outcome, error_record;
  cbn [is_Exception];
  try match goal with
      | |- context [is_Exception ?e] => destruct (is_Exception e)
      end;
  unfold logging_error, modify, raise; cbn [fst snd]; read_fields.

Lemma send_file_raises (env : Env) (self : AsyncObjectStorage) (local_source : Path)
    (remote_name : string) (w : World) (body : string) (e : exn) :
  fs w !! local_source = Some (File body) ->
  fault env OpConnect = None -> fault env OpOpen = None ->
  fault env OpPut = Some e ->
  is_ClientError e = false -> is_FileNotFoundError e = false ->
  Pipeline.send_file env self local_source remote_name w
  = (inl e, add_request (ReqPut (_bucket self) remote_name body) w).
Proof.
  intros Hf Hc Ho Hp H1 H2. unfold Pipeline.send_file, open_rb, put_object.
  unfold_monad. unfold is_file. rewrite Hf, Hc, Ho. simpl. rewrite Hf, Hp.
  simpl. rewrite H1, H2. reflexivity.
Qed.


Lemma unlink_fault (env : Env) (p : Path) (w : World) (e : exn) :
  fault env OpUnlink = Some e -> unlink env p w = (inl e, w).
Proof. intros Hf. unfold unlink. unfold_monad. rewrite Hf. reflexivity. Qed.

(** When the upload raises an exception that [send_file] does not
    swallow (anything but a [ClientError] or a [FileNotFoundError], for
    instance a connection error), the run stops there: the staged file
    stays in the temp directory, the source file stays where it was,
    nothing is stored remotely, and the log ends with the error.  An
    exception that is no [Exception], a cancellation at the await, stops
    the run in the same place and reaches the caller, and the log has no
    record of it. *)
Theorem upload_exception_stops_run (env : Env) (self : Pipeline.CSVHandler)
    (file_path : Path) (w : World) (body : string) (df : DataFrame) (e : exn) :
  let tmp := joinpath (Pipeline.temp_dir self) (name file_path) in
  let key := ("processed/" ++ name file_path)%string in
  let staged := render_csv env (dropna df) in
  let r := Pipeline.process_csv env self file_path w in
  staging_ready env self file_path w body df ->
  upload_ready env ->
  fault env OpPut = Some e ->
  is_ClientError e = false -> is_FileNotFoundError e = false ->
  fst r = outcome e
  /\ fs (snd r) = <[tmp := File staged]> (fs w)
  /\ remote (snd r) = remote w
  /\ net (snd r) = net w ++ [ReqPut (_bucket (Pipeline.storage self)) key staged]
  /\ log (snd r) = log w ++ records_until 4 self file_path (INFO, MsgPutOk key)
                         ++ error_record file_path e
  /\ states_of_log (records_until 4 self file_path (INFO, MsgPutOk key)
                    ++ [(ERROR, MsgRunError file_path e)])
     = [Detected; At Read; At Filtered; At Staged; Failed Uploaded e].
Proof.
  intros tmp key staged r
    (Hread & Hwrite & Hwf & Hname & Hsrc & Hparse & Htd & Htmp) [Hconn Hopen]
    Hput Hc Hn.
  destruct (staged_parent self file_path Hwf Hname) as [Hpt _].
  fold tmp in Hpt, Htmp.
  assert (Hptd : is_dir w (parent tmp) = true) by (rewrite Hpt; exact Htd).
  subst r. unfold records_until. fold tmp key. cbn [take].
  match goal with |- ?G =>
    change (wp (Pipeline.process_csv env self file_path)
              (fun r0 w0 =>
                 r0 = outcome e
                 /\ fs w0 = <[tmp := File staged]> (fs w)
                 /\ remote w0 = remote w
                 /\ net w0 = net w ++ [ReqPut (_bucket (Pipeline.storage self)) key staged]
                 /\ log w0 = log w ++ [ (INFO, MsgNewFile file_path);
                                        (INFO, MsgFileRead file_path);
                                        (INFO, MsgFiltered file_path);
                                        (INFO, MsgStaged file_path tmp) ]
                                   ++ error_record file_path e
                 /\ states_of_log ([ (INFO, MsgNewFile file_path);
                                     (INFO, MsgFileRead file_path);
                                     (INFO, MsgFiltered file_path);
                                     (INFO, MsgStaged file_path tmp) ]
                                   ++ [(ERROR, MsgRunError file_path e)])
                    = [Detected; At Read; At Filtered; At Staged; Failed Uploaded e]) w)
  end.
  run_until_staged.
  apply wp_bind. eapply wp_eq.
  { apply (send_file_raises env _ _ _ _ staged e); auto.
    cbn [fs set_fs add_log]. apply lookup_insert_eq. }
  run_fails.
Qed.

Lemma demo_staging_ready (f : op -> option exn) :
  f OpRead = None -> f OpWrite = None ->
  staging_ready (Demo2.env_with f) Demo.handler Demo2.a_path Demo.world0 Demo.a_csv
    Demo2.a_df.
Proof.
  intros Hr Hw. unfold staging_ready.
  split; [exact Hr|]. split; [exact Hw|].
  repeat split; try discriminate; vm_compute; reflexivity.
Defined.

Lemma demo_archive_ready : archive_ready Demo.handler Demo2.a_path Demo.world0.
Proof.
  unfold archive_ready. repeat split; try discriminate; vm_compute; reflexivity.
Defined.

Lemma upload_exception_stops_run_witness :
  let r := Pipeline.process_csv (Demo2.env_with Demo2.put_unreachable) Demo.handler
             Demo2.a_path Demo.world0 in
  fs (snd r) = <[of_string "/w/temp/a.csv" := File (Demo.render (dropna Demo2.a_df))]>
                 (fs Demo.world0)
  /\ remote (snd r) = ∅.
Proof.
  destruct (upload_exception_stops_run (Demo2.env_with Demo2.put_unreachable)
              Demo.handler Demo2.a_path Demo.world0 Demo.a_csv Demo2.a_df
              (OtherException "EndpointConnectionError")
              (demo_staging_ready _ eq_refl eq_refl) (conj eq_refl eq_refl)
              eq_refl eq_refl eq_refl)
    as (_ & H2 & H3 & _).
  split; [exact H2 | exact H3].
Defined.



(** When the removal of the staged file raises, the run ends with the
    error although everything else is done: the object is stored, the
    source file is in the archive, and the staged file stays in the temp
    directory.  An exception that is no [Exception] ends the run in the
    same place and reaches the caller, and the log has no record of
    it. *)
Theorem cleanup_exception_ends_run (env : Env) (self : Pipeline.CSVHandler)
    (file_path : Path) (w : World) (body : string) (df : DataFrame) (e : exn) :
  let tmp := joinpath (Pipeline.temp_dir self) (name file_path) in
  let arch := joinpath (Pipeline.archive_dir self) (name file_path) in
  let key := ("processed/" ++ name file_path)%string in
  let staged := render_csv env (dropna df) in
  let r := Pipeline.process_csv env self file_path w in
  staging_ready env self file_path w body df ->
  upload_ready env -> fault env OpPut = None -> fault env OpMove = None ->
  archive_ready self file_path w ->
  fault env OpUnlink = Some e ->
  fst r = outcome e
  /\ fs (snd r) = <[arch := File body]> (delete file_path (<[tmp := File staged]> (fs w)))
  /\ remote (snd r) = <[(_bucket (Pipeline.storage self), key) := staged]> (remote w)
  /\ log (snd r) = log w ++ records_until 7 self file_path (INFO, MsgPutOk key)
                         ++ error_record file_path e
  /\ states_of_log (records_until 7 self file_path (INFO, MsgPutOk key)
                    ++ [(ERROR, MsgRunError file_path e)])
     = [Detected; At Read; At Filtered; At Staged; At Uploaded; At Archived;
        Failed Cleaned e].
Proof.
  intros tmp arch key staged r
    (Hread & Hwrite & Hwf & Hname & Hsrc & Hparse & Htd & Htmp) [Hconn Hopen]
    Hput Hmove (Had & Harch & Hne1 & Hne2 & Hne3) Hunlink.
  destruct (staged_parent self file_path Hwf Hname) as [Hpt Hpa].
  fold tmp in Hpt, Htmp. fold arch in Hpa.
  assert (Hptd : is_dir w (parent tmp) = true) by (rewrite Hpt; exact Htd).
  subst r. unfold records_until. fold tmp arch key. cbn [take].
  match goal with |- ?G =>
    change (wp (Pipeline.process_csv env self file_path)
              (fun r0 w0 =>
                 r0 = outcome e
                 /\ fs w0 = <[arch := File body]>
                           (delete file_path (<[tmp := File staged]> (fs w)))
                 /\ remote w0
                    = <[(_bucket (Pipeline.storage self), key) := staged]> (remote w)
                 /\ log w0 = log w ++ [ (INFO, MsgNewFile file_path);
                                        (INFO, MsgFileRead file_path);
                                        (INFO, MsgFiltered file_path);
                                        (INFO, MsgStaged file_path tmp);
                                        (INFO, MsgPutOk key);
                                        (INFO, MsgUploaded tmp key);
                                        (INFO, MsgArchived file_path arch) ]
                                   ++ error_record file_path e
                 /\ states_of_log ([ (INFO, MsgNewFile file_path);
                                     (INFO, MsgFileRead file_path);
                                     (INFO, MsgFiltered file_path);
                                     (INFO, MsgStaged file_path tmp);
                                     (INFO, MsgPutOk key);
                                     (INFO, MsgUploaded tmp key);
                                     (INFO, MsgArchived file_path arch) ]
                                   ++ [(ERROR, MsgRunError file_path e)])
                    = [Detected; At Read; At Filtered; At Staged; At Uploaded;
                       At Archived; Failed Cleaned e]) w)
  end.
  run_until_staged.
  apply wp_bind. eapply wp_eq.
  { apply (send_file_accepted env _ _ _ _ staged); auto.
    cbn [fs set_fs add_log]. apply lookup_insert_eq. }
  apply wp_log.
  apply wp_bind. eapply wp_eq.
  { apply (shutil_move_file env file_path arch _ body).
    - exact Hmove.
    - cbn [fs set_fs add_log add_request set_remote].
      rewrite lookup_insert_ne by exact Hne1. exact Hsrc.
    - change (is_dir (set_fs (insert tmp (File staged)) w) arch = false).
      rewrite is_dir_insert_file by exact Htmp. exact Harch.
    - rewrite Hpa.
      change (is_dir (set_fs (insert tmp (File staged)) w) (Pipeline.archive_dir self)
              = true).
      rewrite is_dir_insert_file by exact Htmp. exact Had. }
  apply wp_log.
  apply wp_bind. eapply wp_eq; [apply unlink_fault; exact Hunlink|].
  run_fails.
Qed.

Lemma cleanup_exception_ends_run_witness :
  let r := Pipeline.process_csv (Demo2.env_with Demo2.unlink_denied) Demo.handler
             Demo2.a_path Demo.world0 in
  fs (snd r)
  = <[of_string "/w/archive/a.csv" := File Demo.a_csv]>
      (delete Demo2.a_path
         (<[of_string "/w/temp/a.csv" := File (Demo.render (dropna Demo2.a_df))]>
            (fs Demo.world0))).
Proof.
  destruct (cleanup_exception_ends_run (Demo2.env_with Demo2.unlink_denied)
              Demo.handler Demo2.a_path Demo.world0 Demo.a_csv Demo2.a_df
              (OtherException "PermissionError")
              (demo_staging_ready _ eq_refl eq_refl) (conj eq_refl eq_refl)
              eq_refl eq_refl demo_archive_ready eq_refl)
    as (_ & H2 & _).
  exact H2.
Defined.

(** When every stage succeeds, a run delivers and tidies up: the store
    holds the filtered content under [processed/<name>], replacing any
    earlier object of that key and no other; the source file has left the
    watched directory and sits in the archive under its name; the staged
    file is gone; no other path is touched; and the log shows the seven
    states in order, without an error record. *)
Theorem clean_run_delivers_and_archives (env : Env) (self : Pipeline.CSVHandler)
    (file_path : Path) (w : World) (body : string) (df : DataFrame) :
  let tmp := joinpath (Pipeline.temp_dir self) (name file_path) in
  let arch := joinpath (Pipeline.archive_dir self) (name file_path) in
  let key := ("processed/" ++ name file_path)%string in
  let w' := snd (Pipeline.process_csv env self file_path w) in
  (forall o, fault env o = None) ->
  staging_ready env self file_path w body df ->
  archive_ready self file_path w ->
  remote w' !! (_bucket (Pipeline.storage self), key) = Some (render_csv env (dropna df))
  /\ (forall k, k <> (_bucket (Pipeline.storage self), key) ->
                remote w' !! k = remote w !! k)
  /\ fs w' !! file_path = None
  /\ fs w' !! arch = Some (File body)
  /\ fs w' !! tmp = None
  /\ (forall q, q <> file_path -> q <> arch -> q <> tmp -> fs w' !! q = fs w !! q)
  /\ exists l, log w' = log w ++ l
               /\ Forall (fun rec => fst rec = INFO) l
               /\ states_of_log l
                  = [Detected; At Read; At Filtered; At Staged; At Uploaded;
                     At Archived; At Cleaned].
Proof.
  intros tmp arch key w' Hok Hs Ha. subst w'.
  destruct (process_csv_clean_run env self file_path w body df Hok Hs Ha)
    as (_ & Hfs & Hrem & _ & Hlog & _).
  destruct Ha as (_ & _ & Hne1 & Hne2 & Hne3).
  fold tmp arch key in Hfs, Hrem, Hlog, Hne1, Hne2, Hne3.
  rewrite Hfs, Hrem, Hlog.
  split; [apply lookup_insert_eq|].
  split; [intros k Hk; apply lookup_insert_ne; congruence|].
  split; [|split; [|split; [|split]]].
  - rewrite lookup_delete_ne by (intros E; apply Hne1; exact E).
    rewrite lookup_insert_ne by exact Hne2. apply lookup_delete_eq.
  - rewrite lookup_delete_ne by (intros E; apply Hne3; symmetry; exact E).
    apply lookup_insert_eq.
  - apply lookup_delete_eq.
  - intros q H1 H2 H3.
    rewrite lookup_delete_ne by congruence.
    rewrite lookup_insert_ne by congruence.
    rewrite lookup_delete_ne by congruence.
    apply lookup_insert_ne. congruence.
  - eexists. split; [reflexivity|]. split; [|reflexivity].
    unfold records_until. cbn [take]. repeat constructor.
Qed.

Lemma demo_no_faults : forall o, fault Demo.env_ok o = None.
Proof. intros o. reflexivity. Defined.

Lemma clean_run_delivers_and_archives_witness :
  let w' := snd (Pipeline.process_csv Demo.env_ok Demo.handler Demo2.a_path
                   Demo.world0) in
  remote w' !! ("dataengineer-practice", "processed/a.csv")%string
  = Some (Demo.render (dropna Demo2.a_df))
  /\ fs w' !! Demo2.a_path = None
  /\ fs w' !! of_string "/w/archive/a.csv" = Some (File Demo.a_csv)
  /\ fs w' !! of_string "/w/temp/a.csv" = None.
Proof.
  destruct (clean_run_delivers_and_archives Demo.env_ok Demo.handler Demo2.a_path
              Demo.world0 Demo.a_csv Demo2.a_df demo_no_faults
              (demo_staging_ready _ eq_refl eq_refl) demo_archive_ready)
    as (H1 & _ & H3 & H4 & H5 & _).
  split; [exact H1|]. split; [exact H3|]. split; [exact H4 | exact H5].
Defined.

(** [read_csv] never changes the world. *)
Lemma read_csv_world (env : Env) (p : Path) (w : World) :
  snd (read_csv env p w) = w.
Proof. apply (wp_read_csv env p (fun _ w' => w' = w)); reflexivity. Qed.

(** What [read_csv] returns depends on the file system only. *)
Lemma read_csv_result (env : Env) (p : Path) (w1 w2 : World) :
  fs w1 = fs w2 -> fst (read_csv env p w1) = fst (read_csv env p w2).
Proof.
  intros Hfs. unfold read_csv. unfold_monad. destruct (fault env OpRead); [reflexivity|].
  simpl. rewrite Hfs. destruct (fs w2 !! p) as [[body|]|]; try reflexivity.
  destruct (parse_csv env body); reflexivity.
Qed.

(** The run of [process_csv] when the read raises. *)
Lemma process_csv_read_fails (env : Env) (self : Pipeline.CSVHandler)
    (file_path : Path) (w : World) (e : exn) :
  fst (read_csv env file_path w) = inl e ->
  Pipeline.process_csv env self file_path w
  = handled file_path e (add_log INFO (MsgNewFile file_path) w).
Proof.
  intros Hread.
  set (w1 := add_log INFO (MsgNewFile file_path) w).
  pose proof (read_csv_world env file_path w1) as Hw.
  pose proof (read_csv_result env file_path w1 w eq_refl) as Hr.
  rewrite Hread in Hr.
  unfold Pipeline.process_csv, logging_info.
  rewrite bind_run. cbn [modify]. fold w1. rewrite try_except_run, bind_run.
  destruct (read_csv env file_path w1) as [r w2]. simpl in Hr, Hw. subst.
  unfold handled. cbn [dispatch]. destruct (is_Exception e); reflexivity.
Qed.

(** When the source cannot be read (it is missing, it is a directory,
    the reader rejects its content, or the read itself fails), the run
    ends at once: the log gets the start record and the error, and the
    file system, the store, the requests sent, the standard output and
    the loop's tasks are as before.  An exception that is no
    [Exception] reaches the caller instead, and the log gets the start
    record only. *)
Theorem unreadable_source_changes_nothing (env : Env) (self : Pipeline.CSVHandler)
    (file_path : Path) (w : World) (e : exn) :
  fst (read_csv env file_path w) = inl e ->
  Pipeline.process_csv env self file_path w
  = (if is_Exception e
     then (inr tt, add_log ERROR (MsgRunError file_path e)
                     (add_log INFO (MsgNewFile file_path) w))
     else (inl e, add_log INFO (MsgNewFile file_path) w))
  /\ states_of_log [ (INFO, MsgNewFile file_path); (ERROR, MsgRunError file_path e) ]
     = [Detected; Failed Read e].
Proof.
  intros Hread. split; [|reflexivity]. apply process_csv_read_fails, Hread.
Qed.

Lemma unreadable_source_changes_nothing_witness :
  let p := of_string "/w/source/none.csv" in
  Pipeline.process_csv Demo.env_ok Demo.handler p Demo.world0
  = (inr tt, add_log ERROR (MsgRunError p (FileNotFoundError "/w/source/none.csv"))
               (add_log INFO (MsgNewFile p) Demo.world0)).
Proof.
  apply (unreadable_source_changes_nothing Demo.env_ok Demo.handler
           (of_string "/w/source/none.csv") Demo.world0
           (FileNotFoundError "/w/source/none.csv")).
  vm_compute. reflexivity.
Defined.

(** When the temp directory does not exist at the time of staging, the
    run stops at the staging stage with the [OSError] of pandas: nothing
    is written, no request is sent, and the source file stays where it
    was. *)
Theorem missing_temp_dir_stops_run (env : Env) (self : Pipeline.CSVHandler)
    (file_path : Path) (w : World) (body : string) (df : DataFrame) :
  fault env OpRead = None -> fault env OpWrite = None ->
  well_formed file_path = true -> name file_path <> ""%string ->
  fs w !! file_path = Some (File body) -> parse_csv env body = inr df ->
  is_dir w (Pipeline.temp_dir self) = false ->
  let e := OSError (str (Pipeline.temp_dir self)) in
  Pipeline.process_csv env self file_path w
  = (inr tt, add_log ERROR (MsgRunError file_path e)
               (add_log INFO (MsgFiltered file_path)
                  (add_log INFO (MsgFileRead file_path)
                     (add_log INFO (MsgNewFile file_path) w))))
  /\ states_of_log [ (INFO, MsgNewFile file_path); (INFO, MsgFileRead file_path);
                     (INFO, MsgFiltered file_path); (ERROR, MsgRunError file_path e) ]
     = [Detected; At Read; At Filtered; Failed Staged e].
Proof.
  intros Hread Hwrite Hwf Hname Hsrc Hparse Htd e. split; [|reflexivity].
  destruct (staged_parent self file_path Hwf Hname) as [Hpt _].
  match goal with |- _ = (?r, ?w') =>
    enough (wp (Pipeline.process_csv env self file_path)
               (fun r0 w0 => (r0, w0) = (r, w')) w) as H
      by (unfold wp in H; rewrite <- H; apply surjective_pairing)
  end.
  unfold Pipeline.process_csv, logging_info, logging_error.
  apply wp_log, wp_try_except.
  apply wp_bind; eapply wp_eq; [eapply read_csv_ok; eassumption|].
  apply wp_log, wp_log.
  apply wp_bind. eapply wp_eq.
  { unfold to_csv. unfold_monad. rewrite Hwrite. cbn [fst snd].
    rewrite Hpt.
    change (is_dir _ (Pipeline.temp_dir self)) with (is_dir w (Pipeline.temp_dir self)).
    rewrite Htd. reflexivity. }
  cbv beta iota. unfold wp. cbn [dispatch]. reflexivity.
Qed.

Lemma missing_temp_dir_stops_run_witness :
  states_of_log (log (snd (Pipeline.process_csv Demo.env_ok Demo.handler Demo2.a_path
                             Demo2.world_no_dirs)))
  = [Detected; At Read; At Filtered; Failed Staged (OSError "/w/temp")].
Proof.
  assert (Hn : name Demo2.a_path <> ""%string) by discriminate.
  assert (Hsrc : fs Demo2.world_no_dirs !! Demo2.a_path = Some (File Demo.a_csv))
    by (vm_compute; reflexivity).
  assert (Hp : parse_csv Demo.env_ok Demo.a_csv = inr Demo2.a_df)
    by (vm_compute; reflexivity).
  assert (Hd : is_dir Demo2.world_no_dirs (Pipeline.temp_dir Demo.handler) = false)
    by (vm_compute; reflexivity).
  destruct (missing_temp_dir_stops_run Demo.env_ok Demo.handler Demo2.a_path
              Demo2.world_no_dirs Demo.a_csv Demo2.a_df
              eq_refl eq_refl eq_refl Hn Hsrc Hp Hd) as [H _].
  rewrite H. reflexivity.
Defined.

(** ** The remote key *)

Example remote_key_a_csv :
  net (snd (Pipeline.process_csv Demo.env_ok Demo.handler (of_string "/w/source/a.csv")
              Demo.world0))
  = [ReqPut "dataengineer-practice" "processed/a.csv"
            (Demo.render (dropna (mkDF ["id"; "val"]
               [[Some "1"; Some "5"]; [Some "2"; None]; [Some "3"; Some "9"]])))].
Proof. vm_compute. reflexivity. Qed.

(** [send_file] of [6_3.py] when the put request fails, whatever the
    exception. *)
Lemma send_file_put_fails (env : Env) (self : AsyncObjectStorage) (local_source : Path)
    (remote_name : string) (w : World) (body : string) (e : exn) :
  fault env OpPut = Some e ->
  fs w !! local_source = Some (File body) ->
  fault env OpConnect = None -> fault env OpOpen = None ->
  Pipeline.send_file env self local_source remote_name w
  = swallowed e (add_request (ReqPut (_bucket self) remote_name body) w).
Proof.
  intros Hp Hf Hc Ho. unfold Pipeline.send_file, open_rb, put_object, swallowed.
  unfold_monad. unfold is_file. rewrite Hf, Hc, Ho. simpl. rewrite Hf, Hp.
  simpl. destruct (is_ClientError e); [reflexivity|].
  destruct (is_FileNotFoundError e); reflexivity.
Qed.

(** The end of a branch of [process_csv], for a property of the store
    and of the requests sent. *)
Ltac store_fields :=
  repeat split; intros;
    cbn [fs remote net log stdout loop_tasks set_fs add_log add_request set_remote
         fst snd];
    try reflexivity; try discriminate; try congruence;
    try (apply lookup_insert_eq);
    try (rewrite lookup_insert_ne by congruence; reflexivity).

Ltac store_leaf :=
  intros; unfold wp; cbn [dispatch];
  try match goal with
      | |- context [is_Exception ?e] => destruct (is_Exception e)
      end;
  unfold logging_error, modify, raise; cbn [fst snd]; store_fields.

Ltac store_tail env :=
  apply wp_log;
  apply wp_bind, (wp_shutil_move env); [store_leaf|]; intros ? ?;
  apply wp_log;
  apply wp_bind, (wp_unlink env); [store_leaf|]; intros ? _ _;
  apply wp_modify; store_fields.

(** Whatever a run does, it leaves every object of the store alone but
    the one under its key. *)
Lemma process_csv_store (env : Env) (self : Pipeline.CSVHandler) (file_path : Path)
    (w : World) :
  let key := ("processed/" ++ name file_path)%string in
  forall k, k <> (_bucket (Pipeline.storage self), key) ->
    remote (snd (Pipeline.process_csv env self file_path w)) !! k = remote w !! k.
Proof.
  intros key k Hk.
  change (wp (Pipeline.process_csv env self file_path)
            (fun _ w0 => remote w0 !! k = remote w !! k) w).
  unfold Pipeline.process_csv, logging_info, logging_error.
  apply wp_log, wp_try_except.
  apply wp_bind, wp_read_csv; [store_leaf|]. intros body df _ _ _.
  apply wp_log, wp_log.
  apply wp_bind, wp_to_csv; [store_leaf|]. intros _ _ _.
  apply wp_log.
  apply wp_bind, wp_send_file.
  - store_leaf.
  - intros e. unfold swallowed.
    destruct (is_ClientError e); [|destruct (is_FileNotFoundError e)]; cbn [fst snd];
      [store_tail env | store_tail env | store_leaf].
  - intros bytes e _ _ w1. subst w1. unfold swallowed.
    destruct (is_ClientError e); [|destruct (is_FileNotFoundError e)]; cbn [fst snd];
      [store_tail env | store_tail env | store_leaf].
  - intros bytes _ _. fold key. store_tail env.
Qed.

(** A run that gets as far as the upload sends the staged content under
    its key, and the store holds it there when it accepts the request,
    whatever the later stages do. *)
Lemma process_csv_sends_staged (env : Env) (self : Pipeline.CSVHandler)
    (file_path : Path) (w : World) (body : string) (df : DataFrame) :
  let key := ("processed/" ++ name file_path)%string in
  let staged := render_csv env (dropna df) in
  let w' := snd (Pipeline.process_csv env self file_path w) in
  staging_ready env self file_path w body df ->
  upload_ready env ->
  net w' = net w ++ [ReqPut (_bucket (Pipeline.storage self)) key staged]
  /\ (fault env OpPut = None ->
      remote w' !! (_bucket (Pipeline.storage self), key) = Some staged).
Proof.
  intros key staged w'
    (Hread & Hwrite & Hwf & Hname & Hsrc & Hparse & Htd & Htmp) [Hconn Hopen].
  destruct (staged_parent self file_path Hwf Hname) as [Hpt _].
  set (tmp := joinpath (Pipeline.temp_dir self) (name file_path)) in *.
  assert (Hptd : is_dir w (parent tmp) = true) by (rewrite Hpt; exact Htd).
  subst w'.
  change (wp (Pipeline.process_csv env self file_path)
            (fun _ w0 =>
               net w0 = net w ++ [ReqPut (_bucket (Pipeline.storage self)) key staged]
               /\ (fault env OpPut = None ->
                   remote w0 !! (_bucket (Pipeline.storage self), key) = Some staged)) w).
  run_until_staged.
  destruct (fault env OpPut) as [e|] eqn:Hput.
  - apply wp_bind. unfold wp at 1.
    rewrite (send_file_put_fails env _ _ _ _ staged e Hput);
      [| cbn [fs set_fs add_log]; apply lookup_insert_eq | exact Hconn | exact Hopen].
    unfold swallowed.
    destruct (is_ClientError e); [|destruct (is_FileNotFoundError e)]; cbn [fst snd];
      [store_tail env | store_tail env | store_leaf].
  - apply wp_bind. eapply wp_eq.
    { apply (send_file_accepted env _ _ _ _ staged); auto.
      cbn [fs set_fs add_log]. apply lookup_insert_eq. }
    store_tail env.
Qed.

(** C9. The key under which a run uploads the transformed content is
    [processed/] followed by the name of the file that the event names.
    Whatever happens, a run sends at most one request, a put under that
    key, and changes no object of the store under another key.  A run
    whose read, filter and staging succeed and whose connection is made
    does send that request, with the rendered filtered frame as its
    content, and when the store accepts it the object under that key is
    this content.  The name has no slash, so the key has exactly two
    levels: the prefix and the name. *)
Theorem remote_key_is_prefix_and_name (env : Env) (self : Pipeline.CSVHandler)
    (src_path : string) (w : World) (body : string) (df : DataFrame) :
  let file_path := of_string src_path in
  let bucket := _bucket (Pipeline.storage self) in
  let key := ("processed/" ++ name file_path)%string in
  let staged := render_csv env (dropna df) in
  let w' := snd (Pipeline.process_csv env self file_path w) in
  (net w' = net w \/ exists content, net w' = net w ++ [ReqPut bucket key content])
  /\ (forall k, k <> (bucket, key) -> remote w' !! k = remote w !! k)
  /\ (staging_ready env self file_path w body df -> upload_ready env ->
      net w' = net w ++ [ReqPut bucket key staged]
      /\ (fault env OpPut = None -> remote w' !! (bucket, key) = Some staged))
  /\ PyStr.contains "/" (name file_path) = false
  /\ PyStr.split "/" key = ["processed"%string; name file_path].
Proof.
  intros file_path bucket key staged w'.
  assert (Hslash : PyStr.contains "/" (name file_path) = false)
    by apply name_no_slash, of_string_well_formed.
  split; [|split; [|split; [|split]]].
  - apply (process_csv_trace env self file_path w).
  - apply process_csv_store.
  - apply process_csv_sends_staged.
  - exact Hslash.
  - subst key.
    change ("processed/" ++ name file_path)%string
      with ("processed" ++ String "/" (name file_path))%string.
    rewrite split_at_sep by reflexivity.
    rewrite (split_no_sep_id _ _ Hslash). reflexivity.
Qed.

Lemma remote_key_is_prefix_and_name_witness :
  let w' := snd (Pipeline.process_csv Demo.env_ok Demo.handler
                   (of_string "/w/source/a.csv") Demo.world0) in
  net w' = [ReqPut "dataengineer-practice" "processed/a.csv"
                   (Demo.render (dropna Demo2.a_df))]
  /\ remote w' !! ("dataengineer-practice", "processed/a.csv")%string
     = Some (Demo.render (dropna Demo2.a_df)).
Proof.
  assert (Hs : staging_ready Demo.env_ok Demo.handler (of_string "/w/source/a.csv")
                 Demo.world0 Demo.a_csv Demo2.a_df).
  { unfold staging_ready. repeat split; try discriminate; vm_compute; reflexivity. }
  destruct (remote_key_is_prefix_and_name Demo.env_ok Demo.handler "/w/source/a.csv"
              Demo.world0 Demo.a_csv Demo2.a_df) as (_ & _ & H & _).
  destruct (H Hs (conj eq_refl eq_refl)) as [Hnet Hrem].
  split; [exact Hnet | exact (Hrem eq_refl)].
Defined.


(** * Further properties of [send_file] *)

(** The four ways [send_file] of [6_1.py] ends. *)
Lemma wp_storage_send_file (env : Env) (self : AsyncObjectStorage)
    (local_source : string) Q w :
  let file_ref := of_string local_source in
  let target_name := name file_ref in
  (is_file w file_ref = false -> Q (inl (ValueError (str file_ref))) w) ->
  (forall e, Q (fst (swallowed_print e w)) (snd (swallowed_print e w))) ->
  (forall body e, fs w !! file_ref = Some (File body) -> fault env OpPut = Some e ->
     let w1 := add_request (ReqPut (_bucket self) target_name body) w in
     Q (fst (swallowed_print e w1)) (snd (swallowed_print e w1))) ->
  (forall body, fs w !! file_ref = Some (File body) -> fault env OpPut = None ->
     Q (inr tt)
       (add_stdout (MsgPutOk target_name)
          (set_remote (insert (_bucket self, target_name) body)
             (add_request (ReqPut (_bucket self) target_name body) w)))) ->
  wp (Storage.send_file env self local_source) Q w.
Proof.
  intros file_ref target_name Hnf Hearly Hrej Hok.
  assert (Hsw : forall e w1,
     Q (fst (swallowed_print e w1)) (snd (swallowed_print e w1)) ->
     wp (dispatch [ (is_ClientError, fun e => print (MsgPutClientError e));
                    (is_FileNotFoundError, fun e => print (MsgPutMissing e)) ] e)
        Q w1).
  { intros e w1. unfold swallowed_print, wp. simpl.
    destruct (is_ClientError e); [auto|]. destruct (is_FileNotFoundError e); auto. }
  unfold Storage.send_file. fold file_ref. apply wp_bind. unfold wp at 1. simpl.
  destruct (is_file w file_ref) eqn:Hfile; simpl; [|apply Hnf; reflexivity].
  fold target_name.
  apply wp_try_except, wp_bind. unfold connect.
  apply wp_check; [intros e _; apply Hsw, Hearly|]. intros _.
  apply wp_bind. unfold open_rb. apply wp_bind, wp_check; [intros e _; apply Hsw, Hearly|].
  intros _. apply wp_bind. unfold wp at 1. simpl.
  destruct (fs w !! file_ref) as [[body|]|] eqn:Hp;
    try (apply Hsw, Hearly).
  apply wp_bind. unfold put_object. apply wp_bind. unfold wp at 1. simpl.
  apply wp_bind, wp_check.
  - intros e He. apply Hsw. apply (Hrej body e); auto.
  - intros Hput. unfold wp at 1. simpl. unfold wp. simpl. apply Hok; auto.
Qed.

Ltac frame_leaf :=
  unfold upload_frame;
  cbn [fs remote net log stdout loop_tasks set_fs add_log add_request set_remote
       add_stdout fst snd];
  repeat split;
    try reflexivity;
    try (left; reflexivity);
    try (right; eexists; reflexivity);
    try (intros k Hk; try rewrite lookup_insert_ne by congruence; reflexivity).

(** Whatever happens, [send_file] (of either file) leaves the local
    file system and the loop's tasks alone, sends at most one request,
    a put for its key, and changes no object of the store but the one of
    its key; and an exception it lets out is never a [ClientError] nor a
    [FileNotFoundError]. *)
Theorem send_file_frame (env : Env) (self : AsyncObjectStorage) (w : World) :
  (forall (local_source : Path) (remote_name : string),
     let r := Pipeline.send_file env self local_source remote_name w in
     upload_frame (_bucket self) remote_name w (snd r)
     /\ (forall e, fst r = inl e ->
                   is_ClientError e = false /\ is_FileNotFoundError e = false))
  /\ (forall (local_source : string),
     let r := Storage.send_file env self local_source w in
     upload_frame (_bucket self) (name (of_string local_source)) w (snd r)
     /\ (forall e, fst r = inl e ->
                   is_ClientError e = false /\ is_FileNotFoundError e = false)).
Proof.
  split.
  - intros local_source remote_name r. subst r.
    apply (wp_send_file env self local_source remote_name
             (fun r w' => upload_frame (_bucket self) remote_name w w'
                /\ (forall e, r = inl e ->
                      is_ClientError e = false /\ is_FileNotFoundError e = false))).
    + intros _. split; [frame_leaf|]. intros e [= <-]. split; reflexivity.
    + intros e. unfold swallowed.
      destruct (is_ClientError e) eqn:H1; [|destruct (is_FileNotFoundError e) eqn:H2];
        (split; [frame_leaf|]); cbn [fst]; intros e' He'; try discriminate He'.
      injection He' as <-. auto.
    + intros body e _ _ w1. subst w1. unfold swallowed.
      destruct (is_ClientError e) eqn:H1; [|destruct (is_FileNotFoundError e) eqn:H2];
        (split; [frame_leaf|]); cbn [fst]; intros e' He'; try discriminate He'.
      injection He' as <-. auto.
    + intros body _ _. split; [frame_leaf|]. intros e He. discriminate He.
  - intros local_source r. subst r.
    apply (wp_storage_send_file env self local_source
             (fun r w' => upload_frame (_bucket self) (name (of_string local_source)) w w'
                /\ (forall e, r = inl e ->
                      is_ClientError e = false /\ is_FileNotFoundError e = false))).
    + intros _. split; [frame_leaf|]. intros e [= <-]. split; reflexivity.
    + intros e. unfold swallowed_print.
      destruct (is_ClientError e) eqn:H1; [|destruct (is_FileNotFoundError e) eqn:H2];
        (split; [frame_leaf|]); cbn [fst]; intros e' He'; try discriminate He'.
      injection He' as <-. auto.
    + intros body e _ _ w1. subst w1. unfold swallowed_print.
      destruct (is_ClientError e) eqn:H1; [|destruct (is_FileNotFoundError e) eqn:H2];
        (split; [frame_leaf|]); cbn [fst]; intros e' He'; try discriminate He'.
      injection He' as <-. auto.
    + intros body _ _. split; [frame_leaf|]. intros e He. discriminate He.
Qed.

(** [send_file] of [6_1.py] when nothing fails. *)
Lemma storage_send_file_accepted (env : Env) (self : AsyncObjectStorage)
    (local_source : string) (w : World) (body : string) :
  fs w !! of_string local_source = Some (File body) ->
  fault env OpConnect = None -> fault env OpOpen = None -> fault env OpPut = None ->
  Storage.send_file env self local_source w
  = (inr tt, add_stdout (MsgPutOk (name (of_string local_source)))
               (set_remote (insert (_bucket self, name (of_string local_source)) body)
                  (add_request (ReqPut (_bucket self) (name (of_string local_source)) body)
                     w))).
Proof.
  intros Hf Hc Ho Hp. unfold Storage.send_file, open_rb, put_object.
  unfold_monad. unfold is_file. rewrite Hf, Hc, Ho. simpl. rewrite Hf, Hp.
  reflexivity.
Qed.

(** [file_exists] when the store answers: it tells whether the key is
    there, and changes nothing but the requests sent. *)
Lemma file_exists_answered (env : Env) (self : AsyncObjectStorage)
    (remote_name : string) (w : World) :
  fault env OpConnect = None -> fault env OpHead = None ->
  Storage.file_exists env self remote_name w
  = (inr (bool_decide (is_Some (remote w !! (_bucket self, remote_name)))),
     add_request (ReqHead (_bucket self) remote_name) w).
Proof.
  intros Hc Hh. unfold Storage.file_exists, head_object. unfold_monad.
  rewrite Hc. simpl. rewrite Hh. simpl.
  destruct (remote w !! (_bucket self, remote_name)) as [body|]; reflexivity.
Qed.

(** In [6_1.py] the key of an upload is the bare file name.  When the
    store answers: after uploading a regular file, [file_exists] of its
    name is true and the object holds the file's content; two files of
    the same name in different directories share one key, and the second
    upload replaces the first. *)
Theorem upload_is_keyed_by_file_name (env : Env) (self : AsyncObjectStorage)
    (src1 src2 : string) (w : World) (body1 body2 : string) :
  let key := name (of_string src1) in
  store_answers env ->
  fs w !! of_string src1 = Some (File body1) ->
  fs w !! of_string src2 = Some (File body2) ->
  name (of_string src2) = key ->
  PyStr.contains "/" key = false
  /\ fst ((Storage.send_file env self src1;; Storage.file_exists env self key) w)
     = inr true
  /\ remote (snd (Storage.send_file env self src1 w)) !! (_bucket self, key) = Some body1
  /\ remote (snd ((Storage.send_file env self src1;; Storage.send_file env self src2) w))
       !! (_bucket self, key) = Some body2.
Proof.
  intros key (Hc & Ho & Hp & Hh) H1 H2 Hname.
  split; [apply name_no_slash, of_string_well_formed|].
  rewrite !bind_run.
  rewrite (storage_send_file_accepted env self src1 w body1 H1 Hc Ho Hp).
  fold key. split; [|split].
  - rewrite (file_exists_answered env self key _ Hc Hh).
    cbn [fst remote set_remote add_stdout add_request].
    rewrite lookup_insert_eq. reflexivity.
  - cbn [snd remote set_remote add_stdout add_request]. apply lookup_insert_eq.
  - rewrite (storage_send_file_accepted env self src2 _ body2);
      [| exact H2 | assumption ..].
    rewrite Hname. cbn [snd remote set_remote add_stdout add_request].
    apply lookup_insert_eq.
Qed.

Lemma upload_is_keyed_by_file_name_witness :
  let w := snd ((Storage.send_file Demo.env_ok Demo.client "/w/archive/a.csv";;
                 Storage.send_file Demo.env_ok Demo.client "/w/source/a.csv")
                  Demo.world_archived) in
  remote w !! ("dataengineer-practice", "a.csv")%string = Some Demo.a_csv.
Proof.
  assert (H1 : fs Demo.world_archived !! of_string "/w/archive/a.csv"
               = Some (File "old")) by (vm_compute; reflexivity).
  assert (H2 : fs Demo.world_archived !! of_string "/w/source/a.csv"
               = Some (File Demo.a_csv)) by (vm_compute; reflexivity).
  destruct (upload_is_keyed_by_file_name Demo.env_ok Demo.client
              "/w/archive/a.csv" "/w/source/a.csv" Demo.world_archived "old" Demo.a_csv
              (conj eq_refl (conj eq_refl (conj eq_refl eq_refl))) H1 H2 eq_refl)
    as (_ & _ & _ & H).
  exact H.
Defined.

(** * Which names the watcher accepts *)

Lemma rfind_app (c : ascii) (s t : string) :
  PyStr.rfind c (s ++ t)%string
  = match PyStr.rfind c t with
    | Some i => Some (String.length s + i)
    | None => PyStr.rfind c s
    end.
Proof.
  induction s as [|a s IH].
  - change (""%string ++ t)%string with t. destruct (PyStr.rfind c t); reflexivity.
  - change (String a s ++ t)%string with (String a (s ++ t)%string).
    cbn [PyStr.rfind String.length]. rewrite IH.
    destruct (PyStr.rfind c t); reflexivity.
Qed.

Lemma drop_chars_app (s t : string) :
  PyStr.drop_chars (String.length s) (s ++ t)%string = t.
Proof.
  induction s as [|a s IH].
  - change (""%string ++ t)%string with t. destruct t; reflexivity.
  - change (String a s ++ t)%string with (String a (s ++ t)%string). exact IH.
Qed.

Lemma length_append (s t : string) :
  String.length (s ++ t)%string = String.length s + String.length t.
Proof.
  induction s as [|a s IH]; [reflexivity|].
  change (String a s ++ t)%string with (String a (s ++ t)%string).
  cbn [String.length]. rewrite IH. reflexivity.
Qed.

Lemma rfind_lt (c : ascii) (s : string) (i : nat) :
  PyStr.rfind c s = Some i -> i < String.length s.
Proof.
  revert i. induction s as [|a s IH]; simpl; intros i H; [discriminate|].
  destruct (PyStr.rfind c s) as [j|].
  - injection H as <-. specialize (IH j eq_refl). lia.
  - destruct (Ascii.eqb a c); [injection H as <-; lia | discriminate].
Qed.

(** A string splits at any position within it. *)
Lemma split_at (i : nat) (s : string) :
  i <= String.length s ->
  exists stem, s = (stem ++ PyStr.drop_chars i s)%string /\ String.length stem = i.
Proof.
  revert s. induction i as [|i IH]; intros s Hi.
  - exists ""%string. split; [destruct s; reflexivity | reflexivity].
  - destruct s as [|a s]; simpl in Hi; [lia|].
    destruct (IH s ltac:(lia)) as (stem & Hs & Hl).
    exists (String a stem). split.
    + change (String a stem ++ PyStr.drop_chars (S i) (String a s))%string
        with (String a (stem ++ PyStr.drop_chars i s)%string).
      f_equal. exact Hs.
    + cbn [String.length]. f_equal. exact Hl.
Qed.

(** The strings that lower-case to [.csv]: a dot and three letters. *)
Lemma lower_csv_shape (ext : string) :
  PyStr.lower ext = ".csv"%string ->
  String.length ext = 4 /\ PyStr.rfind "." ext = Some 0.
Proof.
  destruct ext as [|c0 [|c1 [|c2 [|c3 [|c4 rest]]]]]; simpl; intros H; try discriminate.
  injection H as H0 H1 H2 H3. split; [reflexivity|].
  assert (E0 : c0 = "."%char).
  { clear -H0. destruct c0 as [[] [] [] [] [] [] [] []]; try discriminate H0; reflexivity. }
  assert (E1 : Ascii.eqb c1 "." = false).
  { apply Ascii.eqb_neq. intros ->. discriminate H1. }
  assert (E2 : Ascii.eqb c2 "." = false).
  { apply Ascii.eqb_neq. intros ->. discriminate H2. }
  assert (E3 : Ascii.eqb c3 "." = false).
  { apply Ascii.eqb_neq. intros ->. discriminate H3. }
  subst c0. rewrite E1, E2, E3. reflexivity.
Qed.

(** The suffix of a path is [.csv] up to case exactly when its name is a
    non-empty stem followed by an extension that lower-cases to [.csv]. *)
Lemma csv_suffix_iff (p : Path) :
  PyStr.lower (suffix p) = ".csv"%string
  <-> exists stem ext, name p = (stem ++ ext)%string /\ stem <> ""%string
                       /\ PyStr.lower ext = ".csv"%string.
Proof.
  unfold suffix. split.
  - destruct (PyStr.rfind "." (name p)) as [i|] eqn:Hr; [|discriminate].
    destruct ((0 <? i)%nat && (i <? String.length (name p) - 1)%nat) eqn:Hi; [|discriminate].
    intros Hl. apply andb_prop in Hi as [H0 H1].
    apply Nat.ltb_lt in H0. apply Nat.ltb_lt in H1.
    destruct (split_at i (name p) ltac:(lia)) as (stem & Hs & Hlen).
    exists stem, (PyStr.drop_chars i (name p)). split; [exact Hs|]. split; [|exact Hl].
    intros ->. simpl in Hlen. lia.
  - intros (stem & ext & Hn & Hstem & Hl).
    destruct (lower_csv_shape ext Hl) as [Hlen Hdot].
    rewrite Hn, rfind_app, Hdot, Nat.add_0_r, length_append, Hlen.
    assert (0 < String.length stem) by (destruct stem; [contradiction | simpl; lia]).
    replace (0 <? String.length stem)%nat with true by (symmetry; apply Nat.ltb_lt; lia).
    replace (String.length stem <? String.length stem + 4 - 1)%nat with true
      by (symmetry; apply Nat.ltb_lt; lia).
    simpl. rewrite drop_chars_app. exact Hl.
Qed.

(** The watcher schedules a run exactly for the events that are files
    whose name is a non-empty stem followed by [.csv] in any mix of
    cases; in particular a file named just [.csv], or one whose name
    merely contains [.csv] before another suffix, is ignored.  Every
    other event leaves the world as it was. *)
Theorem on_created_accepts_stem_dot_csv (self : Pipeline.CSVHandler)
    (event : Pipeline.FileSystemEvent) (w : World) :
  let file_path := of_string (Pipeline.src_path event) in
  let accepted :=
    Pipeline.is_directory event = false
    /\ exists stem ext, name file_path = (stem ++ ext)%string /\ stem <> ""%string
                        /\ PyStr.lower ext = ".csv"%string in
  (accepted -> snd (Pipeline.on_created self event w) = add_task file_path w)
  /\ (~ accepted -> snd (Pipeline.on_created self event w) = w).
Proof.
  intros file_path accepted. subst accepted.
  rewrite on_created_effect. unfold is_csv_file. fold file_path. cbn [snd].
  pose proof (csv_suffix_iff file_path) as Hiff.
  split.
  - intros [Hd Hex]. rewrite Hd. apply Hiff in Hex.
    apply String.eqb_eq in Hex. rewrite Hex. reflexivity.
  - intros Hno. destruct (Pipeline.is_directory event) eqn:Hd; [reflexivity|].
    destruct (String.eqb (PyStr.lower (suffix file_path)) ".csv") eqn:He; [|reflexivity].
    exfalso. apply Hno. split; [reflexivity|]. apply Hiff, String.eqb_eq, He.
Qed.

Lemma on_created_accepts_stem_dot_csv_witness :
  let ev := Demo.created "/w/source/Report.CsV" in
  loop_tasks (snd (Pipeline.on_created Demo.handler ev Demo.world0))
  = [of_string "/w/source/Report.CsV"]
  /\ snd (Pipeline.on_created Demo.handler (Demo.created "/w/source/.csv") Demo.world0)
     = Demo.world0.
Proof.
  split.
  - destruct (on_created_accepts_stem_dot_csv Demo.handler
                (Demo.created "/w/source/Report.CsV") Demo.world0) as [H _].
    rewrite H; [reflexivity|].
    split; [reflexivity|]. exists "Report"%string, ".CsV"%string.
    split; [reflexivity|]. split; [discriminate | reflexivity].
  - destruct (on_created_accepts_stem_dot_csv Demo.handler
                (Demo.created "/w/source/.csv") Demo.world0) as [_ H].
    apply H. intros [_ (stem & ext & Hn & Hs & Hl)].
    destruct (lower_csv_shape ext Hl) as [Hlen _].
    apply (f_equal String.length) in Hn. rewrite length_append, Hlen in Hn.
    simpl in Hn. destruct stem; [contradiction | simpl in Hn; lia].
Defined.

(** * Constructing the handler *)

Lemma set_fs_set_fs (f g : gmap Path node -> gmap Path node) (w : World) :
  set_fs f (set_fs g w) = set_fs (fun m => f (g m)) w.
Proof. destruct w; reflexivity. Qed.

Lemma with_dirs_lookup (ds : list Path) (m : gmap Path node) (q : Path) :
  with_dirs ds m !! q = if bool_decide (q ∈ ds) then Some Dir else m !! q.
Proof.
  revert m. induction ds as [|d ds IH]; intros m; [reflexivity|].
  unfold with_dirs in *. cbn [List.fold_left]. rewrite IH.
  destruct (bool_decide (q ∈ ds)) eqn:Hq.
  - apply bool_decide_eq_true in Hq.
    rewrite bool_decide_eq_true_2; [reflexivity|]. apply elem_of_cons. auto.
  - apply bool_decide_eq_false in Hq.
    destruct (decide (d = q)) as [->|Hne].
    + rewrite lookup_insert_eq.
      rewrite bool_decide_eq_true_2; [reflexivity|]. apply elem_of_cons. auto.
    + rewrite lookup_insert_ne by exact Hne.
      rewrite bool_decide_eq_false_2; [reflexivity|].
      intros E. apply elem_of_cons in E as [E|E]; auto.
Qed.

Lemma self_in_ancestors (p : Path) :
  parts p <> [] -> p ∈ ancestors_and_self p.
Proof.
  intros Hne. unfold ancestors_and_self. apply list_elem_of_In, in_map_iff.
  exists (List.length (parts p)). split.
  - rewrite firstn_all. destruct p; reflexivity.
  - apply in_seq. destruct (parts p); [contradiction | simpl; lia].
Qed.

(** The parents of the parent are parents of the path. *)
Lemma ancestors_of_parent (p d : Path) :
  d ∈ ancestors_and_self (parent p) -> d ∈ ancestors_and_self p.
Proof.
  unfold ancestors_and_self. intros Hd.
  apply list_elem_of_In, in_map_iff in Hd as (n & <- & Hn).
  apply in_seq in Hn. cbn [parent root parts] in *.
  rewrite removelast_firstn_len in Hn |- *.
  rewrite length_take in Hn.
  apply list_elem_of_In, in_map_iff. exists n. split.
  - f_equal. rewrite take_take. f_equal. lia.
  - apply in_seq. lia.
Qed.

(** [mkdir_p] when no regular file is in the way. *)
Lemma mkdir_p_ok (env : Env) (p : Path) (w : World) :
  fault env OpMkdir = None ->
  (forall d, d ∈ ancestors_and_self p -> is_file w d = false) ->
  mkdir_p env p w = (inr tt, set_fs (with_dirs (ancestors_and_self p)) w).
Proof.
  intros Hf Hfree. unfold mkdir_p. rewrite bind_run. unfold check. rewrite Hf.
  cbn [mret M_ret]. rewrite bind_run. cbn [get].
  assert (Hup : existsb (is_file w) (ancestors_and_self (parent p)) = false).
  { apply not_true_is_false. intros E. apply existsb_exists in E as (d & Hd & E).
    rewrite (Hfree d) in E; [discriminate|].
    apply ancestors_of_parent, list_elem_of_In, Hd. }
  rewrite Hup.
  assert (Hleaf : negb (is_dir w p) && is_file w p = false).
  { destruct (parts p) eqn:Hp.
    - unfold is_dir. rewrite Hp. reflexivity.
    - rewrite (Hfree p); [apply andb_false_r|].
      apply self_in_ancestors. rewrite Hp. discriminate. }
  rewrite Hleaf. reflexivity.
Qed.

Lemma is_dir_with_dirs (ds : list Path) (w : World) (p : Path) :
  p ∈ ds \/ parts p = [] -> is_dir (set_fs (with_dirs ds) w) p = true.
Proof.
  intros H. unfold is_dir. destruct (parts p) eqn:Hp; [reflexivity|].
  destruct H as [H|H]; [|discriminate H].
  cbn [fs set_fs]. rewrite with_dirs_lookup, bool_decide_eq_true_2 by exact H.
  reflexivity.
Qed.

(** Constructing the handler makes the temp and the archive directory
    with their parents, unless a regular file is in the way of one of
    them: afterwards both are directories, every path outside these
    directories and their parents is as before, no request is sent and
    nothing is logged.  The source directory is not made.  Constructing
    the handler again changes nothing. *)
Theorem handler_init_makes_directories (env : Env) (storage : AsyncObjectStorage)
    (source_dir archive_dir temp_dir : string) (w : World) :
  let self := Pipeline.mkHandler storage (of_string source_dir) (of_string archive_dir)
                                 (of_string temp_dir) in
  let r := Pipeline.CSVHandler__init__ env storage source_dir archive_dir temp_dir w in
  fault env OpMkdir = None ->
  (forall d, d ∈ handler_dirs self -> is_file w d = false) ->
  fst r = inr self
  /\ is_dir (snd r) (Pipeline.temp_dir self) = true
  /\ is_dir (snd r) (Pipeline.archive_dir self) = true
  /\ (forall q, fs (snd r) !! q
                = if bool_decide (q ∈ handler_dirs self) then Some Dir else fs w !! q)
  /\ remote (snd r) = remote w /\ net (snd r) = net w /\ log (snd r) = log w
  /\ Pipeline.CSVHandler__init__ env storage source_dir archive_dir temp_dir (snd r) = r.
Proof.
  intros self r Hf Hfree.
  assert (Hrun : forall v, (forall d, d ∈ handler_dirs self -> is_file v d = false) ->
            Pipeline.CSVHandler__init__ env storage source_dir archive_dir temp_dir v
            = (inr self, set_fs (with_dirs (handler_dirs self)) v)).
  { intros v Hv. unfold Pipeline.CSVHandler__init__. fold self.
    rewrite bind_run, (mkdir_p_ok env _ v Hf), bind_run.
    2:{ intros d Hd. apply Hv. unfold handler_dirs. apply elem_of_app. left. exact Hd. }
    rewrite mkdir_p_ok; [| exact Hf |].
    - rewrite set_fs_set_fs. f_equal. destruct v as [f rm n l o t]. unfold set_fs.
      cbn [fs remote net log stdout loop_tasks]. f_equal.
      unfold handler_dirs, with_dirs. symmetry. apply fold_left_app.
    - intros d Hd. unfold is_file. cbn [fs set_fs]. rewrite with_dirs_lookup.
      destruct (bool_decide _); [reflexivity|].
      apply Hv. unfold handler_dirs. apply elem_of_app. right. exact Hd. }
  subst r. rewrite (Hrun w Hfree). cbn [fst snd].
  split; [reflexivity|].
  split; [|split; [|split; [|split; [|split; [|split]]]]]; try reflexivity.
  - apply is_dir_with_dirs. destruct (parts (Pipeline.temp_dir self)) eqn:Hp; [auto|].
    left. unfold handler_dirs. apply elem_of_app. left. apply self_in_ancestors.
    rewrite Hp. discriminate.
  - apply is_dir_with_dirs. destruct (parts (Pipeline.archive_dir self)) eqn:Hp; [auto|].
    left. unfold handler_dirs. apply elem_of_app. right. apply self_in_ancestors.
    rewrite Hp. discriminate.
  - intros q. cbn [fs set_fs]. apply with_dirs_lookup.
  - rewrite Hrun.
    + f_equal. rewrite set_fs_set_fs. destruct w as [f rm n l o t]. unfold set_fs.
      cbn [fs remote net log stdout loop_tasks]. f_equal.
      apply map_eq. intros q. rewrite !with_dirs_lookup.
      destruct (bool_decide (q ∈ handler_dirs self)); reflexivity.
    + intros d Hd. unfold is_file. cbn [fs set_fs].
      rewrite with_dirs_lookup, bool_decide_eq_true_2 by exact Hd. reflexivity.
Qed.

Lemma handler_init_makes_directories_witness :
  let r := Pipeline.CSVHandler__init__ Demo.env_ok Demo.client "/w/source" "/w/archive"
             "/w/temp" Demo2.world_no_dirs in
  fst r = inr Demo.handler
  /\ is_dir (snd r) (of_string "/w/temp") = true
  /\ is_dir (snd r) (of_string "/w/archive") = true
  /\ fs (snd r) !! Demo2.a_path = Some (File Demo.a_csv).
Proof.
  assert (Hfree : forall d, d ∈ handler_dirs Demo.handler ->
                            is_file Demo2.world_no_dirs d = false).
  { intros d Hd. apply list_elem_of_In in Hd. vm_compute in Hd.
    repeat (destruct Hd as [<-|Hd]; [vm_compute; reflexivity|]). destruct Hd. }
  destruct (handler_init_makes_directories Demo.env_ok Demo.client "/w/source"
              "/w/archive" "/w/temp" Demo2.world_no_dirs eq_refl Hfree)
    as (H1 & H2 & H3 & H4 & _).
  split; [exact H1|]. split; [exact H2|]. split; [exact H3|].
  rewrite H4. vm_compute. reflexivity.
Defined.

(** * Paths and their text *)

Lemma join_cons2 (x y : string) (rest : list string) :
  PyStr.join "/" (x :: y :: rest) = (x ++ String "/" (PyStr.join "/" (y :: rest)))%string.
Proof. reflexivity. Qed.

(** Splitting the joined components gives them back. *)
Lemma split_join (ps : list string) :
  ps <> [] ->
  Forall (fun x => PyStr.contains "/" x = false) ps ->
  PyStr.split "/" (PyStr.join "/" ps) = ps.
Proof.
  induction ps as [|x ps IH]; intros Hne Hall; [contradiction|].
  apply Forall_cons in Hall as [Hx Hps].
  destruct ps as [|y rest].
  - cbn [PyStr.join]. apply split_no_sep_id, Hx.
  - rewrite join_cons2, split_at_sep by exact Hx. f_equal.
    apply IH; [discriminate | exact Hps].
Qed.

Lemma filter_keeps_all (l : list string) :
  (forall y, y ∈ l -> Is_true (keep_part y)) ->
  filter (fun y => Is_true (keep_part y)) l = l.
Proof.
  induction l as [|x l IH]; intros H; [reflexivity|].
  rewrite filter_cons_True by (apply H, elem_of_cons; auto).
  f_equal. apply IH. intros y Hy. apply H, elem_of_cons. auto.
Qed.

(** The text of a non-empty list of proper components starts with a
    character that is not a slash. *)
Lemma join_head (x : string) (ps : list string) :
  keep_part x = true -> PyStr.contains "/" x = false ->
  exists a rest, PyStr.join "/" (x :: ps) = String a rest /\ Ascii.eqb a "/" = false.
Proof.
  intros Hk Hs. destruct x as [|a x']; [discriminate Hk|].
  simpl in Hs. apply orb_false_elim in Hs as [Ha _].
  destruct ps as [|y rest].
  - exists a, x'. split; [reflexivity | exact Ha].
  - exists a, (x' ++ String "/" (PyStr.join "/" (y :: rest)))%string.
    split; [reflexivity | exact Ha].
Qed.

Lemma splitroot_relative (a : ascii) (s : string) :
  Ascii.eqb a "/" = false ->
  splitroot (String a s) = (""%string, String a s)
  /\ splitroot (String "/" (String a s)) = ("/"%string, String a s)
  /\ splitroot (String "/" (String "/" (String a s))) = ("//"%string, String a s).
Proof.
  intros Ha. apply Ascii.eqb_neq in Ha.
  destruct a as [[] [] [] [] [] [] [] []]; try (repeat split; reflexivity).
  contradiction Ha. reflexivity.
Qed.

(** Parsing the text of a path gives the path back: for every path whose
    components are proper (non-empty, not a single dot, without slash)
    and whose root is empty, one slash or two slashes, [Path(str(p))] is
    [p].  Passing [str(path)] where a path is expected, as the archive
    step does, loses nothing. *)
Theorem of_string_str (p : Path) :
  well_formed p = true ->
  root p = ""%string \/ root p = "/"%string \/ root p = "//"%string ->
  of_string (str p) = p.
Proof.
  destruct p as [r ps]. unfold well_formed, str. cbn [root parts].
  intros Hwf Hroot.
  destruct ps as [|x ps].
  - destruct Hroot as [-> | [-> | ->]]; reflexivity.
  - rewrite forallb_forall in Hwf.
    assert (Hall : Forall (fun y => PyStr.contains "/" y = false) (x :: ps)).
    { apply Forall_forall. intros y Hy. apply list_elem_of_In in Hy.
      specialize (Hwf y Hy).
      apply andb_prop in Hwf as [_ H]. apply negb_true_iff in H. exact H. }
    assert (Hkeep : forall y, y ∈ x :: ps -> Is_true (keep_part y)).
    { intros y Hy. apply list_elem_of_In in Hy. specialize (Hwf y Hy).
      apply andb_prop in Hwf as [H _]. apply Is_true_true. exact H. }
    assert (Hkx : keep_part x = true)
      by (apply Is_true_true, Hkeep, elem_of_cons; auto).
    assert (Hsx : PyStr.contains "/" x = false) by (apply Forall_cons in Hall; tauto).
    destruct (join_head x ps Hkx Hsx) as (a & rest & Hj & Ha).
    destruct (splitroot_relative a rest Ha) as (Hr0 & Hr1 & Hr2).
    assert (Hparts : filter (fun y => Is_true (keep_part y))
                       (PyStr.split "/" (String a rest)) = x :: ps).
    { rewrite <- Hj, split_join by (discriminate || exact Hall).
      apply filter_keeps_all. exact Hkeep. }
    unfold of_string.
    destruct Hroot as [-> | [-> | ->]].
    + change (("" ++ PyStr.join "/" (x :: ps))%string) with (PyStr.join "/" (x :: ps)).
      rewrite Hj, Hr0, Hparts. reflexivity.
    + change (("/" ++ PyStr.join "/" (x :: ps))%string)
        with (String "/" (PyStr.join "/" (x :: ps))).
      rewrite Hj, Hr1, Hparts. reflexivity.
    + change (("//" ++ PyStr.join "/" (x :: ps))%string)
        with (String "/" (String "/" (PyStr.join "/" (x :: ps)))).
      rewrite Hj, Hr2, Hparts. reflexivity.
Qed.

Lemma of_string_str_witness :
  of_string (str (of_string "/w/./source//a.csv")) = of_string "/w/source/a.csv".
Proof.
  apply (of_string_str (of_string "/w/./source//a.csv")).
  - reflexivity.
  - right. left. reflexivity.
Defined.

(** * The endpoint of the client *)

Lemma append_cons (a : ascii) (x y : string) :
  (String a x ++ y)%string = String a (x ++ y)%string.
Proof. reflexivity. Qed.

Lemma append_empty_r (x : string) : (x ++ "")%string = x.
Proof. induction x as [|a x IH]; [reflexivity|]. rewrite append_cons, IH. reflexivity. Qed.

Lemma append_assoc (x y z : string) : ((x ++ y) ++ z)%string = (x ++ y ++ z)%string.
Proof.
  induction x as [|a x IH]; [reflexivity|]. rewrite !append_cons, IH. reflexivity.
Qed.

Lemma unchars_app (l1 l2 : list string) :
  PyStr.unchars (l1 ++ l2) = (PyStr.unchars l1 ++ PyStr.unchars l2)%string.
Proof.
  induction l1 as [|c l1 IH]; [reflexivity|].
  cbn [app PyStr.unchars List.fold_right]. fold (PyStr.unchars (l1 ++ l2)).
  fold (PyStr.unchars l1). rewrite IH, append_assoc. reflexivity.
Qed.

(** Cutting a string into characters loses nothing. *)
Lemma unchars_chars (s : string) : PyStr.unchars (PyStr.chars s) = s.
Proof.
  induction s as [|a s IH]; [reflexivity|].
  cbn [PyStr.chars]. destruct (PyStr.chars s) as [|c cs].
  - cbn in IH. subst s. reflexivity.
  - change (PyStr.unchars (c :: cs)) with (c ++ PyStr.unchars cs)%string in IH.
    destruct (PyStr.starts_with_continuation c).
    + change (PyStr.unchars (String a c :: cs))
        with (String a c ++ PyStr.unchars cs)%string.
      rewrite append_cons, IH. reflexivity.
    + change (PyStr.unchars (String a "" :: c :: cs))
        with (String a "" ++ (c ++ PyStr.unchars cs))%string.
      rewrite append_cons, IH. reflexivity.
Qed.

(** The first character of a string starts with its first byte. *)
Lemma chars_head (s : string) :
  match PyStr.chars s with
  | [] => s = ""%string
  | c :: _ => PyStr.starts_with_continuation c = PyStr.starts_with_continuation s
  end.
Proof.
  destruct s as [|a s]; [reflexivity|]. cbn [PyStr.chars].
  destruct (PyStr.chars s) as [|c cs]; [reflexivity|].
  destruct (PyStr.starts_with_continuation c); reflexivity.
Qed.

Lemma chars_well_chunked (s : string) : well_chunked (PyStr.chars s) = true.
Proof.
  induction s as [|a s IH]; [reflexivity|].
  cbn [PyStr.chars]. destruct (PyStr.chars s) as [|c cs]; [reflexivity|].
  cbn [well_chunked] in IH. apply andb_true_iff in IH as [Hc Hcs].
  destruct (PyStr.starts_with_continuation c) eqn:Hs; cbn [well_chunked].
  - apply andb_true_iff. split; [|exact Hcs].
    destruct c as [|b t]; [discriminate|]. cbn [is_char all_continuation].
    cbn in Hs, Hc. rewrite Hs, Hc. reflexivity.
  - cbn [is_char all_continuation forallb]. rewrite Hc, Hs, Hcs. reflexivity.
Qed.

(** A character followed by text that starts a character is the first
    character of the whole. *)
Lemma chars_cons_char (a : ascii) (t rest : string) :
  all_continuation t = true ->
  PyStr.starts_with_continuation rest = false ->
  PyStr.chars (String a (t ++ rest)) = String a t :: PyStr.chars rest.
Proof.
  revert a. induction t as [|b t IH]; intros a Ht Hrest.
  - change (String a ("" ++ rest))%string with (String a rest). cbn [PyStr.chars].
    pose proof (chars_head rest) as Hh.
    destruct (PyStr.chars rest) as [|c cs]; [reflexivity|].
    rewrite Hh, Hrest. reflexivity.
  - cbn [all_continuation] in Ht. apply andb_true_iff in Ht as [Hb Ht].
    rewrite append_cons.
    change (PyStr.chars (String a (String b (t ++ rest))))
      with (match PyStr.chars (String b (t ++ rest)) with
            | c :: cs =>
                if PyStr.starts_with_continuation c then String a c :: cs
                else String a EmptyString :: c :: cs
            | [] => [String a EmptyString]
            end).
    rewrite (IH b Ht Hrest). cbn [PyStr.starts_with_continuation]. rewrite Hb.
    reflexivity.
Qed.

Lemma chars_unchars_tail (l : list string) :
  forallb (fun c => is_char c && negb (PyStr.starts_with_continuation c)) l = true ->
  PyStr.chars (PyStr.unchars l) = l
  /\ PyStr.starts_with_continuation (PyStr.unchars l) = false.
Proof.
  induction l as [|c cs IH]; [split; reflexivity|].
  cbn [forallb]. intros H. apply andb_true_iff in H as [Hc Hcs].
  apply andb_true_iff in Hc as [Hchar Hstart]. apply negb_true_iff in Hstart.
  destruct (IH Hcs) as [IH1 IH2].
  destruct c as [|a t]; [discriminate|]. cbn [is_char] in Hchar.
  change (PyStr.unchars (String a t :: cs))
    with (String a t ++ PyStr.unchars cs)%string.
  rewrite append_cons. split.
  - rewrite (chars_cons_char a t _ Hchar IH2), IH1. reflexivity.
  - exact Hstart.
Qed.

(** Characters put together are cut into the same characters again. *)
Lemma chars_unchars (l : list string) :
  well_chunked l = true -> PyStr.chars (PyStr.unchars l) = l.
Proof.
  destruct l as [|c cs]; [reflexivity|]. cbn [well_chunked]. intros H.
  apply andb_true_iff in H as [Hchar Hcs].
  destruct (chars_unchars_tail cs Hcs) as [IH1 IH2].
  destruct c as [|a t]; [discriminate|]. cbn [is_char] in Hchar.
  change (PyStr.unchars (String a t :: cs))
    with (String a t ++ PyStr.unchars cs)%string.
  rewrite append_cons, (chars_cons_char a t _ Hchar IH2), IH1. reflexivity.
Qed.

Lemma well_chunked_tail (c : string) (cs : list string) :
  well_chunked (c :: cs) = true -> well_chunked cs = true.
Proof.
  cbn [well_chunked]. intros H. apply andb_true_iff in H as [_ H].
  destruct cs as [|d ds]; [reflexivity|]. cbn [forallb well_chunked] in *.
  apply andb_true_iff in H as [Hd Hds]. apply andb_true_iff in Hd as [Hd _].
  rewrite Hd, Hds. reflexivity.
Qed.

Lemma well_chunked_app_r (l1 l2 : list string) :
  well_chunked (l1 ++ l2) = true -> well_chunked l2 = true.
Proof.
  induction l1 as [|c l1 IH]; [exact id|].
  intros H. apply IH. exact (well_chunked_tail c _ H).
Qed.

Lemma well_chunked_app_l (l1 l2 : list string) :
  well_chunked (l1 ++ l2) = true -> well_chunked l1 = true.
Proof.
  destruct l1 as [|c l1]; [reflexivity|]. cbn [app well_chunked].
  rewrite forallb_app. intros H. apply andb_true_iff in H as [Hc H].
  apply andb_true_iff in H as [H _]. rewrite Hc, H. reflexivity.
Qed.

(** [lstrip_chars] drops whitespace from the front, and only that. *)
Lemma lstrip_chars_spec (l : list string) :
  (forall c, head (PyStr.lstrip_chars l) = Some c -> PyStr.is_space c = false)
  /\ exists pre, l = pre ++ PyStr.lstrip_chars l
                 /\ Forall (fun c => PyStr.is_space c = true) pre.
Proof.
  induction l as [|c cs (IH1 & pre & IH2 & IH3)].
  - split; [discriminate|]. exists []. split; [reflexivity | constructor].
  - cbn [PyStr.lstrip_chars]. destruct (PyStr.is_space c) eqn:Hc.
    + split; [exact IH1|]. exists (c :: pre). split.
      * cbn [app]. f_equal. exact IH2.
      * constructor; assumption.
    + split; [intros c' [= <-]; exact Hc|].
      exists []. split; [reflexivity | constructor].
Qed.

Lemma lstrip_chars_fixed (l : list string) :
  (forall c, head l = Some c -> PyStr.is_space c = false) ->
  PyStr.lstrip_chars l = l.
Proof.
  destruct l as [|c cs]; [reflexivity|]. intros H. cbn [PyStr.lstrip_chars].
  rewrite (H c eq_refl). reflexivity.
Qed.

(** [rstrip_chars] drops whitespace from the end, and only that. *)
Lemma rstrip_chars_spec (l : list string) :
  (forall c, last (PyStr.rstrip_chars l) = Some c -> PyStr.is_space c = false)
  /\ exists post, l = PyStr.rstrip_chars l ++ post
                  /\ Forall (fun c => PyStr.is_space c = true) post.
Proof.
  unfold PyStr.rstrip_chars.
  destruct (lstrip_chars_spec (reverse l)) as (H1 & pre & H2 & H3). split.
  - intros c Hc. rewrite last_reverse in Hc. apply H1, Hc.
  - exists (reverse pre). split.
    + rewrite <- reverse_app, <- H2, reverse_involutive. reflexivity.
    + apply Forall_reverse. exact H3.
Qed.

Lemma rstrip_chars_fixed (l : list string) :
  (forall c, last l = Some c -> PyStr.is_space c = false) ->
  PyStr.rstrip_chars l = l.
Proof.
  intros H. unfold PyStr.rstrip_chars. rewrite lstrip_chars_fixed.
  - apply reverse_involutive.
  - intros c Hc. rewrite head_reverse in Hc. apply H, Hc.
Qed.

(** What [strip_chars] keeps: it has no whitespace at either end, and
    the list is it with only whitespace before and after. *)
Lemma strip_chars_spec (l : list string) :
  trimmed (PyStr.strip_chars l)
  /\ exists pre post, l = pre ++ PyStr.strip_chars l ++ post
                      /\ Forall (fun c => PyStr.is_space c = true) pre
                      /\ Forall (fun c => PyStr.is_space c = true) post.
Proof.
  unfold PyStr.strip_chars.
  destruct (lstrip_chars_spec l) as (Hl1 & pre & Hl2 & Hl3).
  destruct (rstrip_chars_spec (PyStr.lstrip_chars l)) as (Hr1 & post & Hr2 & Hr3).
  split; [split|].
  - intros c Hc. apply Hl1. rewrite Hr2.
    destruct (PyStr.rstrip_chars (PyStr.lstrip_chars l)); [discriminate | exact Hc].
  - exact Hr1.
  - exists pre, post. rewrite <- Hr2. auto.
Qed.

Lemma strip_chars_fixed (l : list string) :
  trimmed l -> PyStr.strip_chars l = l.
Proof.
  intros [Hh Hl]. unfold PyStr.strip_chars.
  rewrite (lstrip_chars_fixed l Hh). apply rstrip_chars_fixed, Hl.
Qed.

Example strip_unicode_whitespace :
  PyStr.strip (Demo2.nbsp ++ " https://s3.ru-7.storage.selcloud.ru" ++ Demo2.nbsp ++ " ")
  = "https://s3.ru-7.storage.selcloud.ru"%string.
Proof. vm_compute. reflexivity. Qed.

(** The endpoint the client keeps is the given one without the
    whitespace around it, whitespace being what [str.isspace] accepts:
    its first and its last character are no whitespace, the given
    endpoint is it with only whitespace characters before and after, and
    stripping it again changes nothing.  Whenever construction succeeds,
    this is the client's [endpoint_url], and the region is [ru-7]. *)
Theorem init_keeps_stripped_endpoint (key_id secret endpoint container : string)
    (ca_bundle : option string) (w : World) :
  let url := PyStr.strip endpoint in
  (forall self, fst (__init__ key_id secret endpoint container ca_bundle w) = inr self ->
                endpoint_url (_auth self) = url /\ region_name (_auth self) = "ru-7"%string
                /\ _bucket self = container)
  /\ trimmed (PyStr.chars url)
  /\ (exists l r, endpoint = (PyStr.unchars l ++ url ++ PyStr.unchars r)%string
                  /\ Forall (fun c => PyStr.is_space c = true) l
                  /\ Forall (fun c => PyStr.is_space c = true) r)
  /\ PyStr.strip url = url.
Proof.
  intros url. subst url. unfold PyStr.strip.
  destruct (strip_chars_spec (PyStr.chars endpoint)) as (Ht & l & r & Hlr & Hl & Hr).
  assert (Hwc : well_chunked (PyStr.strip_chars (PyStr.chars endpoint)) = true).
  { pose proof (chars_well_chunked endpoint) as H. rewrite Hlr in H.
    apply well_chunked_app_r in H. apply well_chunked_app_l in H. exact H. }
  rewrite (chars_unchars _ Hwc).
  split; [|split; [|split]].
  - intros self. unfold __init__. unfold_monad. cbn [fst snd].
    destruct (truthy _ && _); [discriminate|].
    intros [= <-]. repeat split; reflexivity.
  - exact Ht.
  - exists l, r. split; [|split; assumption].
    rewrite <- !unchars_app, <- Hlr. symmetry. apply unchars_chars.
  - rewrite (strip_chars_fixed _ Ht). reflexivity.
Qed.

Lemma init_keeps_stripped_endpoint_witness :
  PyStr.strip (Demo2.nbsp ++ " https://s3.ru-7.storage.selcloud.ru ")
  = "https://s3.ru-7.storage.selcloud.ru"%string
  /\ forall self,
       fst (__init__ "k" "s" (Demo2.nbsp ++ " https://s3.ru-7.storage.selcloud.ru ")
                     "b" None Demo.world0)
       = inr self ->
       endpoint_url (_auth self) = "https://s3.ru-7.storage.selcloud.ru"%string.
Proof.
  split; [vm_compute; reflexivity|]. intros self Hself.
  destruct (init_keeps_stripped_endpoint "k" "s"
              (Demo2.nbsp ++ " https://s3.ru-7.storage.selcloud.ru ")
              "b" None Demo.world0) as (H & _).
  destruct (H self Hself) as (Hurl & _). rewrite Hurl. vm_compute. reflexivity.
Defined.

(** * The rest of the client *)

Lemma bindC_run {A B} (m : Client.C A) (f : A -> Client.C B) (s : Client.State) :
  (m ≫= f) s = match m s with
               | (inl e, s') => (inl e, s')
               | (inr a, s') => f a s'
               end.
Proof. reflexivity. Qed.

Ltac unfold_client :=
  unfold Client.try_exceptC, Client.delete_object, Client.get_object, Client.read_body,
    Client.list_objects_v2, Client.open_wb, Client.ensure_parent,
    Client.logging_info, Client.logging_error, Client.print, Client.record,
    Client.check2, Client.lift, Client.getC, Client.raiseC, connect, check,
    mbind, Client.C_bind, M_bind, mret, Client.C_ret, M_ret, modify, raise in *.

(** What the two [except] clauses of [remove_file] and [fetch_file] let
    through. *)
Lemma try_exceptC_filters {A} (body : Client.C A) (h1 h2 : exn -> Client.C A)
    (s : Client.State) (e : exn) :
  (forall e' s', exists a, fst (h1 e' s') = inr a) ->
  (forall e' s', exists a, fst (h2 e' s') = inr a) ->
  fst (Client.try_exceptC body [(is_ClientError, h1); (is_FileNotFoundError, h2)] s)
  = inl e ->
  is_ClientError e = false /\ is_FileNotFoundError e = false.
Proof.
  intros H1 H2. unfold Client.try_exceptC.
  destruct (body s) as [[e'|a] s']; cbn [Client.dispatchC]; [|discriminate].
  destruct (is_ClientError e') eqn:Hc.
  - destruct (H1 e' s') as [a Ha]. rewrite Ha. discriminate.
  - destruct (is_FileNotFoundError e') eqn:Hf.
    + destruct (H2 e' s') as [a Ha]. rewrite Ha. discriminate.
    + unfold Client.raiseC. cbn [fst]. intros [= <-]. auto.
Qed.

(** [remove_file] (of either file) when the store answers. *)
Lemma remove_file_answered (env : Client.Env2) (self : AsyncObjectStorage)
    (remote_name : string) (s : Client.State) :
  fault (Client.env1 env) OpConnect = None ->
  Client.fault2 env Client.DeleteObject = None ->
  (exists j, Client.remove_file_6_1 env self remote_name s
             = (inr tt, (set_remote (delete (_bucket self, remote_name)) (fst s), j)))
  /\ (exists j, Client.remove_file_6_3 env self remote_name s
                = (inr tt, (set_remote (delete (_bucket self, remote_name)) (fst s), j))).
Proof.
  intros Hc Hd. destruct s as [w j].
  split; eexists; unfold Client.remove_file_6_1, Client.remove_file_6_3;
    unfold_client; rewrite Hc; cbn [fst snd]; rewrite Hd; cbn [fst snd]; reflexivity.
Qed.

(** Removing a key, when the store answers: afterwards the key is gone
    and [file_exists] of it is false, every other object and the local
    file system are as before; removing a key that is not there is no
    error and changes nothing in the store.  This holds for
    [remove_file] of both files. *)
Theorem remove_file_removes_the_key (env : Client.Env2) (self : AsyncObjectStorage)
    (remote_name : string) (s : Client.State) :
  fault (Client.env1 env) OpConnect = None ->
  fault (Client.env1 env) OpHead = None ->
  Client.fault2 env Client.DeleteObject = None ->
  forall remove_file,
    remove_file = Client.remove_file_6_1 env self remote_name
    \/ remove_file = Client.remove_file_6_3 env self remote_name ->
    let r := remove_file s in
    let w' := fst (snd r) in
    fst r = inr tt
    /\ remote w' !! (_bucket self, remote_name) = None
    /\ (forall k, k <> (_bucket self, remote_name) ->
                  remote w' !! k = remote (fst s) !! k)
    /\ fs w' = fs (fst s)
    /\ (remote (fst s) !! (_bucket self, remote_name) = None ->
        remote w' = remote (fst s))
    /\ fst (Client.file_exists env self remote_name (snd r)) = inr false.
Proof.
  intros Hc Hh Hd remove_file Hwhich r w'. subst r w'.
  destruct (remove_file_answered env self remote_name s Hc Hd) as [[j1 H1] [j3 H3]].
  assert (Hrun : exists j, remove_file s
            = (inr tt, (set_remote (delete (_bucket self, remote_name)) (fst s), j))).
  { destruct Hwhich as [-> | ->]; eauto. }
  destruct Hrun as [j Hrun]. rewrite Hrun. cbn [fst snd remote fs set_remote].
  split; [reflexivity|]. split; [apply lookup_delete_eq|].
  split; [intros k Hk; apply lookup_delete_ne; congruence|].
  split; [reflexivity|]. split; [apply delete_id|].
  unfold Client.file_exists, Client.lift. cbn [fst snd].
  rewrite (file_exists_answered _ self remote_name _ Hc Hh).
  cbn [fst remote set_remote]. rewrite lookup_delete_eq. reflexivity.
Qed.

Lemma remove_file_removes_the_key_witness :
  let s := snd (Client.send_file Client.quiet Demo.client "/w/source/a.csv"
                  (Demo.world0, [])) in
  let r := Client.remove_file_6_1 Client.quiet Demo.client "a.csv" s in
  remote (fst s) !! ("dataengineer-practice", "a.csv")%string = Some Demo.a_csv
  /\ remote (fst (snd r)) !! ("dataengineer-practice", "a.csv")%string = None
  /\ fst (Client.file_exists Client.quiet Demo.client "a.csv" (snd r)) = inr false.
Proof.
  split; [vm_compute; reflexivity|].
  destruct (remove_file_removes_the_key Client.quiet Demo.client "a.csv"
              (snd (Client.send_file Client.quiet Demo.client "/w/source/a.csv"
                      (Demo.world0, [])))
              eq_refl eq_refl eq_refl _ (or_introl eq_refl))
    as (_ & H2 & _ & _ & _ & H6).
  split; [exact H2 | exact H6].
Defined.

Lemma keys_of_elem (bucket k : string) (objects : gmap (string * string) string) :
  k ∈ Client.keys_of bucket objects <-> is_Some (objects !! (bucket, k)).
Proof.
  unfold Client.keys_of. rewrite list_elem_of_fmap. split.
  - intros ([[b k'] v] & -> & Hin). apply list_elem_of_filter in Hin as [Hb Hin].
    cbn in Hb. subst b. apply elem_of_map_to_list in Hin. cbn. eauto.
  - intros [v Hv]. exists ((bucket, k), v). split; [reflexivity|].
    apply list_elem_of_filter. split; [reflexivity|].
    apply elem_of_map_to_list. exact Hv.
Qed.

(** Every key of the page that one listing returns is stored in the
    bucket. *)
Lemma first_page_stored (bucket k : string) (objects : gmap (string * string) string) :
  k ∈ Client.first_page bucket objects -> is_Some (objects !! (bucket, k)).
Proof.
  unfold Client.first_page. intros Hk. apply keys_of_elem.
  rewrite <- (sorting.merge_sort_Permutation Client.key_le).
  apply elem_of_take in Hk as (i & Hi & _). eapply list_elem_of_lookup_2, Hi.
Qed.

(** The keys [list_files] reads off a reply are the keys of the page. *)
Lemma reply_keys (bucket : string) (objects : gmap (string * string) string) :
  List.map Client.Key (default [] (Client.Contents (Client.reply bucket objects)))
  = Client.first_page bucket objects.
Proof.
  unfold Client.reply. cbn [Client.Contents].
  destruct (Client.first_page bucket objects) as [|k page]; [reflexivity|].
  cbn [default from_option id]. generalize (k :: page). intros l.
  induction l as [|k' l IH]; [reflexivity|].
  cbn [List.map Client.Key]. f_equal. exact IH.
Qed.

(** [list_files] when the store answers. *)
Lemma list_files_answered (env : Client.Env2) (self : AsyncObjectStorage)
    (s : Client.State) :
  fault (Client.env1 env) OpConnect = None ->
  Client.fault2 env Client.ListObjects = None ->
  exists j, Client.list_files env self s
            = (inr (Client.first_page (_bucket self) (remote (fst s))), (fst s, j)).
Proof.
  intros Hc Hl. destruct s as [w j]. eexists. unfold Client.list_files.
  unfold_client. rewrite Hc. cbn [fst snd]. rewrite Hl. cbn [fst snd].
  rewrite reply_keys. destruct w; reflexivity.
Qed.

(** When the listing is answered with a [ClientError], [list_files]
    prints the error and returns the empty list: the caller gets what it
    gets for an empty bucket, whatever the bucket holds. *)
Theorem list_files_hides_failure (env : Client.Env2) (self : AsyncObjectStorage)
    (s : Client.State) (code : string) :
  fault (Client.env1 env) OpConnect = None ->
  Client.fault2 env Client.ListObjects = Some (ClientError code) ->
  let r := Client.list_files env self s in
  fst r = inr []
  /\ fst (snd r) = fst s
  /\ (exists e, last (snd (snd r)) = Some e
                /\ Client.what e = Client.Printed (Client.MsgListError (ClientError code)))
  /\ forall env' s', fault (Client.env1 env') OpConnect = None ->
       Client.fault2 env' Client.ListObjects = None ->
       (forall k, remote (fst s') !! (_bucket self, k) = None) ->
       fst (Client.list_files env' self s') = fst r.
Proof.
  intros Hc Hl r. subst r. destruct s as [w j].
  assert (Hrun : Client.list_files env self (w, j)
                 = (inr [], (w, j ++ [Client.mkEntry (List.length (net w))
                                        (List.length (log w)) (List.length (stdout w))
                                        (Client.Sent (Client.AskList (_bucket self)));
                                      Client.mkEntry (List.length (net w))
                                        (List.length (log w)) (List.length (stdout w))
                                        (Client.Printed
                                           (Client.MsgListError (ClientError code)))]))).
  { unfold Client.list_files. unfold_client. rewrite Hc. cbn [fst snd]. rewrite Hl.
    cbn. rewrite <- app_assoc. destruct w; reflexivity. }
  rewrite Hrun. cbn [fst snd].
  split; [reflexivity|]. split; [reflexivity|]. split.
  - eexists. split.
    + rewrite last_app. reflexivity.
    + reflexivity.
  - intros env' s' Hc' Hl' Hempty.
    destruct (list_files_answered env' self s' Hc' Hl') as [j' Hrun']. rewrite Hrun'.
    cbn [fst]. f_equal.
    pose proof (fun k => first_page_stored (_bucket self) k (remote (fst s'))) as Hin.
    destruct (Client.first_page (_bucket self) (remote (fst s'))) as [|k l]; [reflexivity|].
    destruct (Hin k) as [v Hv]; [apply elem_of_cons; auto|].
    rewrite Hempty in Hv. discriminate.
Qed.

Lemma list_files_hides_failure_witness :
  let s := snd (Client.send_file Client.quiet Demo.client "/w/source/a.csv"
                  (Demo.world0, [])) in
  remote (fst s) !! ("dataengineer-practice", "a.csv")%string = Some Demo.a_csv
  /\ fst (Client.list_files Client.list_refused Demo.client s) = inr [].
Proof.
  intros s. split; [vm_compute; reflexivity|].
  destruct (list_files_hides_failure Client.list_refused Demo.client s "AccessDenied"
              eq_refl eq_refl) as (H & _).
  exact H.
Defined.

(** [list_files] asks once.  Whatever the store holds and whatever the
    environment does, the call leaves the world as it was and adds to the
    journal a single request, a listing of the client's bucket, or none
    when the connection is not made; it never asks for a further page,
    whether or not the reply says that it was cut short. *)
Theorem list_files_asks_once (env : Client.Env2) (self : AsyncObjectStorage)
    (s : Client.State) :
  let r := Client.list_files env self s in
  fst (snd r) = fst s
  /\ exists l, snd (snd r) = snd s ++ l
               /\ Client.asks l
                  = match fault (Client.env1 env) OpConnect with
                    | Some _ => []
                    | None => [Client.AskList (_bucket self)]
                    end.
Proof.
  intros r. subst r. destruct s as [w j]. unfold Client.list_files. unfold_client.
  cbn [fst snd].
  assert (Hw : forall v : World,
            mkWorld (fs v) (remote v) (net v) (log v) (stdout v) (loop_tasks v) = v)
    by (intros []; reflexivity).
  destruct (fault (Client.env1 env) OpConnect) as [e|]; cbn [fst snd Client.dispatchC].
  - destruct (is_ClientError e); cbn [fst snd].
    + split; [reflexivity|]. eexists. split; reflexivity.
    + split; [reflexivity|]. exists []. split; [symmetry; apply app_nil_r | reflexivity].
  - destruct (Client.fault2 env Client.ListObjects) as [e|];
      cbn [fst snd Client.dispatchC].
    + destruct (is_ClientError e); cbn [fst snd].
      * split; [reflexivity|]. eexists. split; [symmetry; apply app_assoc | reflexivity].
      * split; [reflexivity|]. eexists. split; reflexivity.
    + split; [reflexivity|]. eexists. split; reflexivity.
Qed.














(** A target whose text ends in a slash is no file to [open]: the
    directories are made, nothing is written, and the exception is none
    that [fetch_file] catches.  An empty target makes [open] raise
    [FileNotFoundError], which [fetch_file] prints. *)
Example fetch_file_odd_targets :
  let s := snd (Client.send_file Client.quiet Demo.client "/w/source/a.csv"
                  (Demo.world0, [])) in
  let r1 := Client.fetch_file_6_1 Client.quiet Demo.client "a.csv" "/w/downloads/x.csv/" s in
  let r2 := Client.fetch_file_6_1 Client.quiet Demo.client "a.csv" "" s in
  fst r1 = inl (IsADirectoryError "/w/downloads/x.csv/")
  /\ fs (fst (snd r1)) !! of_string "/w/downloads/x.csv" = None
  /\ fst r2 = inr tt
  /\ (Client.what <$> last (snd (snd r2)))
     = Some (Client.Printed (Client.MsgGetMissing (FileNotFoundError ""))).
Proof. vm_compute. repeat split; reflexivity. Qed.



(** Downloading a key that is not stored, when the store answers:
    [fetch_file] (of either file) returns normally; the error is only
    written out (printed in 6_1.py, logged in 6_3.py); no file is
    written, no directory is made, and the store is as before. *)
Theorem fetch_file_missing_key (env : Client.Env2) (self : AsyncObjectStorage)
    (remote_name local_target : string) (s : Client.State) :
  fault (Client.env1 env) OpConnect = None ->
  Client.fault2 env Client.GetObject = None ->
  remote (fst s) !! (_bucket self, remote_name) = None ->
  let r1 := Client.fetch_file_6_1 env self remote_name local_target s in
  let r3 := Client.fetch_file_6_3 env self remote_name local_target s in
  fst r1 = inr tt /\ fst (snd r1) = fst s
  /\ (exists e, last (snd (snd r1)) = Some e
                /\ Client.what e
                   = Client.Printed (Client.MsgGetClientError (ClientError "NoSuchKey")))
  /\ fst r3 = inr tt /\ fst (snd r3) = fst s
  /\ (exists e, last (snd (snd r3)) = Some e
                /\ Client.what e
                   = Client.Logged ERROR
                       (Client.MsgGetClientError (ClientError "NoSuchKey"))).
Proof.
  intros Hc Hg Hnone r1 r3. subst r1 r3. destruct s as [w j]. cbn [fst] in *.
  assert (Hget : Client.get_object env (_bucket self) remote_name (w, j)
                 = (inl (ClientError "NoSuchKey"),
                    (w, j ++ [Client.mkEntry (List.length (net w)) (List.length (log w))
                                (List.length (stdout w))
                                (Client.Sent (Client.AskGet (_bucket self) remote_name))]))).
  { unfold Client.get_object. unfold_client. cbn [fst snd]. rewrite Hg. cbn [fst snd].
    rewrite Hnone. reflexivity. }
  assert (H1 : exists e,
            Client.fetch_file_6_1 env self remote_name local_target (w, j)
            = (inr tt, (w, (j ++ [Client.mkEntry (List.length (net w))
                                   (List.length (log w)) (List.length (stdout w))
                                   (Client.Sent (Client.AskGet (_bucket self) remote_name))])
                           ++ [e]))
            /\ Client.what e
               = Client.Printed (Client.MsgGetClientError (ClientError "NoSuchKey"))).
  { eexists. split; [|shelve].
    unfold Client.fetch_file_6_1, Client.try_exceptC. rewrite bindC_run.
    unfold Client.lift at 1. unfold connect, check. rewrite Hc. cbn [fst snd mret M_ret].
    rewrite bindC_run, Hget. cbn [Client.dispatchC is_ClientError].
    unfold Client.print, Client.record. cbn [fst snd]. reflexivity.
    Unshelve. reflexivity. }
  assert (H3 : exists e,
            Client.fetch_file_6_3 env self remote_name local_target (w, j)
            = (inr tt, (w, (j ++ [Client.mkEntry (List.length (net w))
                                   (List.length (log w)) (List.length (stdout w))
                                   (Client.Sent (Client.AskGet (_bucket self) remote_name))])
                           ++ [e]))
            /\ Client.what e
               = Client.Logged ERROR (Client.MsgGetClientError (ClientError "NoSuchKey"))).
  { eexists. split; [|shelve].
    unfold Client.fetch_file_6_3, Client.try_exceptC. rewrite bindC_run.
    unfold Client.lift at 1. unfold connect, check. rewrite Hc. cbn [fst snd mret M_ret].
    rewrite bindC_run, Hget. cbn [Client.dispatchC is_ClientError].
    unfold Client.logging_error, Client.record. cbn [fst snd]. reflexivity.
    Unshelve. reflexivity. }
  destruct H1 as (e1 & H1 & He1). destruct H3 as (e3 & H3 & He3).
  rewrite H1, H3. cbn [fst snd].
  split; [reflexivity|]. split; [reflexivity|].
  split; [exists e1; split; [apply last_snoc | exact He1]|].
  split; [reflexivity|]. split; [reflexivity|].
  exists e3. split; [apply last_snoc | exact He3].
Qed.

Lemma fetch_file_missing_key_witness :
  let r := Client.fetch_file_6_1 Client.quiet Demo.client "nope.csv" "/w/downloads/y.csv"
             (Demo.world0, []) in
  fst r = inr tt /\ fst (snd r) = Demo.world0.
Proof.
  destruct (fetch_file_missing_key Client.quiet Demo.client "nope.csv"
              "/w/downloads/y.csv" (Demo.world0, []) eq_refl eq_refl eq_refl)
    as (H1 & H2 & _).
  split; [exact H1 | exact H2].
Defined.

(** Whatever happens, an exception that [fetch_file] or [remove_file]
    (of either file) lets out is neither a [ClientError] nor a
    [FileNotFoundError], and one that [list_files] lets out is no
    [ClientError]: these are written out and swallowed. *)
Theorem client_calls_swallow_client_errors (env : Client.Env2)
    (self : AsyncObjectStorage) (remote_name local_target : string)
    (s : Client.State) (e : exn) :
  (fst (Client.fetch_file_6_1 env self remote_name local_target s) = inl e
   \/ fst (Client.fetch_file_6_3 env self remote_name local_target s) = inl e
   \/ fst (Client.remove_file_6_1 env self remote_name s) = inl e
   \/ fst (Client.remove_file_6_3 env self remote_name s) = inl e ->
   is_ClientError e = false /\ is_FileNotFoundError e = false)
  /\ (fst (Client.list_files env self s) = inl e -> is_ClientError e = false).
Proof.
  split.
  - intros [H | [H | [H | H]]]; revert H; apply try_exceptC_filters;
      intros e' s'; exists tt; reflexivity.
  - unfold Client.list_files, Client.try_exceptC.
    match goal with
    | |- context [match ?b s with _ => _ end] => destruct (b s) as [[e'|a] s']
    end; cbn [Client.dispatchC]; [|discriminate].
    destruct (is_ClientError e') eqn:Hc.
    + discriminate.
    + unfold Client.raiseC. cbn [fst]. intros [= <-]. exact Hc.
Qed.

(** * Duplicate triggers and accepted paths *)

(** A second run for the same path, started after a first run in which
    every stage succeeded, finds the source gone: it fails at the read
    with [FileNotFoundError], sends no request, and changes nothing but
    the log.  The first run's upload is not repeated. *)
Theorem second_run_finds_source_gone (env : Env) (self : Pipeline.CSVHandler)
    (file_path : Path) (w : World) (body : string) (df : DataFrame) :
  let w1 := snd (Pipeline.process_csv env self file_path w) in
  let e := FileNotFoundError (str file_path) in
  (forall o, fault env o = None) ->
  staging_ready env self file_path w body df ->
  archive_ready self file_path w ->
  Pipeline.process_csv env self file_path w1
  = (inr tt, add_log ERROR (MsgRunError file_path e)
               (add_log INFO (MsgNewFile file_path) w1))
  /\ net (snd (Pipeline.process_csv env self file_path w1)) = net w1
  /\ List.length (net w1) = S (List.length (net w)).
Proof.
  intros w1 e Hok Hs Ha.
  destruct (process_csv_clean_run env self file_path w body df Hok Hs Ha)
    as (_ & Hfs & _ & Hnet & _).
  destruct Ha as (_ & _ & Hne1 & Hne2 & Hne3).
  assert (Hgone : fs w1 !! file_path = None).
  { subst w1. rewrite Hfs.
    rewrite lookup_delete_ne by (intros E; apply Hne1; exact E).
    rewrite lookup_insert_ne by exact Hne2. apply lookup_delete_eq. }
  assert (Hread : fst (read_csv env file_path w1) = inl e).
  { unfold read_csv. unfold_monad. rewrite (Hok OpRead). cbn [fst snd].
    rewrite Hgone. reflexivity. }
  rewrite (process_csv_read_fails env self file_path w1 e Hread).
  split; [reflexivity|]. split; [reflexivity|].
  subst w1. rewrite Hnet, length_app. cbn [List.length]. lia.
Qed.

Lemma second_run_finds_source_gone_witness :
  let w1 := snd (Pipeline.process_csv Demo.env_ok Demo.handler Demo2.a_path Demo.world0) in
  states_of_log (log (snd (Pipeline.process_csv Demo.env_ok Demo.handler Demo2.a_path w1)))
  = [Detected; At Read; At Filtered; At Staged; At Uploaded; At Archived; At Cleaned;
     Detected; Failed Read (FileNotFoundError "/w/source/a.csv")].
Proof.
  intros w1.
  destruct (second_run_finds_source_gone Demo.env_ok Demo.handler Demo2.a_path
              Demo.world0 Demo.a_csv Demo2.a_df demo_no_faults
              (demo_staging_ready _ eq_refl eq_refl) demo_archive_ready) as (H & _).
  fold w1 in H. rewrite H. vm_compute. reflexivity.
Defined.

Lemma suffix_nonempty_name (p : Path) : suffix p <> ""%string -> name p <> ""%string.
Proof.
  unfold suffix. intros H Hn. rewrite Hn in H. apply H. reflexivity.
Qed.

(** Every path the watcher hands to the loop is one [process_csv] can
    work on: it was parsed from the event's text, so its components are
    proper (non-empty, no slash, not a single dot), its name is not
    empty, and its suffix is [.csv] up to case. *)
Theorem scheduled_paths_are_proper (events : list Pipeline.FileSystemEvent) (p : Path) :
  p ∈ scheduled events ->
  well_formed p = true /\ name p <> ""%string
  /\ PyStr.lower (suffix p) = ".csv"%string
  /\ PyStr.contains "/" (name p) = false.
Proof.
  unfold scheduled. intros Hp. apply list_elem_of_In, in_map_iff in Hp.
  destruct Hp as (ev & <- & Hev). apply List.filter_In in Hev as [_ Hcsv].
  unfold is_csv_file in Hcsv. apply andb_prop in Hcsv as [_ Hs].
  apply String.eqb_eq in Hs.
  split; [apply of_string_well_formed|]. split; [|split; [exact Hs|]].
  - apply suffix_nonempty_name. intros E. rewrite E in Hs. discriminate Hs.
  - apply name_no_slash, of_string_well_formed.
Qed.

Lemma scheduled_paths_are_proper_witness :
  well_formed (of_string "/w/source/B.CSV") = true
  /\ name (of_string "/w/source/B.CSV") <> ""%string.
Proof.
  destruct (scheduled_paths_are_proper
              [Demo.created "/w/source/b.txt"; Demo.created "/w/source/B.CSV"]
              (of_string "/w/source/B.CSV")) as (H1 & H2 & _).
  - vm_compute. apply elem_of_cons. left. reflexivity.
  - split; [exact H1 | exact H2].
Defined.
